(** * solanapoet: the paginated rarity scans and their checkpoint

    A shallow embedding of the Python scripts that walk an NFT collection
    page by page through the Helius RPC API, look for assets whose rarity
    trait is "ultimate" and record them in a Google Sheets ledger:

    - [src/track_ultimate_nfts.py]          (module [TrackUltimate])
    - [src/scripts/track_ultimate_nfts.py]  (module [Tracker])
    - [src/fetch_ultimate_nfts.py]          (module [FetchUltimate])
    - [src/search_ultimates.py]             (module [SearchUltimates])
    - [src/search_ultimate.py]              (module [SearchUltimate])
    - [src/add_ultimate_nfts.py]            (module [AddUltimate])

    The remote API and the spreadsheet are collaborators of the scripts.
    They are modelled as oracles passed to the embedded functions, so every
    statement below quantifies over what those services may answer. *)

From Stdlib Require Import ZArith List String Ascii Bool Lia Sorted.
Import ListNotations.

Local Open Scope string_scope.
Local Open Scope Z_scope.
Local Open Scope list_scope.

(** ** Python values

    Everything the scripts touch comes out of [response.json()], hence is a
    JSON value.  Numbers are restricted to integers: no script does
    arithmetic on a decoded number.  A [JObj] lists the items of a dict in
    insertion order (iteration order matters to [for x in d]); its keys are
    pairwise distinct in a decoded document.  Characters are [ascii]; every
    string literal the scripts compare against is ASCII. *)

Module Py.

#[local] Set Warnings "-register-all".

Inductive json : Type :=
| JNull
| JBool (b : bool)
| JNum (n : Z)
| JStr (s : string)
| JArr (items : list json)
| JObj (fields : list (string * json)).

(** The exception classes that can reach a handler of the scripts.
    [ConnectionError], [HTTPError] and [JSONDecodeError] are subclasses of
    [requests.exceptions.RequestException] ([JSONDecodeError] is one since
    requests 2.27); [ServiceError] stands for what the Sheets client raises. *)
Inductive exn : Type :=
| AttributeError
| KeyError
| TypeError
| IndexError
| ConnectionError
| HTTPError
| JSONDecodeError
| ServiceError.

Definition is_request_exception (e : exn) : bool :=
  match e with
  | ConnectionError | HTTPError | JSONDecodeError => true
  | _ => false
  end.

(** A computation either returns or raises. *)
Inductive res (A : Type) : Type :=
| Ok (a : A)
| Raise (e : exn).
Arguments Ok {A} a.
Arguments Raise {A} e.

Definition bind {A B : Type} (c : res A) (k : A -> res B) : res B :=
  match c with
  | Ok a => k a
  | Raise e => Raise e
  end.

Fixpoint assoc (k : string) (m : list (string * json)) : option json :=
  match m with
  | [] => None
  | (k', v) :: m' => if String.eqb k k' then Some v else assoc k m'
  end.

(** [d.get(k, dflt)]: only a dict has the method. *)
Definition dict_get (d : json) (k : string) (dflt : json) : res json :=
  match d with
  | JObj m => Ok (match assoc k m with Some v => v | None => dflt end)
  | _ => Raise AttributeError
  end.

(** [d[k]] for a string key [k]. *)
Definition getitem (d : json) (k : string) : res json :=
  match d with
  | JObj m => match assoc k m with Some v => Ok v | None => Raise KeyError end
  | _ => Raise TypeError
  end.

(** [v[0]]. *)
Definition getitem0 (v : json) : res json :=
  match v with
  | JArr (x :: _) => Ok x
  | JArr [] => Raise IndexError
  | JStr (String c _) => Ok (JStr (String c EmptyString))
  | JStr EmptyString => Raise IndexError
  | JObj _ => Raise KeyError
  | _ => Raise TypeError
  end.

(** [str.lower] on one character.  Only the letters A to Z are folded:
    the characters Python folds beyond them do not become letters of
    "rarity", "ultimate", "rare" or "legendary", the words the results are
    compared with. *)
Definition lower_ascii (c : ascii) : ascii :=
  let n := nat_of_ascii c in
  if (Nat.leb 65 n && Nat.leb n 90)%bool then ascii_of_nat (n + 32) else c.

Fixpoint lower (s : string) : string :=
  match s with
  | EmptyString => EmptyString
  | String c s' => String (lower_ascii c) (lower s')
  end.

(** [v.lower()]: only a str has the method. *)
Definition str_lower (v : json) : res json :=
  match v with
  | JStr s => Ok (JStr (lower s))
  | _ => Raise AttributeError
  end.

(** [isinstance(v, str)]. *)
Definition is_str (v : json) : bool :=
  match v with
  | JStr _ => true
  | _ => false
  end.

(** [v == s] for a string literal [s]. *)
Definition eq_str (v : json) (s : string) : bool :=
  match v with
  | JStr t => String.eqb t s
  | _ => false
  end.

(** Truth value of [v], as tested by [if v] and [not v]. *)
Definition truthy (v : json) : bool :=
  match v with
  | JNull => false
  | JBool b => b
  | JNum n => negb (n =? 0)
  | JStr EmptyString => false
  | JStr _ => true
  | JArr [] => false
  | JArr _ => true
  | JObj [] => false
  | JObj _ => true
  end.

(** [len(v)]. *)
Definition py_len (v : json) : res Z :=
  match v with
  | JStr s => Ok (Z.of_nat (String.length s))
  | JArr l => Ok (Z.of_nat (List.length l))
  | JObj m => Ok (Z.of_nat (List.length m))
  | _ => Raise TypeError
  end.

Fixpoint chars (s : string) : list json :=
  match s with
  | EmptyString => []
  | String c s' => JStr (String c EmptyString) :: chars s'
  end.

(** The elements visited by [for x in v]. *)
Definition py_iter (v : json) : res (list json) :=
  match v with
  | JArr l => Ok l
  | JObj m => Ok (map (fun kv => JStr (fst kv)) m)
  | JStr s => Ok (chars s)
  | _ => Raise TypeError
  end.

Definition is_substring (k s : string) : bool :=
  match String.index 0 k s with
  | Some _ => true
  | None => false
  end.

(** [k in v] for a string literal [k]. *)
Definition contains (k : string) (v : json) : res bool :=
  match v with
  | JObj m => Ok (match assoc k m with Some _ => true | None => false end)
  | JArr l => Ok (existsb (fun x => eq_str x k) l)
  | JStr s => Ok (is_substring k s)
  | _ => Raise TypeError
  end.

(** A [for] loop whose body may raise: the state reached so far survives
    the exception, as the mutations of a Python loop do. *)
Fixpoint for_each {A S : Type} (body : S -> A -> S * option exn)
    (l : list A) (s : S) : S * option exn :=
  match l with
  | [] => (s, None)
  | x :: l' =>
      match body s x with
      | (s', None) => for_each body l' s'
      | (s', Some e) => (s', Some e)
      end
  end.

(** What [requests.post] can come back with: a transport failure, or a
    response with a status code and a body that decodes as JSON or not. *)
Inductive outcome : Type :=
| ConnFail
| Response (status : Z) (body : option json).

(** [response.json()]. *)
Definition response_json (body : option json) : res json :=
  match body with
  | Some data => Ok data
  | None => Raise JSONDecodeError
  end.

(** [response.raise_for_status()]. *)
Definition raise_for_status (status : Z) : res unit :=
  if (400 <=? status) && (status <? 600) then Raise HTTPError else Ok tt.

End Py.

Import Py.

Notation "x <- c ;; k" := (Py.bind c (fun x => k))
  (at level 100, c at next level, right associativity).

(** ** [src/track_ultimate_nfts.py]

    The page-numbered scan that keeps no checkpoint and writes its findings
    to [ultimate_nfts.json] when the loop is left. *)

Module TrackUltimate.

(** The dict appended to [ultimate_nfts] for a matching attribute. *)
Record entry : Type := {
  e_id : json;
  e_name : json;
  e_rarity : json;
  e_image : json;
  e_attributes : json
}.

(** The condition of the [if] inside the attribute loop:
    [attr.get("trait_type") == "rarity" and isinstance(attr.get("value"), str)
     and attr["value"].lower() == "ultimate"]. *)
Definition attr_matches (attr : json) : res bool :=
  t <- dict_get attr "trait_type" JNull ;;
  if eq_str t "rarity" then
    v <- dict_get attr "value" JNull ;;
    if is_str v then
      v' <- getitem attr "value" ;;
      l <- str_lower v' ;;
      Ok (eq_str l "ultimate")
    else Ok false
  else Ok false.

(** The dict literal, its items evaluated from left to right. *)
Definition make_entry (nft content metadata attributes attr : json) : res entry :=
  i <- getitem nft "id" ;;
  n <- dict_get metadata "name" JNull ;;
  r <- getitem attr "value" ;;
  files <- dict_get content "files" (JArr [JObj []]) ;;
  f <- getitem0 files ;;
  u <- dict_get f "uri" (JStr "") ;;
  Ok {| e_id := i; e_name := n; e_rarity := r; e_image := u;
        e_attributes := attributes |}.

(** Body of [for attr in attributes]. *)
Definition visit_attr (nft content metadata attributes : json)
    (found : list entry) (attr : json) : list entry * option exn :=
  match attr_matches attr with
  | Raise e => (found, Some e)
  | Ok false => (found, None)
  | Ok true =>
      match make_entry nft content metadata attributes attr with
      | Raise e => (found, Some e)
      | Ok u => (found ++ [u], None)
      end
  end.

(** Body of [for nft in items]. *)
Definition visit_nft (found : list entry) (nft : json) : list entry * option exn :=
  match
    (content <- dict_get nft "content" (JObj []) ;;
     metadata <- dict_get content "metadata" (JObj []) ;;
     attributes <- dict_get metadata "attributes" (JArr []) ;;
     attrs <- py_iter attributes ;;
     Ok (content, metadata, attributes, attrs))
  with
  | Raise e => (found, Some e)
  | Ok (content, metadata, attributes, attrs) =>
      for_each (visit_attr nft content metadata attributes) attrs found
  end.

Definition last_page_below : Z := 1000.

Inductive event : Type :=
| Post (page : Z)
| Sleep (ms : Z).

(** How the [while True] loop was left. *)
Inductive finish : Type :=
| ReachedEnd
| ErrorOnPage (e : exn)
| Uncaught (e : exn)
| OutOfFuel.

Record report : Type := {
  trace : list event;
  ultimate_nfts : list entry;
  total_checked : Z;
  last_page : Z;
  how : finish
}.

Definition emit (evs : list event) (r : report) : report :=
  {| trace := evs ++ trace r; ultimate_nfts := ultimate_nfts r;
     total_checked := total_checked r; last_page := last_page r;
     how := how r |}.

(** [data = response.json(); items = data["result"]["items"]; len(items)]. *)
Definition page_items (body : option json) : res (json * Z) :=
  data <- response_json body ;;
  result <- getitem data "result" ;;
  items <- getitem result "items" ;;
  n <- py_len items ;;
  Ok (items, n).

(** The loop of [find_all_ultimate_nfts].  [api k p] is the answer to the
    [k]-th request of the run when it asks for page [p].  A failure of
    [requests.post] itself happens outside the [try] and ends the process. *)
Fixpoint scan (api : nat -> Z -> outcome) (fuel : nat) (calls : nat)
    (page : Z) (found : list entry) (total : Z) : report :=
  let stop found total h :=
    {| trace := [Post page]; ultimate_nfts := found; total_checked := total;
       last_page := page; how := h |} in
  match fuel with
  | O => {| trace := []; ultimate_nfts := found; total_checked := total;
            last_page := page; how := OutOfFuel |}
  | S fuel' =>
      match api calls page with
      | ConnFail => stop found total (Uncaught ConnectionError)
      | Response _ body =>
          match page_items body with
          | Raise e => stop found total (ErrorOnPage e)
          | Ok (items, n) =>
              let total' := total + n in
              match py_iter items with
              | Raise e => stop found total' (ErrorOnPage e)
              | Ok nfts =>
                  match for_each visit_nft nfts found with
                  | (found', Some e) => stop found' total' (ErrorOnPage e)
                  | (found', None) =>
                      if n <? last_page_below
                      then stop found' total' ReachedEnd
                      else emit [Post page; Sleep 500]
                             (scan api fuel' (S calls) (page + 1) found' total')
                  end
              end
          end
      end
  end.


Definition posted (r : report) : list Z :=
  flat_map (fun e => match e with Post p => [p] | _ => [] end) (trace r).

(** The entries appended while one asset is visited. *)
Definition matches_of (nft : json) : list entry * option exn := visit_nft [] nft.

(** An entry of [ultimate_nfts] as [json.dump] writes it. *)
Definition entry_json (u : entry) : json :=
  JObj [("id", e_id u); ("name", e_name u); ("rarity", e_rarity u);
        ("image", e_image u); ("attributes", e_attributes u)].

(** The document written to [ultimate_nfts.json] once the loop is left;
    [now] is the text of [datetime.now().isoformat()]. *)
Definition result_document (now : string) (r : report) : json :=
  JObj [("last_updated", JStr now);
        ("total_nfts_checked", JNum (total_checked r));
        ("ultimate_nfts", JArr (map entry_json (ultimate_nfts r)))].

End TrackUltimate.

(** ** [src/scripts/track_ultimate_nfts.py]

    The page-numbered scan that saves a checkpoint after each page and
    appends every ultimate asset to the spreadsheet as soon as it is seen. *)

Module Tracker.

(** The record dumped to [checkpoint.json].  The file also carries a
    [timestamp] item (the wall-clock time of the write), which no code
    reads back; it is left out. *)
Record checkpoint : Type := {
  ck_page : Z;
  ck_last_date : json
}.

(** How one invocation of the Sheets client behaves: it answers, or the
    read of the existing rows raises, or the append raises. *)
Inductive sheets_status : Type :=
| SheetsOk
| GetFails
| AppendFails.

(** The collaborators.  [api k p] answers the [k]-th request of the process
    when it asks for page [p]; [sheets k] is the behaviour of the
    spreadsheet service during the [k]-th call of
    [add_ultimate_nft_to_sheet]; [cell v] is the text the spreadsheet gives
    back for a value [v] appended to it; [init_ok] tells whether the header
    update of [main] goes through. *)
Record env : Type := {
  api : nat -> Z -> outcome;
  sheets : nat -> sheets_status;
  cell : json -> string;
  init_ok : bool
}.

(** The state outside the process: the checkpoint file, the rows of the
    range [ultimates!A2:C], and the two call counters. *)
Record world : Type := {
  file : option checkpoint;
  sheet : list (list string);
  posts : nat;
  sheet_calls : nat
}.

(** What the process does that can be observed: its requests, its pauses
    (in milliseconds) and the lines it prints. *)
Inductive event : Type :=
| Post (page : Z)
| Sleep (ms : Z)
| Fetching (page : Z)
| CheckpointSaved (page : Z) (last_date : json)
| CheckpointLoaded (page : Z) (last_date : json)
| AlreadyInSheet (address : json)
| AddedToSheet (name : json)
| SheetError
| FoundUltimate (name : json)
| ApiError
| PaginationLimit
| MalformedPage (page : Z)
| FetchError (attempt : Z) (e : exn)
| Retrying
| MaxRetries
| KeepCheckpoint
| CheckpointRemoved
| InitError.

Definition CHECKPOINT_LIMIT : Z := 500000.

Definition save_checkpoint (w : world) (page : Z) (last_date : json)
    : world * list event :=
  ({| file := Some {| ck_page := page; ck_last_date := last_date |};
      sheet := sheet w; posts := posts w; sheet_calls := sheet_calls w |},
   [CheckpointSaved page last_date]).

Definition load_checkpoint (w : world) : (Z * json) * list event :=
  match file w with
  | Some c => ((ck_page c, ck_last_date c),
               [CheckpointLoaded (ck_page c) (ck_last_date c)])
  | None => ((1, JNull), [])
  end.

(** The dict [ultimate_nft] handed to the sink. *)
Record ultimate_nft : Type := {
  address : json;
  name : json;
  owner : json
}.

(** [row and row[0] == nft_address], on a row read from the sheet. *)
Definition row_has (nft_address : json) (row : list string) : bool :=
  match row with
  | [] => false
  | c :: _ => eq_str nft_address c
  end.

Definition add_ultimate_nft_to_sheet (E : env) (w : world) (nft_data : ultimate_nft)
    : world * list event :=
  let called rows :=
    {| file := file w; sheet := rows; posts := posts w;
       sheet_calls := S (sheet_calls w) |} in
  match sheets E (sheet_calls w) with
  | GetFails => (called (sheet w), [SheetError])
  | status =>
      if existsb (row_has (address nft_data)) (sheet w)
      then (called (sheet w), [AlreadyInSheet (address nft_data)])
      else
        match status with
        | AppendFails => (called (sheet w), [SheetError])
        | _ =>
            (called (sheet w ++ [[cell E (address nft_data);
                                  cell E (name nft_data);
                                  cell E (owner nft_data)]]),
             [AddedToSheet (name nft_data)])
        end
  end.

(** Body of [for attr in attributes]; the state is [(created_date, is_ultimate)]. *)
Definition visit_attr (st : json * bool) (attr : json) : (json * bool) * option exn :=
  match dict_get attr "trait_type" JNull with
  | Raise e => (st, Some e)
  | Ok t =>
      if eq_str t "created" then
        match dict_get attr "value" JNull with
        | Raise e => (st, Some e)
        | Ok v => ((v, snd st), None)
        end
      else
        match
          (t' <- dict_get attr "trait_type" (JStr "") ;;
           lt <- str_lower t' ;;
           if eq_str lt "rarity" then
             v <- dict_get attr "value" (JStr "") ;;
             lv <- str_lower v ;;
             Ok (eq_str lv "ultimate")
           else Ok false)
        with
        | Raise e => (st, Some e)
        | Ok true => ((fst st, true), None)
        | Ok false => (st, None)
        end
  end.

(** The variables of [fetch_nfts_from_collection] that outlive one asset,
    with the outside world and the events so far. *)
Record state : Type := {
  w : world;
  last_date : json;
  all_nfts : list json;
  log : list event
}.

Definition say (st : state) (evs : list event) : state :=
  {| w := w st; last_date := last_date st; all_nfts := all_nfts st;
     log := log st ++ evs |}.

(** [nft.get('content', {}).get('metadata', {}).get(k, dflt)]. *)
Definition metadata_get (nft : json) (k : string) (dflt : json) : res json :=
  content <- dict_get nft "content" (JObj []) ;;
  metadata <- dict_get content "metadata" (JObj []) ;;
  dict_get metadata k dflt.

Definition make_ultimate_nft (nft : json) : res ultimate_nft :=
  a <- getitem nft "id" ;;
  n <- metadata_get nft "name" (JStr "") ;;
  ownership <- dict_get nft "ownership" (JObj []) ;;
  o <- dict_get ownership "owner" (JStr "") ;;
  Ok {| address := a; name := n; owner := o |}.

(** The attribute loop of one asset: [(created_date, is_ultimate)] when it
    is over. *)
Definition scan_attrs (nft : json) : res (json * bool) :=
  attributes <- metadata_get nft "attributes" (JArr []) ;;
  attrs <- py_iter attributes ;;
  match for_each visit_attr attrs (JNull, false) with
  | (_, Some e) => Raise e
  | (found, None) => Ok found
  end.

(** Body of [for nft in batch_nfts]. *)
Definition visit_nft (E : env) (st : state) (nft : json) : state * option exn :=
  match scan_attrs nft with
  | Raise e => (st, Some e)
  | Ok (created_date, is_ultimate) =>
      let date := if truthy created_date then created_date else last_date st in
      let st1 := {| w := w st; last_date := date; all_nfts := all_nfts st;
                    log := log st |} in
      if is_ultimate then
        match make_ultimate_nft nft with
        | Raise e => (st1, Some e)
        | Ok u =>
            let (w', evs) := add_ultimate_nft_to_sheet E (w st1) u in
            ({| w := w'; last_date := date; all_nfts := all_nfts st ++ [nft];
                log := log st ++ FoundUltimate (name u) :: evs |}, None)
        end
      else
        ({| w := w st; last_date := date; all_nfts := all_nfts st ++ [nft];
            log := log st |}, None)
  end.

(** How the body of the [try] ends when no exception escapes it. *)
Inductive outcome_of_try : Type :=
| ReturnDepthLimit
| ReturnApiError
| ReturnMalformed
| BreakNoMore
| BreakPageDone.

Definition posted (st : state) (page : Z) : state :=
  {| w := {| file := file (w st); sheet := sheet (w st);
             posts := S (posts (w st)); sheet_calls := sheet_calls (w st) |};
     last_date := last_date st; all_nfts := all_nfts st;
     log := log st ++ [Post page] |}.

(** ['result' not in data or 'items' not in data['result']]. *)
Definition lacks_items (data : json) : res bool :=
  has_result <- contains "result" data ;;
  if negb has_result then Ok true
  else
    result <- getitem data "result" ;;
    has_items <- contains "items" result ;;
    Ok (negb has_items).

(** The test made on an error object:
    ['Paginating beyond 500000 items' in data['error'].get('message', '')]. *)
Definition is_depth_limit (data : json) : res bool :=
  err <- getitem data "error" ;;
  msg <- dict_get err "message" (JStr "") ;;
  contains "Paginating beyond 500000 items" msg.

(** What the answer to a request turns out to be, once decoded. *)
Inductive decoded : Type :=
| DepthLimitError
| AnyOtherError
| NoItems
| Batch (batch_nfts : json).

(** From [response.raise_for_status()] to [batch_nfts = data['result']['items']]:
    the lines printed on the way, and what was found or raised. *)
Definition read_answer (page : Z) (answer : outcome) : list event * res decoded :=
  match answer with
  | ConnFail => ([], Raise ConnectionError)
  | Response status body =>
      match (_ <- raise_for_status status ;; response_json body) with
      | Raise e => ([], Raise e)
      | Ok data =>
          match contains "error" data with
          | Raise e => ([], Raise e)
          | Ok true =>
              match is_depth_limit data with
              | Raise e => ([ApiError], Raise e)
              | Ok true => ([ApiError; PaginationLimit], Ok DepthLimitError)
              | Ok false => ([ApiError], Ok AnyOtherError)
              end
          | Ok false =>
              match lacks_items data with
              | Raise e => ([], Raise e)
              | Ok true => ([MalformedPage page], Ok NoItems)
              | Ok false =>
                  match (result <- getitem data "result" ;; getitem result "items") with
                  | Raise e => ([], Raise e)
                  | Ok batch_nfts => ([], Ok (Batch batch_nfts))
                  end
              end
          end
      end
  end.

(** The end of the [try] for a page whose assets were all visited: the
    checkpoint is saved and the process pauses for half a second. *)
Definition page_done (st : state) (page : Z) : state :=
  let (w', evs) := save_checkpoint (w st) page (last_date st) in
  {| w := w'; last_date := last_date st; all_nfts := all_nfts st;
     log := log st ++ evs ++ [Sleep 500] |}.

(** The statements between [try:] and [except]: one request for [page] and
    the handling of its answer.  The exception, if any, is returned with the
    state reached when it was raised. *)
Definition try_page (E : env) (page : Z) (st : state)
    : state * res outcome_of_try :=
  let answer := api E (posts (w st)) page in
  let st := posted st page in
  match read_answer page answer with
  | (evs, Raise e) => (say st evs, Raise e)
  | (evs, Ok DepthLimitError) => (say st evs, Ok ReturnDepthLimit)
  | (evs, Ok AnyOtherError) => (say st evs, Ok ReturnApiError)
  | (evs, Ok NoItems) => (say st evs, Ok ReturnMalformed)
  | (evs, Ok (Batch batch_nfts)) =>
      let st := say st evs in
      if negb (truthy batch_nfts) then (st, Ok BreakNoMore)
      else
        match py_iter batch_nfts with
        | Raise e => (st, Raise e)
        | Ok nfts =>
            match for_each (visit_nft E) nfts st with
            | (st', Some e) => (st', Raise e)
            | (st', None) => (page_done st' page, Ok BreakPageDone)
            end
        end
  end.

(** How [fetch_nfts_from_collection] is left. *)
Inductive exit : Type :=
| NoMoreItems
| DepthLimit
| OtherApiError
| Malformed
| Crashed (e : exn)
| OutOfFuel.

(** What the [while retries > 0] loop tells the page loop. *)
Inductive after_page : Type :=
| NextPage
| LastPage
| Leave (x : exit).

(** The loop [while retries > 0], entered with [retries] attempts left. *)
Fixpoint retry_loop (E : env) (retries : nat) (page : Z) (st : state)
    : state * after_page :=
  match retries with
  | O => (st, NextPage)
  | S rest =>
      match try_page E page st with
      | (st', Ok ReturnDepthLimit) => (st', Leave DepthLimit)
      | (st', Ok ReturnApiError) => (st', Leave OtherApiError)
      | (st', Ok ReturnMalformed) => (st', Leave Malformed)
      | (st', Ok BreakNoMore) => (st', LastPage)
      | (st', Ok BreakPageDone) => (st', NextPage)
      | (st', Raise e) =>
          if is_request_exception e then
            let st'' := say st' [FetchError (4 - Z.of_nat retries) e] in
            match rest with
            | O => (say st'' [MaxRetries], NextPage)
            | S _ => retry_loop E rest page (say st'' [Retrying; Sleep 2000])
            end
          else (st', Leave (Crashed e))
      end
  end.

(** The loop [while has_more]. *)
Fixpoint page_loop (E : env) (fuel : nat) (page : Z) (st : state) : state * exit :=
  match fuel with
  | O => (st, OutOfFuel)
  | S fuel' =>
      match retry_loop E 3 page (say st [Fetching page]) with
      | (st', NextPage) => page_loop E fuel' (page + 1) st'
      | (st', LastPage) => (st', NoMoreItems)
      | (st', Leave x) => (st', x)
      end
  end.

Definition fetch_nfts_from_collection (E : env) (fuel : nat) (w0 : world)
    : state * exit :=
  let '((page, last_date), evs) := load_checkpoint w0 in
  page_loop E fuel page
    {| w := w0; last_date := last_date; all_nfts := []; log := evs |}.

(** [main] after the command line: the header update, the scan, and the
    decision about the checkpoint file.  An exception that escapes the scan
    ends the process before that decision. *)
Definition main (E : env) (fuel : nat) (w0 : world) : state * option exit :=
  if negb (init_ok E) then
    ({| w := w0; last_date := JNull; all_nfts := []; log := [InitError] |}, None)
  else
    match fetch_nfts_from_collection E fuel w0 with
    | (st, Crashed e) => (st, Some (Crashed e))
    | (st, OutOfFuel) => (st, Some OutOfFuel)
    | (st, x) =>
        if Z.of_nat (List.length (all_nfts st)) >=? CHECKPOINT_LIMIT
        then (say st [KeepCheckpoint], Some x)
        else
          match file (w st) with
          | Some _ =>
              ({| w := {| file := None; sheet := sheet (w st);
                          posts := posts (w st);
                          sheet_calls := sheet_calls (w st) |};
                  last_date := last_date st; all_nfts := all_nfts st;
                  log := log st ++ [CheckpointRemoved] |}, Some x)
          | None => (st, Some x)
          end
    end.

Definition posted_pages (l : list event) : list Z :=
  flat_map (fun e => match e with Post p => [p] | _ => [] end) l.

Definition saved_pages (l : list event) : list Z :=
  flat_map (fun e => match e with CheckpointSaved p _ => [p] | _ => [] end) l.

Definition pauses (l : list event) : list Z :=
  flat_map (fun e => match e with Sleep ms => [ms] | _ => [] end) l.

(** Events that are neither a request, nor a pause, nor a checkpoint write. *)
Definition quiet (l : list event) : bool :=
  forallb (fun e => match e with
                    | Post _ | Sleep _ | CheckpointSaved _ _ => false
                    | _ => true
                    end) l.

(** One state continues another: same file, same request counter, and a
    log longer by quiet events only. *)
Definition continues (st st' : state) : Prop :=
  file (w st') = file (w st) /\
  posts (w st') = posts (w st) /\
  exists evs, log st' = log st ++ evs /\ quiet evs = true.

End Tracker.

(** ** [src/fetch_ultimate_nfts.py]

    The cursor-based scan; it keeps no checkpoint and appends every ultimate
    asset to the spreadsheet without reading it first. *)

Module FetchUltimate.

(** [api k c] answers the [k]-th request of the process, sent with the
    cursor parameter [c] ([None] when the payload carries none);
    [append_fails k] tells whether the [k]-th append to the sheet raises. *)
Record env : Type := {
  api : nat -> option json -> outcome;
  append_fails : nat -> bool
}.

Inductive event : Type :=
| Post (cursor : option json)
| Sleep (ms : Z)
| ApiError
| HttpError (status : Z)
| AttemptFailed (attempt : Z) (e : exn)
| FoundUltimate (name owner : json)
| BatchDone (batch_number : Z)
| BatchError (batch_number : Z) (e : exn)
| NoNftsFound
| NoMoreNfts
| ReachedEnd
| FailedBatch (batch_number : Z)
| ProcessingComplete
| ProcessingCompleteWithErrors.

Definition COLLECTION_ID : string := "DGPTxgKaBPJv3Ng7dc9AFDpX6E7kgUMZEgyTm3VGWPW6".
Definition max_retries : nat := 3.
Definition retry_delay : Z := 1.

(** How one pass through the body of [for attempt in range(max_retries)]
    ends. *)
Inductive attempt_result : Type :=
| Got (items next_cursor : json)
| Again (evs : list event).

(** The body of the [for] loop, up to the pause that follows a failure. *)
Definition one_attempt (answer : outcome) (attempt : Z) : attempt_result :=
  let pause := Sleep (1000 * (retry_delay * (attempt + 1))) in
  match answer with
  | ConnFail => Again [AttemptFailed (attempt + 1) ConnectionError; pause]
  | Response status body =>
      if status =? 200 then
        match response_json body with
        | Raise e => Again [AttemptFailed (attempt + 1) e; pause]
        | Ok data =>
            match contains "error" data with
            | Raise e => Again [AttemptFailed (attempt + 1) e; pause]
            | Ok true => Again [ApiError; pause]
            | Ok false =>
                match
                  (result <- dict_get data "result" (JObj []) ;;
                   items <- dict_get result "items" (JArr []) ;;
                   if negb (truthy items) then Ok (JArr [], JNull)
                   else
                     next_cursor <- dict_get result "cursor" JNull ;;
                     Ok (items, next_cursor))
                with
                | Raise e => Again [AttemptFailed (attempt + 1) e; pause]
                | Ok (items, next_cursor) => Got items next_cursor
                end
            end
        end
      else Again [HttpError status; pause]
  end.

(** The cursor parameter of the payload: present when [cursor] is truthy. *)
Definition cursor_param (cursor : json) : option json :=
  if truthy cursor then Some cursor else None.

(** The [for attempt in range(max_retries)] loop with [todo] passes left,
    and the [return [], None] that follows it.  The result comes with the
    events of the call and the number of requests sent. *)
Fixpoint attempts (E : env) (todo : nat) (attempt : Z) (calls : nat) (cursor : json)
    : (json * json) * list event * nat :=
  match todo with
  | O => ((JArr [], JNull), [], calls)
  | S todo' =>
      match one_attempt (api E calls (cursor_param cursor)) attempt with
      | Got items next_cursor =>
          ((items, next_cursor), [Post (cursor_param cursor)], S calls)
      | Again evs =>
          let '(r, evs', calls') := attempts E todo' (attempt + 1) (S calls) cursor in
          (r, Post (cursor_param cursor) :: evs ++ evs', calls')
      end
  end.

Definition get_nfts_by_collection (E : env) (calls : nat) (cursor : json)
    : (json * json) * list event * nat :=
  attempts E max_retries 0 calls cursor.

(** The loop of [check_nft_rarity] over the attributes. *)
Fixpoint first_rarity (attrs : list json) : res json :=
  match attrs with
  | [] => Ok (JStr "none")
  | attr :: rest =>
      t <- dict_get attr "trait_type" (JStr "") ;;
      lt <- str_lower t ;;
      if eq_str lt "rarity" then
        v <- dict_get attr "value" (JStr "") ;;
        str_lower v
      else first_rarity rest
  end.

Definition check_nft_rarity (nft : json) : res json :=
  content <- dict_get nft "content" (JObj []) ;;
  metadata <- dict_get content "metadata" (JObj []) ;;
  attributes <- dict_get metadata "attributes" (JArr []) ;;
  attrs <- py_iter attributes ;;
  first_rarity attrs.

(** The variables of [main], the rows appended to [ultimates!A:D] and the
    two call counters. *)
Record state : Type := {
  total_processed : Z;
  ultimate_found : Z;
  rare_found : Z;
  legendary_found : Z;
  cursor : json;
  batch_number : Z;
  rows : list (list json);
  calls : nat;
  appends : nat;
  log : list event
}.

Definition say (st : state) (evs : list event) : state :=
  {| total_processed := total_processed st; ultimate_found := ultimate_found st;
     rare_found := rare_found st; legendary_found := legendary_found st;
     cursor := cursor st; batch_number := batch_number st; rows := rows st;
     calls := calls st; appends := appends st; log := log st ++ evs |}.

(** The row built by [log_ultimate_nft]. *)
Definition ledger_row (nft : json) : res (list json) :=
  i <- dict_get nft "id" (JStr "") ;;
  content <- dict_get nft "content" (JObj []) ;;
  metadata <- dict_get content "metadata" (JObj []) ;;
  n <- dict_get metadata "name" (JStr "") ;;
  ownership <- dict_get nft "ownership" (JObj []) ;;
  o <- dict_get ownership "owner" (JStr "") ;;
  Ok [i; n; o; JStr COLLECTION_ID].

Definition log_ultimate_nft (E : env) (st : state) (nft : json) : state * option exn :=
  match ledger_row nft with
  | Raise e => (st, Some e)
  | Ok row =>
      let tried rows' :=
        {| total_processed := total_processed st; ultimate_found := ultimate_found st;
           rare_found := rare_found st; legendary_found := legendary_found st;
           cursor := cursor st; batch_number := batch_number st; rows := rows';
           calls := calls st; appends := S (appends st); log := log st |} in
      if append_fails E (appends st) then (tried (rows st), Some ServiceError)
      else (tried (rows st ++ [row]), None)
  end.

Definition count (st : state) (u r l : Z) : state :=
  {| total_processed := total_processed st; ultimate_found := ultimate_found st + u;
     rare_found := rare_found st + r; legendary_found := legendary_found st + l;
     cursor := cursor st; batch_number := batch_number st; rows := rows st;
     calls := calls st; appends := appends st; log := log st |}.

(** Body of [for nft in nfts] in [main]. *)
Definition visit_nft (E : env) (st : state) (nft : json) : state * option exn :=
  match check_nft_rarity nft with
  | Raise e => (st, Some e)
  | Ok rarity =>
      if eq_str rarity "ultimate" then
        match
          (content <- dict_get nft "content" (JObj []) ;;
           metadata <- dict_get content "metadata" (JObj []) ;;
           name <- dict_get metadata "name" (JStr "Unknown") ;;
           ownership <- dict_get nft "ownership" (JObj []) ;;
           owner <- dict_get ownership "owner" (JStr "Unknown") ;;
           Ok (name, owner))
        with
        | Raise e => (st, Some e)
        | Ok (name, owner) =>
            match log_ultimate_nft E (say st [FoundUltimate name owner]) nft with
            | (st', Some e) => (st', Some e)
            | (st', None) => (count st' 1 0 0, None)
            end
        end
      else if eq_str rarity "rare" then (count st 0 1 0, None)
      else if eq_str rarity "legendary" then (count st 0 0 1, None)
      else (st, None)
  end.

(** How [main] is left. *)
Inductive finish : Type :=
| Complete
| CompleteWithErrors
| OutOfFuel.

Definition max_retries_per_batch : Z := 3.

(** What one pass through the body of the inner [while] does: it returns
    from [main], or it goes on with new values of [retry_count] and
    [success]. *)
Inductive pass : Type :=
| Return (f : finish)
| Continue (retry_count : Z) (success : bool).

(** The [except Exception] clause of [main]. *)
Definition handler (st : state) (retry_count : Z) (success : bool) (e : exn)
    : state * pass :=
  let retry_count' := retry_count + 1 in
  let st' := say st [BatchError (batch_number st) e; Sleep (1000 * retry_count')] in
  if retry_count' >=? max_retries_per_batch
  then (say st' [FailedBatch (batch_number st); ProcessingCompleteWithErrors],
        Return CompleteWithErrors)
  else (st', Continue retry_count' success).

(** The body of the inner [while], with its [try] and [except]. *)
Definition batch (E : env) (st : state) (retry_count : Z) : state * pass :=
  let '((nfts, next_cursor), evs, calls') :=
    get_nfts_by_collection E (calls st) (cursor st) in
  let st0 :=
    {| total_processed := total_processed st; ultimate_found := ultimate_found st;
       rare_found := rare_found st; legendary_found := legendary_found st;
       cursor := cursor st; batch_number := batch_number st; rows := rows st;
       calls := calls'; appends := appends st; log := log st ++ evs |} in
  if negb (truthy nfts) then
    (say st0 [if batch_number st =? 1 then NoNftsFound else NoMoreNfts;
              ProcessingComplete], Return Complete)
  else
    match py_len nfts with
    | Raise e => handler st0 retry_count true e
    | Ok n =>
        let st1 :=
          {| total_processed := total_processed st0 + n;
             ultimate_found := ultimate_found st0; rare_found := rare_found st0;
             legendary_found := legendary_found st0; cursor := cursor st0;
             batch_number := batch_number st0; rows := rows st0;
             calls := calls st0; appends := appends st0; log := log st0 |} in
        match py_iter nfts with
        | Raise e => handler st1 retry_count true e
        | Ok l =>
            match for_each (visit_nft E) l st1 with
            | (st2, Some e) => handler st2 retry_count true e
            | (st2, None) =>
                let st3 := say st2 [BatchDone (batch_number st2)] in
                if negb (truthy next_cursor) then
                  (say st3 [ReachedEnd; ProcessingComplete], Return Complete)
                else
                  ({| total_processed := total_processed st3;
                      ultimate_found := ultimate_found st3;
                      rare_found := rare_found st3;
                      legendary_found := legendary_found st3;
                      cursor := next_cursor;
                      batch_number := batch_number st3 + 1; rows := rows st3;
                      calls := calls st3; appends := appends st3;
                      log := log st3 ++ [Sleep 200] |}, Continue retry_count true)
            end
        end
    end.

(** The loop [while retry_count < max_retries_per_batch and not success].
    Every pass that goes on without [success] has raised [retry_count], so
    [budget = 4] passes through the test are never used up. *)
Fixpoint retry_loop (E : env) (budget : nat) (st : state) (retry_count : Z)
    (success : bool) : state * option finish :=
  match budget with
  | O => (st, None)
  | S budget' =>
      if (retry_count <? max_retries_per_batch) && negb success then
        match batch E st retry_count with
        | (st', Return f) => (st', Some f)
        | (st', Continue retry_count' success') =>
            retry_loop E budget' st' retry_count' success'
        end
      else (st, None)
  end.

(** The loop [while True] of [main]. *)
Fixpoint main_loop (E : env) (fuel : nat) (st : state) : state * finish :=
  match fuel with
  | O => (st, OutOfFuel)
  | S fuel' =>
      match retry_loop E 4 st 0 false with
      | (st', Some f) => (st', f)
      | (st', None) => main_loop E fuel' st'
      end
  end.

Definition main (E : env) (fuel : nat) (sheet : list (list json)) : state * finish :=
  main_loop E fuel
    {| total_processed := 0; ultimate_found := 0; rare_found := 0;
       legendary_found := 0; cursor := JNull; batch_number := 1; rows := sheet;
       calls := 0%nat; appends := 0%nat; log := [] |}.

Definition pauses (l : list event) : list Z :=
  flat_map (fun e => match e with Sleep ms => [ms] | _ => [] end) l.

Definition requests (l : list event) : list (option json) :=
  flat_map (fun e => match e with Post c => [c] | _ => [] end) l.

End FetchUltimate.

(** ** [src/search_ultimates.py] *)

Module SearchUltimates.

(** The condition of the [if] inside the attribute loop of
    [search_ultimates]:
    [attr.get('trait_type') == 'rarity' and attr.get('value', '').lower() == 'ultimate']. *)
Definition attr_matches (attr : json) : res bool :=
  t <- dict_get attr "trait_type" JNull ;;
  if eq_str t "rarity" then
    v <- dict_get attr "value" (JStr "") ;;
    l <- str_lower v ;;
    Ok (eq_str l "ultimate")
  else Ok false.

(** The dict [nft_info] appended to [ultimate_nfts]. *)
Record info : Type := {
  i_id : json;
  i_name : json;
  i_rarity : json
}.

Definition make_info (nft metadata attr : json) : res info :=
  i <- getitem nft "id" ;;
  n <- dict_get metadata "name" JNull ;;
  r <- getitem attr "value" ;;
  Ok {| i_id := i; i_name := n; i_rarity := r |}.

(** Body of [for attr in attributes]. *)
Definition visit_attr (nft metadata : json) (found : list info) (attr : json)
    : list info * option exn :=
  match attr_matches attr with
  | Raise e => (found, Some e)
  | Ok false => (found, None)
  | Ok true =>
      match make_info nft metadata attr with
      | Raise e => (found, Some e)
      | Ok u => (found ++ [u], None)
      end
  end.

(** Body of [for nft in items]. *)
Definition visit_nft (found : list info) (nft : json) : list info * option exn :=
  match
    (content <- dict_get nft "content" (JObj []) ;;
     metadata <- dict_get content "metadata" (JObj []) ;;
     attributes <- dict_get metadata "attributes" (JArr []) ;;
     attrs <- py_iter attributes ;;
     Ok (metadata, attrs))
  with
  | Raise e => (found, Some e)
  | Ok (metadata, attrs) => for_each (visit_attr nft metadata) attrs found
  end.

Inductive event : Type :=
| Post (page : Z)
| Sleep (ms : Z).

(** How the [while True] loop was left. *)
Inductive finish : Type :=
| ApiError
| NoMoreItems
| LastPage
| RequestError (e : exn)
| UnexpectedError (e : exn)
| OutOfFuel.

Record report : Type := {
  trace : list event;
  ultimate_nfts : list info;
  total_nfts_checked : Z;
  how : finish
}.

Definition emit (evs : list event) (r : report) : report :=
  {| trace := evs ++ trace r; ultimate_nfts := ultimate_nfts r;
     total_nfts_checked := total_nfts_checked r; how := how r |}.

(** The two [except] clauses: both leave the loop. *)
Definition caught (e : exn) : finish :=
  if is_request_exception e then RequestError e else UnexpectedError e.

(** From [requests.post] to [len(items)]: [None] stands for an answer
    that carries an error object. *)
Definition read_page (answer : outcome) : res (option (json * Z)) :=
  match answer with
  | ConnFail => Raise ConnectionError
  | Response status body =>
      _ <- raise_for_status status ;;
      data <- response_json body ;;
      has_error <- contains "error" data ;;
      if has_error then Ok None
      else
        result <- dict_get data "result" (JObj []) ;;
        items <- dict_get result "items" (JArr []) ;;
        n <- py_len items ;;
        Ok (Some (items, n))
  end.

(** The loop of [search_ultimates]; [api k p] answers the [k]-th request
    when it asks for page [p]. *)
Fixpoint scan (api : nat -> Z -> outcome) (fuel : nat) (calls : nat)
    (page : Z) (found : list info) (total : Z) : report :=
  let stop found total h :=
    {| trace := [Post page]; ultimate_nfts := found; total_nfts_checked := total;
       how := h |} in
  match fuel with
  | O => {| trace := []; ultimate_nfts := found; total_nfts_checked := total;
            how := OutOfFuel |}
  | S fuel' =>
      match read_page (api calls page) with
      | Raise e => stop found total (caught e)
      | Ok None => stop found total ApiError
      | Ok (Some (items, n)) =>
          let total' := total + n in
          if negb (truthy items) then stop found total' NoMoreItems
          else
            match py_iter items with
            | Raise e => stop found total' (caught e)
            | Ok nfts =>
                match for_each visit_nft nfts found with
                | (found', Some e) => stop found' total' (caught e)
                | (found', None) =>
                    if n <? 1000 then stop found' total' LastPage
                    else emit [Post page; Sleep 1000]
                           (scan api fuel' (S calls) (page + 1) found' total')
                end
            end
      end
  end.

Definition search_ultimates (api : nat -> Z -> outcome) (fuel : nat) : report :=
  scan api fuel 0%nat 1 [] 0.

Definition posted (r : report) : list Z :=
  flat_map (fun e => match e with Post p => [p] | _ => [] end) (trace r).

Definition info_json (u : info) : json :=
  JObj [("id", i_id u); ("name", i_name u); ("rarity", i_rarity u)].

(** What the script leaves in [ultimate_nfts.json]: the list of the
    findings, and no file at all when there is none. *)
Definition document (ultimates : list info) : option json :=
  match ultimates with
  | [] => None
  | _ => Some (JArr (map info_json ultimates))
  end.

End SearchUltimates.

(** ** [src/search_ultimate.py]

    The scan that stops at the first page holding an ultimate asset. *)

Module SearchUltimate.

(** The dict appended to the [ultimate_nfts] of a page. *)
Record hit : Type := {
  h_id : json;
  h_name : json;
  h_rarity : json
}.

(** The condition of the [if] inside the attribute loop, the same text as
    in [find_all_ultimate_nfts]. *)
Definition attr_matches (attr : json) : res bool :=
  t <- dict_get attr "trait_type" JNull ;;
  if eq_str t "rarity" then
    v <- dict_get attr "value" JNull ;;
    if is_str v then
      v' <- getitem attr "value" ;;
      l <- str_lower v' ;;
      Ok (eq_str l "ultimate")
    else Ok false
  else Ok false.

Definition make_hit (nft metadata attr : json) : res hit :=
  i <- getitem nft "id" ;;
  n <- dict_get metadata "name" JNull ;;
  r <- getitem attr "value" ;;
  Ok {| h_id := i; h_name := n; h_rarity := r |}.

Definition visit_attr (nft metadata : json) (found : list hit) (attr : json)
    : list hit * option exn :=
  match attr_matches attr with
  | Raise e => (found, Some e)
  | Ok false => (found, None)
  | Ok true =>
      match make_hit nft metadata attr with
      | Raise e => (found, Some e)
      | Ok u => (found ++ [u], None)
      end
  end.

Definition visit_nft (found : list hit) (nft : json) : list hit * option exn :=
  match
    (content <- dict_get nft "content" (JObj []) ;;
     metadata <- dict_get content "metadata" (JObj []) ;;
     attributes <- dict_get metadata "attributes" (JArr []) ;;
     attrs <- py_iter attributes ;;
     Ok (metadata, attrs))
  with
  | Raise e => (found, Some e)
  | Ok (metadata, attrs) => for_each (visit_attr nft metadata) attrs found
  end.

Inductive event : Type :=
| Post (page : Z)
| Sleep (ms : Z).

Inductive finish : Type :=
| Found
| ReachedEnd
| ErrorOnPage (e : exn)
| Uncaught (e : exn)
| OutOfFuel.

(** [printed] is the list the script prints: the ultimates of the page it
    stopped on, nothing otherwise. *)
Record report : Type := {
  trace : list event;
  printed : list hit;
  how : finish
}.

Definition emit (evs : list event) (r : report) : report :=
  {| trace := evs ++ trace r; printed := printed r; how := how r |}.

(** The body of the [try] up to the end of the loop over the items: the
    items of the page and its [ultimate_nfts], which starts empty on every
    page. *)
Definition visit_page (body : option json) : res (json * list hit) :=
  data <- response_json body ;;
  result <- getitem data "result" ;;
  items <- getitem result "items" ;;
  nfts <- py_iter items ;;
  match for_each visit_nft nfts [] with
  | (_, Some e) => Raise e
  | (hits, None) => Ok (items, hits)
  end.

(** The loop [while not found] of [search_ultimate_nfts].  The request is
    made outside the [try]. *)
Fixpoint scan (api : nat -> Z -> outcome) (fuel : nat) (calls : nat) (page : Z)
    : report :=
  let stop h := {| trace := [Post page]; printed := []; how := h |} in
  match fuel with
  | O => {| trace := []; printed := []; how := OutOfFuel |}
  | S fuel' =>
      match api calls page with
      | ConnFail => stop (Uncaught ConnectionError)
      | Response _ body =>
          match visit_page body with
          | Raise e => stop (ErrorOnPage e)
          | Ok (items, u :: us) =>
              {| trace := [Post page; Sleep 500]; printed := u :: us; how := Found |}
          | Ok (items, []) =>
              match py_len items with
              | Raise e => stop (ErrorOnPage e)
              | Ok n =>
                  if n <? 1000 then stop ReachedEnd
                  else emit [Post page; Sleep 500]
                         (scan api fuel' (S calls) (page + 1))
              end
          end
      end
  end.

Definition search_ultimate_nfts (api : nat -> Z -> outcome) (fuel : nat) : report :=
  scan api fuel 0%nat 1.

Definition posted (r : report) : list Z :=
  flat_map (fun e => match e with Post p => [p] | _ => [] end) (trace r).

End SearchUltimate.

(** ** [src/add_ultimate_nfts.py]

    The upload of [ultimate_nfts.json] to the sheet.  The credentials are
    taken to be at hand: the steps modelled are those between the decoding
    of the file and the answer of the append. *)

Module AddUltimate.

Definition collection_id : string := "DGPTxgKaBPJv3Ng7dc9AFDpX6E7kgUMZEgyTm3VGWPW6".

(** The row appended to [values] for one element of the document. *)
Definition row_of (nft : json) : res (list json) :=
  i <- getitem nft "id" ;;
  n <- getitem nft "name" ;;
  Ok [JStr collection_id; i; n].

(** The loop [for nft in ultimate_nfts] that fills [values]. *)
Fixpoint build_values (l : list json) : res (list (list json)) :=
  match l with
  | [] => Ok []
  | nft :: rest =>
      row <- row_of nft ;;
      rows <- build_values rest ;;
      Ok (row :: rows)
  end.

(** How [add_ultimates_from_json] ends: the line "Added n NFTs", the
    [HttpError] of the append caught and printed, or an exception that no
    clause catches. *)
Inductive ending : Type :=
| Added (n : nat)
| HttpErrorCaught
| Uncaught (e : exn).

(** [document] is the decoded content of [ultimate_nfts.json], [sheet] the
    rows of the range [ultimates]; [append_fails] tells whether the single
    append raises. *)
Definition add_ultimates_from_json (append_fails : bool) (document : json)
    (sheet : list (list json)) : list (list json) * ending :=
  match (l <- py_iter document ;; build_values l) with
  | Raise e => (sheet, Uncaught e)
  | Ok values =>
      if append_fails then (sheet, HttpErrorCaught)
      else (sheet ++ values, Added (List.length values))
  end.

End AddUltimate.

(** ** The rarity predicate as the specification words it

    "A trait attribute's type-name case-insensitively equals "rarity" and its
    value case-insensitively equals the target rarity tag."  These
    definitions follow that sentence, not any of the scripts; the theorems
    compare each script's test with them. *)

Module Spec.

(** The string stored under [k] in the dict [attr], if there is one. *)
Definition field_str (attr : json) (k : string) : option string :=
  match attr with
  | JObj m => match assoc k m with Some (JStr s) => Some s | _ => None end
  | _ => None
  end.

Definition names_rarity (attr : json) : bool :=
  match field_str attr "trait_type" with
  | Some t => String.eqb (lower t) "rarity"
  | None => false
  end.

(** The same test without folding the case of the type-name. *)
Definition names_rarity_exactly (attr : json) : bool :=
  match field_str attr "trait_type" with
  | Some t => String.eqb t "rarity"
  | None => false
  end.

Definition rarity_predicate (tag : string) (attr : json) : bool :=
  names_rarity attr &&
  match field_str attr "value" with
  | Some v => String.eqb (lower v) tag
  | None => false
  end.

(** An attribute as the API documents it: a dict whose [trait_type] and
    [value], when present, are strings. *)
Definition text_or_absent (m : list (string * json)) (k : string) : bool :=
  match assoc k m with
  | Some (JStr _) | None => true
  | Some _ => false
  end.


(** The ordered list of trait attributes of an asset record, found under
    [content.metadata.attributes] (empty when a level is missing). *)
Definition attributes_of (nft : json) : res json :=
  content <- dict_get nft "content" (JObj []) ;;
  metadata <- dict_get content "metadata" (JObj []) ;;
  dict_get metadata "attributes" (JArr []).

(** The lower-cased value of an attribute, [""] when it has none. *)
Definition lowered_value (attr : json) : string :=
  match field_str attr "value" with
  | Some v => lower v
  | None => ""
  end.

End Spec.

(** ** Closed forms the loops are compared with *)

Module Expected.

(** The test of [find_all_ultimate_nfts] on a well-formed attribute. *)
Definition satisfies (a : json) : bool :=
  Spec.names_rarity_exactly a && Spec.rarity_predicate "ultimate" a.

(** The entry appended for attribute [a] of an asset whose id, name and
    image are [i], [n] and [u]. *)
Definition entry_for (i n u attributes a : json) : TrackUltimate.entry :=
  {| TrackUltimate.e_id := i; TrackUltimate.e_name := n;
     TrackUltimate.e_rarity :=
       match Spec.field_str a "value" with Some v => JStr v | None => JNull end;
     TrackUltimate.e_image := u; TrackUltimate.e_attributes := attributes |}.




(** The rarity [main] of the cursor script works with: the lower-cased
    value of the first attribute named rarity, ["none"] without one. *)
Definition first_rarity (attrs : list json) : string :=
  match find Spec.names_rarity attrs with
  | Some a => Spec.lowered_value a
  | None => "none"
  end.


(** The sheet [rows] already has a row for the asset [nft], should the
    tracker find it to be ultimate. *)
Definition covered (rows : list (list string)) (nft : json) : Prop :=
  forall created_date u,
    Tracker.scan_attrs nft = Ok (created_date, true) ->
    Tracker.make_ultimate_nft nft = Ok u ->
    existsb (Tracker.row_has (Tracker.address u)) rows = true.

End Expected.

(** ** Shapes of traces and ledgers *)

Module Shape.

(** The [k] consecutive page numbers that start at [page]. *)
Definition run_from (page : Z) (k : nat) : list Z :=
  map (fun i => page + Z.of_nat i) (seq 0 k).

(** The ledger [after] is the ledger [before] with rows of [width] cells
    added at its end, nothing removed and nothing changed. *)
Definition appended (width : nat) (before after : list (list string)) : Prop :=
  exists rows,
    after = before ++ rows /\ Forall (fun row => List.length row = width) rows.

(** Exceptions raised by operations on decoded values, as opposed to those
    of the transport. *)
Definition value_error (e : exn) : bool :=
  match e with
  | AttributeError | KeyError | TypeError | IndexError => true
  | _ => false
  end.

(** Between two states of the cursor script: the ledger has new rows at
    its end, as many as [ultimate_found] has grown by, each of four cells
    that end with the collection id. *)
Definition logged (st st' : FetchUltimate.state) : Prop :=
  exists rows,
    FetchUltimate.rows st' = FetchUltimate.rows st ++ rows /\
    FetchUltimate.ultimate_found st'
      = FetchUltimate.ultimate_found st + Z.of_nat (List.length rows) /\
    Forall (fun row => exists i n o,
                row = [i; n; o; JStr FetchUltimate.COLLECTION_ID]) rows.

(** Between two values of [ultimate_nfts]: the entries reported so far
    are kept, and every entry added carries a rarity that reads "ultimate"
    once lower-cased. *)
Definition reported (found found' : list TrackUltimate.entry) : Prop :=
  exists more,
    found' = found ++ more /\
    Forall (fun u => exists s, TrackUltimate.e_rarity u = JStr s /\ lower s = "ultimate")
           more.

(** The same for the findings of [search_ultimates]. *)
Definition listed (found found' : list SearchUltimates.info) : Prop :=
  exists more,
    found' = found ++ more /\
    Forall (fun u => exists s, SearchUltimates.i_rarity u = JStr s /\ lower s = "ultimate")
           more.

End Shape.

(** ** Sample documents, used to run the scripts on concrete answers *)

Module Sample.

Definition attr (t v : json) : json := JObj [("trait_type", t); ("value", v)].

Definition nft (id : string) (attrs : list json) : json :=
  JObj [("id", JStr id);
        ("content", JObj [("metadata", JObj [("name", JStr ("#" ++ id));
                                            ("attributes", JArr attrs)])]);
        ("ownership", JObj [("owner", JStr "owner-1")])].

Definition page (items : list json) : outcome :=
  Response 200 (Some (JObj [("jsonrpc", JStr "2.0");
                            ("result", JObj [("items", JArr items)])])).

Definition page_with_cursor (items : list json) (c : string) : outcome :=
  Response 200 (Some (JObj [("jsonrpc", JStr "2.0");
                            ("result", JObj [("items", JArr items);
                                             ("cursor", JStr c)])])).

Definition api_error (message : string) : outcome :=
  Response 200 (Some (JObj [("jsonrpc", JStr "2.0");
                            ("error", JObj [("code", JNum (-32602));
                                            ("message", JStr message)])])).

Definition depth_limit : outcome :=
  api_error "Paginating beyond 500000 items is temporarily disabled.".

Definition plain : json := nft "A1" [attr (JStr "background") (JStr "blue")].
Definition ultimate : json :=
  nft "U1" [attr (JStr "background") (JStr "red"); attr (JStr "rarity") (JStr "Ultimate")].
Definition numeric_rarity : json := nft "N1" [attr (JStr "rarity") (JNum 5)].
Definition dated : json :=
  nft "D1" [attr (JStr "created") (JStr "2024-03-01"); attr (JStr "rarity") (JStr "rare")].

Definition text_of (v : json) : string :=
  match v with
  | JStr s => s
  | _ => ""
  end.

Definition empty_world : Tracker.world :=
  {| Tracker.file := None; Tracker.sheet := []; Tracker.posts := 0%nat;
     Tracker.sheet_calls := 0%nat |}.

Definition tracker_env (api : nat -> Z -> outcome) : Tracker.env :=
  {| Tracker.api := api; Tracker.sheets := fun _ => Tracker.SheetsOk;
     Tracker.cell := text_of; Tracker.init_ok := true |}.

Definition start (w0 : Tracker.world) : Tracker.state :=
  {| Tracker.w := w0; Tracker.last_date := JNull; Tracker.all_nfts := [];
     Tracker.log := [] |}.


(** One short page, then an empty one. *)
Definition short_then_empty : Tracker.env :=
  tracker_env (fun _ p => if p =? 1 then page [ultimate; dated] else page []).

(** A collection that answers page 500 and refuses page 501. *)
Definition deep_collection : Tracker.env :=
  tracker_env (fun _ p => if p <=? 500 then page [plain] else depth_limit).

Definition resumed_at_500 : Tracker.world :=
  {| Tracker.file := Some {| Tracker.ck_page := 500;
                             Tracker.ck_last_date := JStr "2024-03-01" |};
     Tracker.sheet := []; Tracker.posts := 0%nat; Tracker.sheet_calls := 0%nat |}.


(** Two transport failures, then the page. *)
Definition flaky_twice : Tracker.env :=
  tracker_env (fun k p => match k with
                          | O | S O => ConnFail
                          | _ => if p =? 1 then page [ultimate] else page []
                          end).


Definition fetch_env (api : nat -> option json -> outcome) : FetchUltimate.env :=
  {| FetchUltimate.api := api; FetchUltimate.append_fails := fun _ => false |}.


Definition empty_collection : FetchUltimate.env := fetch_env (fun _ _ => page []).

(** The cursor API behind a line that never comes up. *)
Definition line_is_down : FetchUltimate.env := fetch_env (fun _ _ => ConnFail).

Definition fetch_start : FetchUltimate.state :=
  {| FetchUltimate.total_processed := 0; FetchUltimate.ultimate_found := 0;
     FetchUltimate.rare_found := 0; FetchUltimate.legendary_found := 0;
     FetchUltimate.cursor := JNull; FetchUltimate.batch_number := 1;
     FetchUltimate.rows := []; FetchUltimate.calls := 0%nat;
     FetchUltimate.appends := 0%nat; FetchUltimate.log := [] |}.

(** An asset one of whose attributes has a null type-name. *)
Definition null_trait : json := nft "B1" [attr JNull (JStr "x")].

(** A page with a good asset followed by a malformed one. *)
Definition with_bad_asset : Tracker.env :=
  tracker_env (fun _ p => if p =? 1 then page [ultimate; null_trait] else page []).

(** The cursor API answering every request with the same page, whose
    first asset is malformed. *)
Definition stuck_page : FetchUltimate.env :=
  fetch_env (fun _ _ => page_with_cursor [null_trait; ultimate] "c1").

(** An ultimate asset whose list of files is empty. *)
Definition no_files : json :=
  JObj [("id", JStr "F1");
        ("content", JObj [("files", JArr []);
                          ("metadata", JObj [("name", JStr "#F1");
                                             ("attributes",
                                              JArr [attr (JStr "rarity") (JStr "Ultimate")])])])].

(** Two full pages without an ultimate, then a page that holds one. *)
Definition third_page_has_one (k : nat) (p : Z) : outcome :=
  if p =? 3 then page [plain; ultimate] else page (repeat plain 1000).

End Sample.

(** * Properties *)

(** ** Reading an asset record *)

Lemma fetch_check_nft_rarity_unfold (nft : json) :
  FetchUltimate.check_nft_rarity nft =
  (attributes <- Spec.attributes_of nft ;;
   attrs <- py_iter attributes ;;
   FetchUltimate.first_rarity attrs).
Proof.
  unfold FetchUltimate.check_nft_rarity, Spec.attributes_of.
  destruct (dict_get nft "content" (JObj [])) as [content|]; simpl; [|reflexivity].
  destruct (dict_get content "metadata" (JObj [])) as [metadata|]; simpl; reflexivity.
Qed.

Lemma tracker_metadata_get_attributes (nft : json) :
  Tracker.metadata_get nft "attributes" (JArr []) = Spec.attributes_of nft.
Proof. reflexivity. Qed.

Lemma lower_rarity_literal (t : string) :
  String.eqb t "rarity" = true -> String.eqb (lower t) "rarity" = true.
Proof.
  intros H. apply String.eqb_eq in H. subst t. reflexivity.
Qed.

(** ** The matchers against the rarity predicate *)

Lemma track_attr_matches_spec (fields : list (string * json)) :
  TrackUltimate.attr_matches (JObj fields) =
  Ok (Spec.names_rarity_exactly (JObj fields) &&
      Spec.rarity_predicate "ultimate" (JObj fields)).
Proof.
  unfold TrackUltimate.attr_matches, Spec.names_rarity_exactly,
    Spec.rarity_predicate, Spec.names_rarity, Spec.field_str.
  simpl dict_get. simpl getitem.
  destruct (assoc "trait_type" fields) as [[ | b | n | t | l | m]|]; simpl; try reflexivity.
  destruct (String.eqb t "rarity") eqn:Ht; simpl; [|reflexivity].
  rewrite (lower_rarity_literal _ Ht). simpl.
  destruct (assoc "value" fields) as [[ | b | n | v | l | m]|]; simpl; reflexivity.
Qed.







Lemma rarity_predicate_names (tag : string) (a : json) :
  Spec.rarity_predicate tag a = true -> Spec.names_rarity a = true.
Proof. unfold Spec.rarity_predicate. intros H. apply andb_prop in H. tauto. Qed.


(** The value recorded under [rarity] in an entry of [ultimate_nfts]. *)
Lemma getitem_value_of_match (fields : list (string * json)) :
  Spec.rarity_predicate "ultimate" (JObj fields) = true ->
  exists v, getitem (JObj fields) "value" = Ok (JStr v) /\
            Spec.field_str (JObj fields) "value" = Some v.
Proof.
  unfold Spec.rarity_predicate, Spec.field_str. simpl.
  intros H. apply andb_prop in H. destruct H as [_ H].
  destruct (assoc "value" fields) as [[ | b | n | v | l | m]|]; try discriminate.
  exists v. split; reflexivity.
Qed.

Section TrackEntries.

Variables nft content metadata attributes i n u : json.
Hypothesis has_id : getitem nft "id" = Ok i.
Hypothesis has_name : dict_get metadata "name" JNull = Ok n.
Hypothesis has_image :
  (files <- dict_get content "files" (JArr [JObj []]) ;;
   f <- getitem0 files ;;
   dict_get f "uri" (JStr "")) = Ok u.

Lemma track_make_entry (fields : list (string * json)) :
  Spec.rarity_predicate "ultimate" (JObj fields) = true ->
  TrackUltimate.make_entry nft content metadata attributes (JObj fields)
    = Ok (Expected.entry_for i n u attributes (JObj fields)).
Proof.
  intros H. destruct (getitem_value_of_match _ H) as (v & Hget & Hfield).
  unfold TrackUltimate.make_entry, Expected.entry_for.
  rewrite has_id, has_name, Hget, Hfield. cbn [bind].
  destruct (dict_get content "files" (JArr [JObj []])) as [files|]; [|discriminate].
  cbn [bind] in *.
  destruct (getitem0 files) as [f|]; [|discriminate].
  cbn [bind] in *. rewrite has_image. reflexivity.
Qed.


End TrackEntries.











(** ** Matching on the rarity trait *)







(** C10: an asset whose first attribute has the type-name "rarity" and a
    value that is present and not a string makes [check_nft_rarity] raise
    [AttributeError] (the value has no [lower]); the test of
    [find_all_ultimate_nfts], guarded by [isinstance], is false on that
    attribute without raising, and its loop goes on to the next attribute
    with nothing appended. *)
Theorem C10_unguarded_lower_raises_guarded_test_is_total
    (nft : json) (fields : list (string * json)) (v : json) (rest : list json)
    (Htype : assoc "trait_type" fields = Some (JStr "rarity"))
    (Hvalue : assoc "value" fields = Some v)
    (Hnot_str : is_str v = false)
    (Hattrs : Spec.attributes_of nft = Ok (JArr (JObj fields :: rest))) :
  FetchUltimate.check_nft_rarity nft = Raise AttributeError /\
  TrackUltimate.attr_matches (JObj fields) = Ok false /\
  (forall content metadata attributes found,
      for_each (TrackUltimate.visit_attr nft content metadata attributes)
        (JObj fields :: rest) found
      = for_each (TrackUltimate.visit_attr nft content metadata attributes) rest found).
Proof.
  assert (Hm : TrackUltimate.attr_matches (JObj fields) = Ok false).
  { unfold TrackUltimate.attr_matches. simpl dict_get. rewrite Htype, Hvalue.
    cbn [bind eq_str String.eqb]. simpl. rewrite Hnot_str. reflexivity. }
  split; [|split].
  - rewrite fetch_check_nft_rarity_unfold, Hattrs. cbn [bind py_iter].
    unfold FetchUltimate.first_rarity. simpl dict_get. rewrite Htype, Hvalue.
    cbn [bind str_lower]. simpl.
    destruct v; try reflexivity. discriminate.
  - exact Hm.
  - intros. cbn [for_each]. unfold TrackUltimate.visit_attr at 1. rewrite Hm.
    reflexivity.
Qed.

Lemma C10_unguarded_lower_raises_guarded_test_is_total_witness :
  is_str (JNum 5) = false /\
  FetchUltimate.check_nft_rarity Sample.numeric_rarity = Raise AttributeError /\
  TrackUltimate.matches_of Sample.numeric_rarity = ([], None).
Proof.
  split; [reflexivity|].
  pose proof (C10_unguarded_lower_raises_guarded_test_is_total
                Sample.numeric_rarity
                [("trait_type", JStr "rarity"); ("value", JNum 5)] (JNum 5) []
                eq_refl eq_refl eq_refl eq_refl) as (Hraise & _ & _).
  split; [exact Hraise|reflexivity].
Defined.

(** The unguarded test of [search_ultimates] raises on the same attribute. *)
Lemma search_ultimates_test_raises (fields : list (string * json)) (v : json) :
  assoc "trait_type" fields = Some (JStr "rarity") ->
  assoc "value" fields = Some v ->
  is_str v = false ->
  SearchUltimates.attr_matches (JObj fields) = Raise AttributeError.
Proof.
  intros Ht Hv Hs. unfold SearchUltimates.attr_matches. simpl dict_get.
  rewrite Ht, Hv. simpl. destruct v; try reflexivity. discriminate.
Qed.

(** ** The tracker: what a page adds to the log *)

Lemma saved_pages_app (l1 l2 : list Tracker.event) :
  Tracker.saved_pages (l1 ++ l2) = Tracker.saved_pages l1 ++ Tracker.saved_pages l2.
Proof. apply flat_map_app. Qed.

Lemma posted_pages_app (l1 l2 : list Tracker.event) :
  Tracker.posted_pages (l1 ++ l2) = Tracker.posted_pages l1 ++ Tracker.posted_pages l2.
Proof. apply flat_map_app. Qed.


Lemma quiet_app (l1 l2 : list Tracker.event) :
  Tracker.quiet (l1 ++ l2) = Tracker.quiet l1 && Tracker.quiet l2.
Proof. apply forallb_app. Qed.

Lemma quiet_silent (l : list Tracker.event) :
  Tracker.quiet l = true ->
  Tracker.saved_pages l = [] /\ Tracker.posted_pages l = [] /\ Tracker.pauses l = [].
Proof.
  induction l as [|e l IH]; [repeat split|].
  cbn [Tracker.quiet forallb]. intros H. apply andb_prop in H. destruct H as [He Hl].
  destruct (IH Hl) as (H1 & H2 & H3).
  destruct e; try discriminate; cbn; auto.
Qed.

Lemma continues_refl (st : Tracker.state) : Tracker.continues st st.
Proof.
  repeat split. exists []. rewrite app_nil_r. split; reflexivity.
Qed.

Lemma continues_trans (a b c : Tracker.state) :
  Tracker.continues a b -> Tracker.continues b c -> Tracker.continues a c.
Proof.
  intros (F1 & P1 & e1 & L1 & Q1) (F2 & P2 & e2 & L2 & Q2).
  split; [congruence|]. split; [congruence|].
  exists (e1 ++ e2). split.
  - rewrite L2, L1, app_assoc. reflexivity.
  - rewrite quiet_app, Q1, Q2. reflexivity.
Qed.

Lemma tracker_add_to_sheet_quiet (E : Tracker.env) (w0 : Tracker.world)
    (u : Tracker.ultimate_nft) :
  Tracker.file (fst (Tracker.add_ultimate_nft_to_sheet E w0 u)) = Tracker.file w0 /\
  Tracker.posts (fst (Tracker.add_ultimate_nft_to_sheet E w0 u)) = Tracker.posts w0 /\
  Tracker.quiet (snd (Tracker.add_ultimate_nft_to_sheet E w0 u)) = true.
Proof.
  unfold Tracker.add_ultimate_nft_to_sheet.
  destruct (Tracker.sheets E (Tracker.sheet_calls w0));
    destruct (existsb (Tracker.row_has (Tracker.address u)) (Tracker.sheet w0));
    repeat split.
Qed.

Lemma tracker_visit_nft_continues (E : Tracker.env) (st : Tracker.state) (nft : json) :
  Tracker.continues st (fst (Tracker.visit_nft E st nft)).
Proof.
  unfold Tracker.visit_nft.
  destruct (Tracker.scan_attrs nft) as [[created is_ultimate]|e];
    [|apply continues_refl].
  destruct is_ultimate.
  - destruct (Tracker.make_ultimate_nft nft) as [u|e].
    + cbn [Tracker.w].
      pose proof (tracker_add_to_sheet_quiet E (Tracker.w st) u) as (F & P & Q).
      destruct (Tracker.add_ultimate_nft_to_sheet E (Tracker.w st) u) as [w' evs].
      cbn [fst snd] in *. repeat split; cbn; [exact F|exact P|].
      exists (Tracker.FoundUltimate (Tracker.name u) :: evs). split; [reflexivity|].
      exact Q.
    + repeat split. exists []. cbn. rewrite app_nil_r. split; reflexivity.
  - repeat split. exists []. cbn. rewrite app_nil_r. split; reflexivity.
Qed.

Lemma tracker_for_each_continues (E : Tracker.env) (nfts : list json) :
  forall st, Tracker.continues st (fst (for_each (Tracker.visit_nft E) nfts st)).
Proof.
  induction nfts as [|nft rest IH]; intros st; [apply continues_refl|].
  cbn [for_each].
  pose proof (tracker_visit_nft_continues E st nft) as H1.
  destruct (Tracker.visit_nft E st nft) as [st1 [e|]]; cbn [fst] in *.
  - exact H1.
  - exact (continues_trans _ _ _ H1 (IH st1)).
Qed.

Lemma tracker_read_answer_quiet (page : Z) (answer : outcome) :
  Tracker.quiet (fst (Tracker.read_answer page answer)) = true.
Proof.
  unfold Tracker.read_answer.
  destruct answer as [|status body]; [reflexivity|].
  destruct (_ <- raise_for_status status ;; response_json body) as [data|e];
    [|reflexivity].
  destruct (contains "error" data) as [[|]|e]; [| |reflexivity].
  - destruct (Tracker.is_depth_limit data) as [[|]|e]; reflexivity.
  - destruct (Tracker.lacks_items data) as [[|]|e]; try reflexivity.
    destruct (result <- getitem data "result" ;; getitem result "items"); reflexivity.
Qed.

(** The shape of what one pass through the [try] adds to the log: the
    request, quiet lines, and, only when the page was processed to its end,
    one checkpoint write for this page followed by the half-second pause. *)
Lemma tracker_try_page_shape (E : Tracker.env) (page : Z) (st : Tracker.state) :
  let r := Tracker.try_page E page st in
  Tracker.posts (Tracker.w (fst r)) = S (Tracker.posts (Tracker.w st)) /\
  exists evs,
    Tracker.quiet evs = true /\
    ((Tracker.log (fst r) = Tracker.log st ++ Tracker.Post page :: evs /\
      Tracker.file (Tracker.w (fst r)) = Tracker.file (Tracker.w st) /\
      snd r <> Ok Tracker.BreakPageDone) \/
     (Tracker.log (fst r) =
        Tracker.log st ++ Tracker.Post page :: evs ++
          [Tracker.CheckpointSaved page (Tracker.last_date (fst r)); Tracker.Sleep 500] /\
      Tracker.file (Tracker.w (fst r)) =
        Some {| Tracker.ck_page := page;
                Tracker.ck_last_date := Tracker.last_date (fst r) |} /\
      snd r = Ok Tracker.BreakPageDone)).
Proof.
  unfold Tracker.try_page.
  pose proof (tracker_read_answer_quiet page
                (Tracker.api E (Tracker.posts (Tracker.w st)) page)) as Hq.
  destruct (Tracker.read_answer page (Tracker.api E (Tracker.posts (Tracker.w st)) page))
    as [evs [d|e]]; cbn [fst] in Hq.
  2:{ cbn. split; [reflexivity|]. exists evs. split; [exact Hq|]. left.
      rewrite <- app_assoc. repeat split. discriminate. }
  assert (Hplain : forall o, o <> Tracker.BreakPageDone ->
            let r := (Tracker.say (Tracker.posted st page) evs, Ok o) in
            Tracker.posts (Tracker.w (fst r)) = S (Tracker.posts (Tracker.w st)) /\
            exists evs0, Tracker.quiet evs0 = true /\
              ((Tracker.log (fst r) = Tracker.log st ++ Tracker.Post page :: evs0 /\
                Tracker.file (Tracker.w (fst r)) = Tracker.file (Tracker.w st) /\
                snd r <> Ok Tracker.BreakPageDone) \/
               (Tracker.log (fst r) =
                  Tracker.log st ++ Tracker.Post page :: evs0 ++
                    [Tracker.CheckpointSaved page (Tracker.last_date (fst r));
                     Tracker.Sleep 500] /\
                Tracker.file (Tracker.w (fst r)) =
                  Some {| Tracker.ck_page := page;
                          Tracker.ck_last_date := Tracker.last_date (fst r) |} /\
                snd r = Ok Tracker.BreakPageDone))).
  { intros o Ho. cbn. split; [reflexivity|]. exists evs. split; [exact Hq|]. left.
    rewrite <- app_assoc. repeat split. congruence. }
  destruct d as [ | | |batch_nfts]; try (apply Hplain; discriminate).
  destruct (truthy batch_nfts); cbn [negb]; [|apply Hplain; discriminate].
  destruct (py_iter batch_nfts) as [nfts|e].
  2:{ cbn. split; [reflexivity|]. exists evs. split; [exact Hq|]. left.
      rewrite <- app_assoc. repeat split. discriminate. }
  pose proof (tracker_for_each_continues E nfts
                (Tracker.say (Tracker.posted st page) evs)) as (F & P & evs' & L & Q).
  destruct (for_each (Tracker.visit_nft E) nfts
              (Tracker.say (Tracker.posted st page) evs)) as [st' [e|]];
    cbn [fst snd] in *.
  - split; [exact P|]. exists (evs ++ evs'). split.
    { rewrite quiet_app, Hq, Q. reflexivity. }
    left. split; [|split; [exact F|discriminate]].
    rewrite L. cbn. rewrite <- !app_assoc. reflexivity.
  - cbn. split; [exact P|]. exists (evs ++ evs'). split.
    { rewrite quiet_app, Hq, Q. reflexivity. }
    right. split; [|split; reflexivity].
    rewrite L. cbn. rewrite <- !app_assoc. reflexivity.
Qed.

Lemma tracker_try_page_saves (E : Tracker.env) (page : Z) (st : Tracker.state) :
  exists l,
    Tracker.saved_pages (Tracker.log (fst (Tracker.try_page E page st)))
      = Tracker.saved_pages (Tracker.log st) ++ l /\
    (l = [] \/ l = [page]).
Proof.
  pose proof (tracker_try_page_shape E page st) as H. cbv zeta in H.
  destruct H as (_ & evs & Q & [(L & _ & _) | (L & _ & _)]);
    destruct (quiet_silent _ Q) as (Hs & _ & _); rewrite L.
  - exists []. split; [|left; reflexivity].
    change (Tracker.Post page :: evs) with ([Tracker.Post page] ++ evs).
    rewrite !saved_pages_app, Hs. reflexivity.
  - exists [page]. split; [|right; reflexivity].
    change (Tracker.Post page :: evs ++ ?l) with ([Tracker.Post page] ++ evs ++ l).
    rewrite !saved_pages_app, Hs. reflexivity.
Qed.

Lemma tracker_try_page_saves_when_done (E : Tracker.env) (page : Z) (st : Tracker.state) :
  let r := Tracker.try_page E page st in
  (snd r = Ok Tracker.BreakPageDone /\
   Tracker.saved_pages (Tracker.log (fst r)) = Tracker.saved_pages (Tracker.log st) ++ [page])
  \/
  (snd r <> Ok Tracker.BreakPageDone /\
   Tracker.saved_pages (Tracker.log (fst r)) = Tracker.saved_pages (Tracker.log st)).
Proof.
  pose proof (tracker_try_page_shape E page st) as H. cbv zeta in *.
  destruct H as (_ & evs & Q & [(L & _ & R) | (L & _ & R)]);
    destruct (quiet_silent _ Q) as (Hs & _ & _); rewrite L.
  - right. split; [exact R|].
    change (Tracker.Post page :: evs) with ([Tracker.Post page] ++ evs).
    rewrite !saved_pages_app, Hs. cbn. rewrite app_nil_r. reflexivity.
  - left. split; [exact R|].
    change (Tracker.Post page :: evs ++ ?l) with ([Tracker.Post page] ++ evs ++ l).
    rewrite !saved_pages_app, Hs. reflexivity.
Qed.

Lemma saved_pages_say_quiet (st : Tracker.state) (evs : list Tracker.event) :
  Tracker.quiet evs = true ->
  Tracker.saved_pages (Tracker.log (Tracker.say st evs)) = Tracker.saved_pages (Tracker.log st).
Proof.
  intros Q. cbn. rewrite saved_pages_app.
  destruct (quiet_silent _ Q) as (-> & _ & _). apply app_nil_r.
Qed.

Lemma tracker_retry_loop_saves (E : Tracker.env) (page : Z) (retries : nat) :
  forall st, exists l,
    Tracker.saved_pages (Tracker.log (fst (Tracker.retry_loop E retries page st)))
      = Tracker.saved_pages (Tracker.log st) ++ l /\
    (l = [] \/ l = [page]).
Proof.
  induction retries as [|rest IH]; intros st.
  - exists []. cbn. rewrite app_nil_r. split; [reflexivity|left; reflexivity].
  - cbn [Tracker.retry_loop].
    pose proof (tracker_try_page_saves_when_done E page st) as H. cbv zeta in H.
    destruct (Tracker.try_page E page st) as [st' [o|e]]; cbn [fst snd] in *.
    + destruct H as [(_ & Hsv)|(_ & Hsv)];
        [exists [page]|exists []];
        (split; [|tauto]); destruct o; cbn [fst]; rewrite Hsv, ?app_nil_r; reflexivity.
    + destruct H as [(R & _)|(_ & Hsv)]; [discriminate|].
      destruct (is_request_exception e).
      * destruct rest as [|rest'].
        -- exists []. cbn [fst]. rewrite app_nil_r, !saved_pages_say_quiet by reflexivity.
           split; [exact Hsv|left; reflexivity].
        -- destruct (IH (Tracker.say
                           (Tracker.say st'
                              [Tracker.FetchError (4 - Z.of_nat (S (S rest'))) e])
                           [Tracker.Retrying; Tracker.Sleep 2000])) as (l & Hl & Hor).
           exists l. split; [|exact Hor]. rewrite Hl. f_equal.
           cbn. rewrite !saved_pages_app. cbn. rewrite !app_nil_r. exact Hsv.
      * exists []. cbn [fst]. rewrite app_nil_r. split; [exact Hsv|left; reflexivity].
Qed.

Lemma sorted_snoc (l : list Z) (x : Z) :
  StronglySorted Z.lt l -> Forall (fun p => p < x) l -> StronglySorted Z.lt (l ++ [x]).
Proof.
  induction 1 as [|a l Hs IH Ha]; intros Hlt; cbn.
  - constructor; constructor.
  - inversion Hlt; subst. constructor; [auto|].
    apply Forall_app. split; [exact Ha|]. constructor; [assumption|constructor].
Qed.

(** The invariant of the page loop: the pages saved so far are in strictly
    increasing order and all below the page about to be requested. *)
Lemma tracker_page_loop_sorted (E : Tracker.env) (fuel : nat) :
  forall page st,
    StronglySorted Z.lt (Tracker.saved_pages (Tracker.log st)) ->
    Forall (fun p => p < page) (Tracker.saved_pages (Tracker.log st)) ->
    StronglySorted Z.lt
      (Tracker.saved_pages (Tracker.log (fst (Tracker.page_loop E fuel page st)))).
Proof.
  induction fuel as [|fuel IH]; intros page st Hs Hlt; [exact Hs|].
  cbn [Tracker.page_loop].
  destruct (tracker_retry_loop_saves E page 3 (Tracker.say st [Tracker.Fetching page]))
    as (l & Hl & Hor).
  rewrite saved_pages_say_quiet in Hl by reflexivity.
  assert (Hs' : StronglySorted Z.lt (Tracker.saved_pages (Tracker.log st) ++ l)).
  { destruct Hor as [-> | ->]; [rewrite app_nil_r; exact Hs|].
    apply sorted_snoc; assumption. }
  destruct (Tracker.retry_loop E 3 page (Tracker.say st [Tracker.Fetching page]))
    as [st' [ | |x]]; cbn [fst] in *; try (rewrite Hl; exact Hs').
  apply IH; rewrite Hl; [exact Hs'|].
  apply Forall_app. split.
  - eapply Forall_impl; [|exact Hlt]. cbn. intros. lia.
  - destruct Hor as [-> | ->]; constructor; [lia|constructor].
Qed.

Lemma tracker_fetch_sorted (E : Tracker.env) (fuel : nat) (w0 : Tracker.world) :
  StronglySorted Z.lt
    (Tracker.saved_pages
       (Tracker.log (fst (Tracker.fetch_nfts_from_collection E fuel w0)))).
Proof.
  unfold Tracker.fetch_nfts_from_collection, Tracker.load_checkpoint.
  destruct (Tracker.file w0) as [c|];
    apply tracker_page_loop_sorted; cbn; constructor.
Qed.

Lemma tracker_main_saved_pages (E : Tracker.env) (fuel : nat) (w0 : Tracker.world) :
  Tracker.saved_pages (Tracker.log (fst (Tracker.main E fuel w0))) =
  if Tracker.init_ok E
  then Tracker.saved_pages
         (Tracker.log (fst (Tracker.fetch_nfts_from_collection E fuel w0)))
  else [].
Proof.
  unfold Tracker.main.
  destruct (Tracker.init_ok E); cbn [negb]; [|reflexivity].
  destruct (Tracker.fetch_nfts_from_collection E fuel w0) as [st x]. cbn [fst].
  assert (H : forall y : Tracker.exit,
    Tracker.saved_pages (Tracker.log (fst
      (if Z.of_nat (List.length (Tracker.all_nfts st)) >=? Tracker.CHECKPOINT_LIMIT
       then (Tracker.say st [Tracker.KeepCheckpoint], Some y)
       else match Tracker.file (Tracker.w st) with
            | Some _ =>
                ({| Tracker.w :=
                      {| Tracker.file := None; Tracker.sheet := Tracker.sheet (Tracker.w st);
                         Tracker.posts := Tracker.posts (Tracker.w st);
                         Tracker.sheet_calls := Tracker.sheet_calls (Tracker.w st) |};
                    Tracker.last_date := Tracker.last_date st;
                    Tracker.all_nfts := Tracker.all_nfts st;
                    Tracker.log := Tracker.log st ++ [Tracker.CheckpointRemoved] |},
                 Some y)
            | None => (st, Some y)
            end))) = Tracker.saved_pages (Tracker.log st)).
  { intros y.
    destruct (Z.of_nat (List.length (Tracker.all_nfts st)) >=? Tracker.CHECKPOINT_LIMIT).
    - apply saved_pages_say_quiet. reflexivity.
    - destruct (Tracker.file (Tracker.w st)); cbn [fst Tracker.log]; [|reflexivity].
      rewrite saved_pages_app. apply app_nil_r. }
  destruct x; try apply H; reflexivity.
Qed.

(** ** Order of the checkpoints *)

(** C8: in every run of the tracker, whatever the API answers and however
    long the run lasts, the pages of the checkpoints written form a strictly
    increasing sequence, in [fetch_nfts_from_collection] and in [main]; and
    the retry loop of one page, however it is left, adds no checkpoint write
    or exactly one, for that page. *)
Theorem C8_saved_checkpoints_strictly_increase :
  forall (E : Tracker.env) (fuel : nat) (w0 : Tracker.world),
    StronglySorted Z.lt
      (Tracker.saved_pages
         (Tracker.log (fst (Tracker.fetch_nfts_from_collection E fuel w0)))) /\
    StronglySorted Z.lt
      (Tracker.saved_pages (Tracker.log (fst (Tracker.main E fuel w0)))) /\
    (forall page retries st, exists l,
        Tracker.saved_pages (Tracker.log (fst (Tracker.retry_loop E retries page st)))
          = Tracker.saved_pages (Tracker.log st) ++ l /\
        (l = [] \/ l = [page])).
Proof.
  intros E fuel w0. split; [apply tracker_fetch_sorted|]. split.
  - rewrite tracker_main_saved_pages. destruct (Tracker.init_ok E).
    + apply tracker_fetch_sorted.
    + constructor.
  - intros page retries st. apply tracker_retry_loop_saves.
Qed.

(** The scenario of the specification: the request for page 1 fails twice
    and goes through at the third attempt.  Page 1 is requested three
    times, with the two-second pause after each failure, and its checkpoint
    is written once. *)
Example tracker_two_failures_one_checkpoint :
  let st := fst (Tracker.fetch_nfts_from_collection Sample.flaky_twice 5 Sample.empty_world) in
  Tracker.posted_pages (Tracker.log st) = [1; 1; 1; 2] /\
  Tracker.saved_pages (Tracker.log st) = [1] /\
  Tracker.pauses (Tracker.log st) = [2000; 2000; 500] /\
  snd (Tracker.fetch_nfts_from_collection Sample.flaky_twice 5 Sample.empty_world)
    = Tracker.NoMoreItems.
Proof. vm_compute. repeat split. Qed.

(** ** The end of a scan *)


(** The log of the tracker only grows. *)
Lemma tracker_try_page_posts_first (E : Tracker.env) (page : Z) (st : Tracker.state) :
  exists evs,
    Tracker.log (fst (Tracker.try_page E page st))
      = Tracker.log st ++ Tracker.Post page :: evs.
Proof.
  pose proof (tracker_try_page_shape E page st) as H. cbv zeta in H.
  destruct H as (_ & evs & _ & [(L & _) | (L & _)]); rewrite L; eexists; reflexivity.
Qed.

Lemma tracker_retry_loop_grows (E : Tracker.env) (page : Z) (retries : nat) :
  forall st, exists evs,
    Tracker.log (fst (Tracker.retry_loop E retries page st)) = Tracker.log st ++ evs.
Proof.
  induction retries as [|rest IH]; intros st.
  - exists []. cbn. rewrite app_nil_r. reflexivity.
  - cbn [Tracker.retry_loop].
    destruct (tracker_try_page_posts_first E page st) as [evs L].
    destruct (Tracker.try_page E page st) as [st' [o|e]]; cbn [fst] in L.
    + exists (Tracker.Post page :: evs). destruct o; exact L.
    + destruct (is_request_exception e); [|eexists; exact L].
      destruct rest as [|rest'].
      * eexists. cbn. rewrite L, <- !app_assoc. reflexivity.
      * match goal with
        | |- context [Tracker.retry_loop E (S rest') page ?s] =>
            destruct (IH s) as [evs' L']
        end.
        eexists. rewrite L'. cbn. rewrite L, <- !app_assoc. reflexivity.
Qed.

Lemma tracker_retry_loop_posts_first (E : Tracker.env) (page : Z) (retries : nat)
    (st : Tracker.state) :
  exists evs,
    Tracker.log (fst (Tracker.retry_loop E (S retries) page st))
      = Tracker.log st ++ Tracker.Post page :: evs.
Proof.
  cbn [Tracker.retry_loop].
  destruct (tracker_try_page_posts_first E page st) as [evs L].
  destruct (Tracker.try_page E page st) as [st' [o|e]]; cbn [fst] in L.
  - exists evs. destruct o; exact L.
  - destruct (is_request_exception e); [|eexists; exact L].
    destruct retries as [|rest'].
    + eexists. cbn. rewrite L, <- !app_assoc. reflexivity.
    + match goal with
      | |- context [Tracker.retry_loop E (S rest') page ?s] =>
          destruct (tracker_retry_loop_grows E page (S rest') s) as [evs' L']
      end.
      eexists. rewrite L'. cbn. rewrite L, <- !app_assoc. reflexivity.
Qed.

Lemma tracker_page_loop_grows (E : Tracker.env) (fuel : nat) :
  forall page st, exists evs,
    Tracker.log (fst (Tracker.page_loop E fuel page st)) = Tracker.log st ++ evs.
Proof.
  induction fuel as [|fuel IH]; intros page st.
  - exists []. cbn. rewrite app_nil_r. reflexivity.
  - cbn [Tracker.page_loop].
    destruct (tracker_retry_loop_grows E page 3 (Tracker.say st [Tracker.Fetching page]))
      as [evs L].
    destruct (Tracker.retry_loop E 3 page (Tracker.say st [Tracker.Fetching page]))
      as [st' [ | |x]]; cbn [fst] in *.
    + destruct (IH (page + 1) st') as [evs' L'].
      eexists. rewrite L', L. cbn. rewrite <- !app_assoc. reflexivity.
    + eexists. rewrite L. cbn. rewrite <- !app_assoc. reflexivity.
    + eexists. rewrite L. cbn. rewrite <- !app_assoc. reflexivity.
Qed.

(** Each turn of the page loop starts with a request for its page. *)
Lemma tracker_page_loop_posts_first (E : Tracker.env) (fuel : nat) (page : Z)
    (st : Tracker.state) :
  exists evs,
    Tracker.log (fst (Tracker.page_loop E (S fuel) page st))
      = Tracker.log st ++ Tracker.Fetching page :: Tracker.Post page :: evs.
Proof.
  cbn [Tracker.page_loop].
  destruct (tracker_retry_loop_posts_first E page 2 (Tracker.say st [Tracker.Fetching page]))
    as [evs L].
  destruct (Tracker.retry_loop E 3 page (Tracker.say st [Tracker.Fetching page]))
    as [st' [ | |x]]; cbn [fst] in *.
  - destruct (tracker_page_loop_grows E fuel (page + 1) st') as [evs' L'].
    eexists. rewrite L', L. cbn. rewrite <- !app_assoc. reflexivity.
  - eexists. rewrite L. cbn. rewrite <- !app_assoc. reflexivity.
  - eexists. rewrite L. cbn. rewrite <- !app_assoc. reflexivity.
Qed.

Section TrackerPage.

Variables (E : Tracker.env) (page : Z) (st : Tracker.state).
Variables (evs : list Tracker.event) (batch_nfts : json).
Hypothesis answered :
  Tracker.read_answer page (Tracker.api E (Tracker.posts (Tracker.w st)) page)
    = (evs, Ok (Tracker.Batch batch_nfts)).

Lemma tracker_try_page_empty :
  truthy batch_nfts = false ->
  Tracker.try_page E page st
    = (Tracker.say (Tracker.posted st page) evs, Ok Tracker.BreakNoMore).
Proof.
  intros Hf. unfold Tracker.try_page. rewrite answered, Hf. reflexivity.
Qed.


End TrackerPage.

Lemma tracker_page_loop_empty_page (E : Tracker.env) (fuel : nat) (page : Z)
    (st : Tracker.state) (evs : list Tracker.event) (batch_nfts : json) :
  Tracker.read_answer page (Tracker.api E (Tracker.posts (Tracker.w st)) page)
    = (evs, Ok (Tracker.Batch batch_nfts)) ->
  truthy batch_nfts = false ->
  Tracker.page_loop E (S fuel) page st =
  (Tracker.say (Tracker.posted (Tracker.say st [Tracker.Fetching page]) page) evs,
   Tracker.NoMoreItems).
Proof.
  intros Ha Hf. cbn [Tracker.page_loop Tracker.retry_loop].
  rewrite (tracker_try_page_empty E page (Tracker.say st [Tracker.Fetching page])
             evs batch_nfts Ha Hf).
  reflexivity.
Qed.





(** ** What a checkpoint records *)



(** A run that finds a checkpoint starts by requesting the page it names. *)
Lemma tracker_resume_requests_saved_page (E : Tracker.env) (fuel : nat)
    (w0 : Tracker.world) (c : Tracker.checkpoint) :
  Tracker.file w0 = Some c ->
  exists rest,
    Tracker.posted_pages
      (Tracker.log (fst (Tracker.fetch_nfts_from_collection E (S fuel) w0)))
      = Tracker.ck_page c :: rest.
Proof.
  intros Hf. unfold Tracker.fetch_nfts_from_collection, Tracker.load_checkpoint.
  rewrite Hf.
  match goal with
  | |- context [Tracker.page_loop E (S fuel) ?p ?s] =>
      destruct (tracker_page_loop_posts_first E fuel p s) as [evs L]
  end.
  rewrite L. exists (Tracker.posted_pages evs). reflexivity.
Qed.




(** ** The checkpoint at the end of [main] *)

(** What [main] does with the checkpoint file depends on the number of
    assets the scan returned and on nothing else: not on how the scan ended. *)
Lemma tracker_main_checkpoint_fate (E : Tracker.env) (fuel : nat) (w0 : Tracker.world)
    (st : Tracker.state) (x : Tracker.exit) :
  Tracker.init_ok E = true ->
  Tracker.fetch_nfts_from_collection E fuel w0 = (st, x) ->
  (forall e, x <> Tracker.Crashed e) ->
  x <> Tracker.OutOfFuel ->
  snd (Tracker.main E fuel w0) = Some x /\
  Tracker.file (Tracker.w (fst (Tracker.main E fuel w0))) =
  if Z.of_nat (List.length (Tracker.all_nfts st)) >=? Tracker.CHECKPOINT_LIMIT
  then Tracker.file (Tracker.w st)
  else None.
Proof.
  intros Hinit Hfetch Hcrash Hfuel. unfold Tracker.main. rewrite Hinit, Hfetch.
  cbn [negb].
  destruct x; try (exfalso; (apply Hfuel; reflexivity) || (eapply Hcrash; reflexivity));
    destruct (Z.of_nat (List.length (Tracker.all_nfts st)) >=? Tracker.CHECKPOINT_LIMIT);
    try (split; reflexivity);
    destruct (Tracker.file (Tracker.w st)) eqn:Hf; cbn; rewrite ?Hf; split; reflexivity.
Qed.

(** C4, on the code: a run resumed from the checkpoint of page 500 reads
    page 500, is refused page 501 with the pagination-depth error and leaves
    the scan at once; the checkpoint of page 500 is on disk at that moment.
    [main] then counts the assets returned by this run, finds fewer than
    500000, and removes the checkpoint file. *)
Theorem C4_depth_limit_run_removes_the_checkpoint :
  let scan := Tracker.fetch_nfts_from_collection Sample.deep_collection 5
                Sample.resumed_at_500 in
  let run := Tracker.main Sample.deep_collection 5 Sample.resumed_at_500 in
  snd scan = Tracker.DepthLimit /\
  Tracker.posted_pages (Tracker.log (fst scan)) = [500; 501] /\
  Tracker.file (Tracker.w (fst scan))
    = Some {| Tracker.ck_page := 500; Tracker.ck_last_date := JStr "2024-03-01" |} /\
  snd run = Some Tracker.DepthLimit /\
  Tracker.file (Tracker.w (fst run)) = None /\
  In Tracker.PaginationLimit (Tracker.log (fst run)) /\
  In Tracker.CheckpointRemoved (Tracker.log (fst run)).
Proof.
  vm_compute. repeat split; auto 20.
Qed.

(** ** Retries *)

Lemma fetch_one_attempt_pause (answer : outcome) (attempt : Z) (evs : list FetchUltimate.event) :
  FetchUltimate.one_attempt answer attempt = FetchUltimate.Again evs ->
  FetchUltimate.pauses evs = [1000 * (FetchUltimate.retry_delay * (attempt + 1))] /\
  FetchUltimate.requests evs = [].
Proof.
  unfold FetchUltimate.one_attempt.
  destruct answer as [|status body].
  { intros H. injection H as <-. split; reflexivity. }
  destruct (status =? 200).
  2:{ intros H. injection H as <-. split; reflexivity. }
  destruct (response_json body) as [data|e].
  2:{ intros H. injection H as <-. split; reflexivity. }
  destruct (contains "error" data) as [[|]|e];
    try (intros H; injection H as <-; split; reflexivity).
  match goal with
  | |- context [match ?c with Ok _ => _ | Raise _ => _ end] => destruct c as [[i c']|e]
  end; [discriminate|].
  intros H. injection H as <-. split; reflexivity.
Qed.

Lemma fetch_pauses_app (l1 l2 : list FetchUltimate.event) :
  FetchUltimate.pauses (l1 ++ l2) = FetchUltimate.pauses l1 ++ FetchUltimate.pauses l2.
Proof. apply flat_map_app. Qed.

Lemma fetch_requests_app (l1 l2 : list FetchUltimate.event) :
  FetchUltimate.requests (l1 ++ l2)
    = FetchUltimate.requests l1 ++ FetchUltimate.requests l2.
Proof. apply flat_map_app. Qed.

Lemma fetch_requests_post (c : option json) (l : list FetchUltimate.event) :
  FetchUltimate.requests (FetchUltimate.Post c :: l) = c :: FetchUltimate.requests l.
Proof. reflexivity. Qed.

Lemma fetch_pauses_post (c : option json) (l : list FetchUltimate.event) :
  FetchUltimate.pauses (FetchUltimate.Post c :: l) = FetchUltimate.pauses l.
Proof. reflexivity. Qed.

(** Three failed attempts in [get_nfts_by_collection]: three requests with
    the same cursor, pauses of one, two and three seconds, and the pair
    [([], None)] for the caller. *)
Lemma fetch_get_nfts_exhausted (E : FetchUltimate.env) (calls : nat) (cursor : json)
    (evs1 evs2 evs3 : list FetchUltimate.event) :
  FetchUltimate.one_attempt
    (FetchUltimate.api E calls (FetchUltimate.cursor_param cursor)) 0
    = FetchUltimate.Again evs1 ->
  FetchUltimate.one_attempt
    (FetchUltimate.api E (S calls) (FetchUltimate.cursor_param cursor)) 1
    = FetchUltimate.Again evs2 ->
  FetchUltimate.one_attempt
    (FetchUltimate.api E (S (S calls)) (FetchUltimate.cursor_param cursor)) 2
    = FetchUltimate.Again evs3 ->
  let r := FetchUltimate.get_nfts_by_collection E calls cursor in
  fst (fst r) = (JArr [], JNull) /\
  snd r = S (S (S calls)) /\
  FetchUltimate.requests (snd (fst r))
    = [FetchUltimate.cursor_param cursor; FetchUltimate.cursor_param cursor;
       FetchUltimate.cursor_param cursor] /\
  FetchUltimate.pauses (snd (fst r)) = [1000; 2000; 3000].
Proof.
  intros H1 H2 H3.
  destruct (fetch_one_attempt_pause _ _ _ H1) as (P1 & R1).
  destruct (fetch_one_attempt_pause _ _ _ H2) as (P2 & R2).
  destruct (fetch_one_attempt_pause _ _ _ H3) as (P3 & R3).
  unfold FetchUltimate.get_nfts_by_collection, FetchUltimate.max_retries.
  cbn [FetchUltimate.attempts]. rewrite H1.
  change (0 + 1) with 1. rewrite H2. change (1 + 1) with 2. rewrite H3.
  cbn [fst snd]. repeat split.
  - repeat (rewrite fetch_requests_post || rewrite fetch_requests_app).
    rewrite R1, R2, R3. reflexivity.
  - repeat (rewrite fetch_pauses_post || rewrite fetch_pauses_app).
    rewrite P1, P2, P3. reflexivity.
Qed.




Lemma fetch_get_nfts_empty (E : FetchUltimate.env) (calls : nat) (cursor : json)
    (data result items : json) :
  FetchUltimate.api E calls (FetchUltimate.cursor_param cursor)
    = Response 200 (Some data) ->
  contains "error" data = Ok false ->
  dict_get data "result" (JObj []) = Ok result ->
  dict_get result "items" (JArr []) = Ok items ->
  truthy items = false ->
  FetchUltimate.get_nfts_by_collection E calls cursor =
  ((JArr [], JNull), [FetchUltimate.Post (FetchUltimate.cursor_param cursor)], S calls).
Proof.
  intros Ha He Hr Hi Ht.
  unfold FetchUltimate.get_nfts_by_collection, FetchUltimate.max_retries.
  cbn [FetchUltimate.attempts]. unfold FetchUltimate.one_attempt.
  rewrite Ha. cbn [Z.eqb Pos.eqb response_json]. rewrite He, Hr. cbn [bind].
  rewrite Hi. cbn [bind]. rewrite Ht. reflexivity.
Qed.

(** When [get_nfts_by_collection] hands back an empty list, [main] takes
    its first exit: the line "Processing complete!" and a plain return. *)
Lemma fetch_main_loop_on_empty (E : FetchUltimate.env) (fuel : nat)
    (st : FetchUltimate.state) :
  fst (fst (FetchUltimate.get_nfts_by_collection E (FetchUltimate.calls st)
              (FetchUltimate.cursor st))) = (JArr [], JNull) ->
  let r := FetchUltimate.main_loop E (S fuel) st in
  snd r = FetchUltimate.Complete /\
  FetchUltimate.rows (fst r) = FetchUltimate.rows st /\
  FetchUltimate.total_processed (fst r) = FetchUltimate.total_processed st /\
  FetchUltimate.log (fst r) =
    FetchUltimate.log st ++
    snd (fst (FetchUltimate.get_nfts_by_collection E (FetchUltimate.calls st)
                (FetchUltimate.cursor st))) ++
    [if FetchUltimate.batch_number st =? 1
     then FetchUltimate.NoNftsFound else FetchUltimate.NoMoreNfts;
     FetchUltimate.ProcessingComplete].
Proof.
  intros Hempty. cbn [FetchUltimate.main_loop FetchUltimate.retry_loop].
  change ((0 <? FetchUltimate.max_retries_per_batch) && negb false) with true.
  cbn iota. unfold FetchUltimate.batch.
  destruct (FetchUltimate.get_nfts_by_collection E (FetchUltimate.calls st)
              (FetchUltimate.cursor st)) as [[[nfts next_cursor] evs] calls'].
  cbn [fst snd] in Hempty. injection Hempty as -> ->.
  cbn. rewrite <- app_assoc. repeat split.
Qed.




(** ** The cursor script at the end of its retries *)

Lemma fetch_one_attempt_reports_no_error (answer : outcome) (attempt : Z)
    (evs : list FetchUltimate.event) :
  FetchUltimate.one_attempt answer attempt = FetchUltimate.Again evs ->
  ~ In FetchUltimate.ProcessingCompleteWithErrors evs.
Proof.
  unfold FetchUltimate.one_attempt.
  destruct answer as [|status body].
  { intros H; injection H as <-. cbn. intuition discriminate. }
  destruct (status =? 200).
  2:{ intros H; injection H as <-. cbn. intuition discriminate. }
  destruct (response_json body) as [data|e].
  2:{ intros H; injection H as <-. cbn. intuition discriminate. }
  destruct (contains "error" data) as [[|]|e];
    try (intros H; injection H as <-; cbn; intuition discriminate).
  match goal with
  | |- context [match ?c with Ok _ => _ | Raise _ => _ end] => destruct c as [[i c']|e]
  end; [discriminate|].
  intros H; injection H as <-. cbn. intuition discriminate.
Qed.

(** Nothing that [get_nfts_by_collection] prints announces a scan ended
    with errors. *)
Lemma fetch_attempts_report_no_error (E : FetchUltimate.env) (todo : nat) :
  forall attempt calls cursor,
    ~ In FetchUltimate.ProcessingCompleteWithErrors
        (snd (fst (FetchUltimate.attempts E todo attempt calls cursor))).
Proof.
  induction todo as [|todo IH]; intros attempt calls cursor; [intros []|].
  cbn [FetchUltimate.attempts].
  destruct (FetchUltimate.one_attempt
              (FetchUltimate.api E calls (FetchUltimate.cursor_param cursor)) attempt)
    as [items next_cursor|evs] eqn:Ho.
  - cbn. intuition discriminate.
  - pose proof (IH (attempt + 1) (S calls) cursor) as Hrec.
    destruct (FetchUltimate.attempts E todo (attempt + 1) (S calls) cursor)
      as [[r evs'] calls'].
    cbn [fst snd] in *. intros [Hin|Hin]; [discriminate|].
    apply in_app_or in Hin. destruct Hin as [Hin|Hin]; [|exact (Hrec Hin)].
    exact (fetch_one_attempt_reports_no_error _ _ _ Ho Hin).
Qed.

(** C9: when the three attempts of [get_nfts_by_collection] all fail, it
    returns the pair [([], None)], the very pair it returns when the API
    answers with an empty list of items; [main] then leaves by the exit it
    takes at the end of a collection, printing "Processing complete!", with
    its ledger and counters as they were. *)
Theorem C9_exhausted_retries_end_the_scan_as_complete
    (E : FetchUltimate.env) (st : FetchUltimate.state) (fuel : nat)
    (evs1 evs2 evs3 : list FetchUltimate.event)
    (H1 : FetchUltimate.one_attempt
            (FetchUltimate.api E (FetchUltimate.calls st)
               (FetchUltimate.cursor_param (FetchUltimate.cursor st))) 0
          = FetchUltimate.Again evs1)
    (H2 : FetchUltimate.one_attempt
            (FetchUltimate.api E (S (FetchUltimate.calls st))
               (FetchUltimate.cursor_param (FetchUltimate.cursor st))) 1
          = FetchUltimate.Again evs2)
    (H3 : FetchUltimate.one_attempt
            (FetchUltimate.api E (S (S (FetchUltimate.calls st)))
               (FetchUltimate.cursor_param (FetchUltimate.cursor st))) 2
          = FetchUltimate.Again evs3) :
  fst (fst (FetchUltimate.get_nfts_by_collection E (FetchUltimate.calls st)
              (FetchUltimate.cursor st))) = (JArr [], JNull) /\
  (forall E0 calls cursor data result items,
      FetchUltimate.api E0 calls (FetchUltimate.cursor_param cursor)
        = Response 200 (Some data) ->
      contains "error" data = Ok false ->
      dict_get data "result" (JObj []) = Ok result ->
      dict_get result "items" (JArr []) = Ok items ->
      truthy items = false ->
      fst (fst (FetchUltimate.get_nfts_by_collection E0 calls cursor))
        = fst (fst (FetchUltimate.get_nfts_by_collection E (FetchUltimate.calls st)
                      (FetchUltimate.cursor st)))) /\
  snd (FetchUltimate.main_loop E (S fuel) st) = FetchUltimate.Complete /\
  FetchUltimate.rows (fst (FetchUltimate.main_loop E (S fuel) st))
    = FetchUltimate.rows st /\
  (exists evs,
      FetchUltimate.log (fst (FetchUltimate.main_loop E (S fuel) st))
        = FetchUltimate.log st ++ evs ++ [FetchUltimate.ProcessingComplete]) /\
  ~ In FetchUltimate.ProcessingCompleteWithErrors
      (snd (fst (FetchUltimate.get_nfts_by_collection E (FetchUltimate.calls st)
                   (FetchUltimate.cursor st)))).
Proof.
  destruct (fetch_get_nfts_exhausted E (FetchUltimate.calls st) (FetchUltimate.cursor st)
              evs1 evs2 evs3 H1 H2 H3) as (Hr & _ & _ & _).
  split; [exact Hr|]. split.
  { intros E0 calls cursor data result items Ha He Hres Hi Ht.
    rewrite (fetch_get_nfts_empty E0 calls cursor data result items Ha He Hres Hi Ht), Hr.
    reflexivity. }
  pose proof (fetch_main_loop_on_empty E fuel st Hr) as H. cbv zeta in H.
  destruct H as (Hc & Hrows & _ & Hl).
  split; [exact Hc|]. split; [exact Hrows|]. split.
  { eexists. rewrite Hl.
    change [?a; FetchUltimate.ProcessingComplete]
      with ([a] ++ [FetchUltimate.ProcessingComplete]).
    rewrite (app_assoc _ [_] [FetchUltimate.ProcessingComplete]). reflexivity. }
  apply fetch_attempts_report_no_error.
Qed.

Lemma C9_exhausted_retries_end_the_scan_as_complete_witness :
  FetchUltimate.one_attempt ConnFail 0
    = FetchUltimate.Again [FetchUltimate.AttemptFailed 1 ConnectionError;
                           FetchUltimate.Sleep 1000] /\
  snd (FetchUltimate.main_loop Sample.line_is_down 1 Sample.fetch_start)
    = FetchUltimate.Complete.
Proof.
  split; [reflexivity|].
  exact (proj1 (proj2 (proj2
           (C9_exhausted_retries_end_the_scan_as_complete
              Sample.line_is_down Sample.fetch_start 0 _ _ _ eq_refl eq_refl eq_refl)))).
Defined.

(** ** The ledger *)

Lemma tracker_add_skips_known (E : Tracker.env) (w0 : Tracker.world)
    (u : Tracker.ultimate_nft) :
  existsb (Tracker.row_has (Tracker.address u)) (Tracker.sheet w0) = true ->
  Tracker.sheet (fst (Tracker.add_ultimate_nft_to_sheet E w0 u)) = Tracker.sheet w0 /\
  (snd (Tracker.add_ultimate_nft_to_sheet E w0 u)
     = [Tracker.AlreadyInSheet (Tracker.address u)] \/
   Tracker.sheets E (Tracker.sheet_calls w0) = Tracker.GetFails).
Proof.
  intros Hin. unfold Tracker.add_ultimate_nft_to_sheet. rewrite Hin.
  destruct (Tracker.sheets E (Tracker.sheet_calls w0)); cbn; auto.
Qed.

Lemma tracker_add_appends_new (E : Tracker.env) (w0 : Tracker.world)
    (u : Tracker.ultimate_nft) :
  Tracker.sheets E (Tracker.sheet_calls w0) = Tracker.SheetsOk ->
  existsb (Tracker.row_has (Tracker.address u)) (Tracker.sheet w0) = false ->
  Tracker.sheet (fst (Tracker.add_ultimate_nft_to_sheet E w0 u)) =
  Tracker.sheet w0 ++ [[Tracker.cell E (Tracker.address u);
                        Tracker.cell E (Tracker.name u);
                        Tracker.cell E (Tracker.owner u)]].
Proof.
  intros Hok Hnew. unfold Tracker.add_ultimate_nft_to_sheet. rewrite Hok, Hnew.
  reflexivity.
Qed.

Lemma row_has_own_row (E : Tracker.env) (a : json) (rest : list string) :
  (forall s, Tracker.cell E (JStr s) = s) ->
  is_str a = true ->
  Tracker.row_has a (Tracker.cell E a :: rest) = true.
Proof.
  intros Hcell Hs. destruct a; try discriminate. cbn. rewrite Hcell.
  apply String.eqb_refl.
Qed.

Lemma existsb_false_filter {A : Type} (f : A -> bool) (l : list A) :
  existsb f l = false -> filter f l = [].
Proof.
  induction l as [|x l IH]; [reflexivity|].
  cbn. intros H. apply orb_false_elim in H. destruct H as [Hx Hl].
  rewrite Hx. exact (IH Hl).
Qed.

Section Replay.

Variable E : Tracker.env.
Hypothesis sheets_up : forall k, Tracker.sheets E k = Tracker.SheetsOk.
Hypothesis cell_text : forall s, Tracker.cell E (JStr s) = s.

Lemma covered_grows (rows ext : list (list string)) (nft : json) :
  Expected.covered rows nft -> Expected.covered (rows ++ ext) nft.
Proof.
  intros H c u Hs Hm. rewrite existsb_app, (H c u Hs Hm). reflexivity.
Qed.

Lemma tracker_visit_nft_covers (st st' : Tracker.state) (nft : json) :
  (forall u, Tracker.make_ultimate_nft nft = Ok u -> is_str (Tracker.address u) = true) ->
  Tracker.visit_nft E st nft = (st', None) ->
  (exists ext, Tracker.sheet (Tracker.w st') = Tracker.sheet (Tracker.w st) ++ ext) /\
  Expected.covered (Tracker.sheet (Tracker.w st')) nft.
Proof.
  intros Hid. unfold Tracker.visit_nft, Expected.covered.
  destruct (Tracker.scan_attrs nft) as [[created is_ultimate]|e]; [|discriminate].
  destruct is_ultimate.
  - destruct (Tracker.make_ultimate_nft nft) as [u|e] eqn:Hm; [|discriminate].
    cbn [Tracker.w].
    destruct (existsb (Tracker.row_has (Tracker.address u)) (Tracker.sheet (Tracker.w st)))
      eqn:Hin.
    + destruct (tracker_add_skips_known E (Tracker.w st) u Hin) as [Hsame _].
      destruct (Tracker.add_ultimate_nft_to_sheet E (Tracker.w st) u) as [w' evs].
      cbn [fst] in Hsame. intros H. injection H as <-. cbn [Tracker.w]. split.
      * exists []. rewrite Hsame, app_nil_r. reflexivity.
      * intros c u' _ Hu'. injection Hu' as <-. rewrite Hsame. exact Hin.
    + pose proof (tracker_add_appends_new E (Tracker.w st) u (sheets_up _) Hin) as Happ.
      destruct (Tracker.add_ultimate_nft_to_sheet E (Tracker.w st) u) as [w' evs].
      cbn [fst] in Happ. intros H. injection H as <-. cbn [Tracker.w]. split.
      * eexists. exact Happ.
      * intros c u' _ Hu'. injection Hu' as <-. rewrite Happ, existsb_app.
        cbn [existsb]. rewrite (row_has_own_row E _ _ cell_text (Hid u eq_refl)).
        rewrite orb_true_r. reflexivity.
  - intros H. injection H as <-. cbn [Tracker.w]. split.
    + exists []. rewrite app_nil_r. reflexivity.
    + intros c u Hs. discriminate.
Qed.

Lemma tracker_visit_nft_covered (E' : Tracker.env) (st : Tracker.state) (nft : json) :
  Expected.covered (Tracker.sheet (Tracker.w st)) nft ->
  Tracker.sheet (Tracker.w (fst (Tracker.visit_nft E' st nft)))
    = Tracker.sheet (Tracker.w st).
Proof.
  intros Hc. unfold Tracker.visit_nft.
  destruct (Tracker.scan_attrs nft) as [[created is_ultimate]|e] eqn:Hs; [|reflexivity].
  destruct is_ultimate; [|reflexivity].
  destruct (Tracker.make_ultimate_nft nft) as [u|e] eqn:Hm; [|reflexivity].
  cbn [Tracker.w].
  destruct (tracker_add_skips_known E' (Tracker.w st) u (Hc created u Hs Hm))
    as [Hsame _].
  destruct (Tracker.add_ultimate_nft_to_sheet E' (Tracker.w st) u) as [w' evs].
  exact Hsame.
Qed.

Lemma tracker_first_pass_covers (nfts : list json) :
  (forall nft u, In nft nfts -> Tracker.make_ultimate_nft nft = Ok u ->
                 is_str (Tracker.address u) = true) ->
  forall st st1,
    for_each (Tracker.visit_nft E) nfts st = (st1, None) ->
    (exists ext, Tracker.sheet (Tracker.w st1) = Tracker.sheet (Tracker.w st) ++ ext) /\
    Forall (Expected.covered (Tracker.sheet (Tracker.w st1))) nfts.
Proof.
  induction nfts as [|nft rest IH]; intros Hid st st1 H.
  - injection H as <-. split; [exists []; rewrite app_nil_r; reflexivity|constructor].
  - cbn [for_each] in H.
    destruct (Tracker.visit_nft E st nft) as [st' [e|]] eqn:Hv; [discriminate|].
    destruct (tracker_visit_nft_covers st st' nft
                (fun u => Hid nft u (or_introl eq_refl)) Hv) as ([ext1 Hext1] & Hcov).
    destruct (IH (fun n u Hin => Hid n u (or_intror Hin)) st' st1 H)
      as ([ext2 Hext2] & Hall).
    split.
    + exists (ext1 ++ ext2). rewrite Hext2, Hext1, app_assoc. reflexivity.
    + constructor; [|exact Hall]. rewrite Hext2. apply covered_grows. exact Hcov.
Qed.

Lemma tracker_second_pass_adds_nothing (E' : Tracker.env) (nfts : list json) :
  forall st,
    Forall (Expected.covered (Tracker.sheet (Tracker.w st))) nfts ->
    Tracker.sheet (Tracker.w (fst (for_each (Tracker.visit_nft E') nfts st)))
      = Tracker.sheet (Tracker.w st).
Proof.
  induction nfts as [|nft rest IH]; intros st Hall; [reflexivity|].
  inversion Hall as [|? ? Hc Hrest]; subst. cbn [for_each].
  pose proof (tracker_visit_nft_covered E' st nft Hc) as Hsame.
  destruct (Tracker.visit_nft E' st nft) as [st' [e|]]; cbn [fst] in *.
  - exact Hsame.
  - rewrite IH; [exact Hsame|]. rewrite Hsame. exact Hrest.
Qed.

End Replay.

(** C7, the claim as stated, fails on the cursor script: [log_ultimate_nft]
    appends the row without reading the sheet, so visiting the same page a
    second time leaves two rows for the one ultimate asset. *)
Lemma C7_cursor_script_appends_without_reading :
  let once := fst (for_each (FetchUltimate.visit_nft Sample.empty_collection)
                     [Sample.ultimate] Sample.fetch_start) in
  let twice := fst (for_each (FetchUltimate.visit_nft Sample.empty_collection)
                      [Sample.ultimate] once) in
  FetchUltimate.rows once
    = [[JStr "U1"; JStr "#U1"; JStr "owner-1"; JStr FetchUltimate.COLLECTION_ID]] /\
  FetchUltimate.rows twice
    = [[JStr "U1"; JStr "#U1"; JStr "owner-1"; JStr FetchUltimate.COLLECTION_ID];
       [JStr "U1"; JStr "#U1"; JStr "owner-1"; JStr FetchUltimate.COLLECTION_ID]].
Proof. vm_compute. split; reflexivity. Qed.

(** C7, amended: the sink of the tracker, [add_ultimate_nft_to_sheet],
    reads the rows first and appends nothing when a row whose first cell is
    the asset's address is there; with a spreadsheet that answers every
    call and gives back the text it was given, and string asset ids,
    a new address gets exactly one row, and visiting a page a second time
    leaves the sheet as the first pass left it.  (The sink of the cursor
    script appends unconditionally.) *)
Theorem C7_tracker_sink_skips_known_assets
    (E : Tracker.env)
    (Hup : forall k, Tracker.sheets E k = Tracker.SheetsOk)
    (Hcell : forall s, Tracker.cell E (JStr s) = s) :
  (forall E' w0 u,
      existsb (Tracker.row_has (Tracker.address u)) (Tracker.sheet w0) = true ->
      Tracker.sheet (fst (Tracker.add_ultimate_nft_to_sheet E' w0 u)) = Tracker.sheet w0) /\
  (forall w0 u,
      is_str (Tracker.address u) = true ->
      existsb (Tracker.row_has (Tracker.address u)) (Tracker.sheet w0) = false ->
      List.length
        (filter (Tracker.row_has (Tracker.address u))
           (Tracker.sheet (fst (Tracker.add_ultimate_nft_to_sheet E w0 u)))) = 1%nat) /\
  (forall nfts st st1 E',
      (forall nft u, In nft nfts -> Tracker.make_ultimate_nft nft = Ok u ->
                     is_str (Tracker.address u) = true) ->
      for_each (Tracker.visit_nft E) nfts st = (st1, None) ->
      Tracker.sheet (Tracker.w (fst (for_each (Tracker.visit_nft E') nfts st1)))
        = Tracker.sheet (Tracker.w st1)).
Proof.
  split; [|split].
  - intros E' w0 u Hin. exact (proj1 (tracker_add_skips_known E' w0 u Hin)).
  - intros w0 u Hs Hnew.
    rewrite (tracker_add_appends_new E w0 u (Hup _) Hnew), filter_app.
    rewrite (existsb_false_filter _ _ Hnew). cbn [filter app].
    rewrite (row_has_own_row E _ _ Hcell Hs). reflexivity.
  - intros nfts st st1 E' Hid Hpass.
    apply tracker_second_pass_adds_nothing.
    exact (proj2 (tracker_first_pass_covers E Hup Hcell nfts Hid st st1 Hpass)).
Qed.

Lemma C7_tracker_sink_skips_known_assets_witness :
  (forall s, Tracker.cell Sample.short_then_empty (JStr s) = s) /\
  exists st1,
    for_each (Tracker.visit_nft Sample.short_then_empty) [Sample.ultimate; Sample.dated]
      (Sample.start Sample.empty_world) = (st1, None) /\
    Tracker.sheet (Tracker.w st1) = [["U1"; "#U1"; "owner-1"]] /\
    Tracker.sheet
      (Tracker.w (fst (for_each (Tracker.visit_nft Sample.short_then_empty)
                         [Sample.ultimate; Sample.dated] st1)))
      = Tracker.sheet (Tracker.w st1).
Proof.
  split; [reflexivity|].
  eexists. split; [reflexivity|]. split; [reflexivity|].
  refine (proj2 (proj2 (C7_tracker_sink_skips_known_assets Sample.short_then_empty
                          (fun _ => eq_refl) (fun _ => eq_refl)))
            [Sample.ultimate; Sample.dated] (Sample.start Sample.empty_world) _
            Sample.short_then_empty _ eq_refl).
  intros nft u [<- | [<- | []]] Hu; injection Hu as <-; reflexivity.
Defined.

(** * Further properties of the scripts *)

(** ** The tracker: the assets returned *)

Lemma tracker_visit_nft_all_nfts (E : Tracker.env) (st : Tracker.state) (nft : json) :
  Tracker.all_nfts (fst (Tracker.visit_nft E st nft)) =
  Tracker.all_nfts st ++
    match snd (Tracker.visit_nft E st nft) with
    | None => [nft]
    | Some _ => []
    end.
Proof.
  unfold Tracker.visit_nft.
  destruct (Tracker.scan_attrs nft) as [[created is_ultimate]|e];
    [|cbn; rewrite app_nil_r; reflexivity].
  destruct is_ultimate; [|reflexivity].
  destruct (Tracker.make_ultimate_nft nft) as [u|e];
    [|cbn; rewrite app_nil_r; reflexivity].
  destruct (Tracker.add_ultimate_nft_to_sheet E _ u) as [w' evs]. reflexivity.
Qed.

(** X1: the loop over the assets of a page appends every asset it visits
    to [all_nfts], ultimate or not, in page order; when an asset raises, the
    assets before it have been appended and the others have not: the list
    has grown by the assets that come before the one whose visit raised. *)
Theorem X1_every_visited_asset_is_returned :
  forall (E : Tracker.env) (nfts : list json) (st : Tracker.state),
    let r := for_each (Tracker.visit_nft E) nfts st in
    exists k,
      (k <= List.length nfts)%nat /\
      Tracker.all_nfts (fst r) = Tracker.all_nfts st ++ firstn k nfts /\
      (snd r = None -> k = List.length nfts) /\
      (snd r <> None -> (k < List.length nfts)%nat) /\
      (forall e, snd r = Some e ->
         exists nft stk,
           nth_error nfts k = Some nft /\
           for_each (Tracker.visit_nft E) (firstn k nfts) st = (stk, None) /\
           snd (Tracker.visit_nft E stk nft) = Some e).
Proof.
  intros E nfts. induction nfts as [|nft rest IH]; intros st r.
  - exists 0%nat. subst r. cbn. rewrite app_nil_r. repeat split; auto.
    + intros H. contradiction.
    + intros e H. discriminate.
  - subst r. cbn [for_each].
    pose proof (tracker_visit_nft_all_nfts E st nft) as Hv.
    destruct (Tracker.visit_nft E st nft) as [st1 [e|]] eqn:Hvisit;
      cbn [fst snd] in *.
    + exists 0%nat. cbn [firstn List.length]. repeat split; try lia.
      * exact Hv.
      * discriminate.
      * intros e0 He0. injection He0 as <-. exists nft, st.
        rewrite Hvisit. repeat split.
    + destruct (IH st1) as (k & Hk & Hall & Hnone & Hsome & Hpin).
      exists (S k). cbn [firstn List.length]. repeat split.
      * lia.
      * rewrite Hall, Hv, <- app_assoc. reflexivity.
      * intros H. rewrite (Hnone H). reflexivity.
      * intros H. specialize (Hsome H). lia.
      * intros e He. destruct (Hpin e He) as (nft' & stk & Hnth & Hpre & Hraise).
        exists nft', stk. cbn [nth_error for_each]. rewrite Hvisit.
        repeat split; assumption.
Qed.

(** ** The tracker: the ledger only grows *)

Lemma appended_refl (width : nat) (rows : list (list string)) :
  Shape.appended width rows rows.
Proof. exists []. rewrite app_nil_r. split; [reflexivity|constructor]. Qed.

Lemma appended_trans (width : nat) (a b c : list (list string)) :
  Shape.appended width a b -> Shape.appended width b c -> Shape.appended width a c.
Proof.
  intros (r1 & -> & F1) (r2 & -> & F2). exists (r1 ++ r2). split.
  - rewrite app_assoc. reflexivity.
  - apply Forall_app. split; assumption.
Qed.

Lemma tracker_add_appended (E : Tracker.env) (w0 : Tracker.world)
    (u : Tracker.ultimate_nft) :
  Shape.appended 3 (Tracker.sheet w0)
    (Tracker.sheet (fst (Tracker.add_ultimate_nft_to_sheet E w0 u))).
Proof.
  unfold Tracker.add_ultimate_nft_to_sheet.
  destruct (Tracker.sheets E (Tracker.sheet_calls w0));
    destruct (existsb (Tracker.row_has (Tracker.address u)) (Tracker.sheet w0));
    cbn [fst Tracker.sheet]; try apply appended_refl.
  eexists. split; [reflexivity|]. constructor; [reflexivity|constructor].
Qed.

Lemma tracker_visit_nft_appended (E : Tracker.env) (st : Tracker.state) (nft : json) :
  Shape.appended 3 (Tracker.sheet (Tracker.w st))
    (Tracker.sheet (Tracker.w (fst (Tracker.visit_nft E st nft)))).
Proof.
  unfold Tracker.visit_nft.
  destruct (Tracker.scan_attrs nft) as [[created is_ultimate]|e];
    [|apply appended_refl].
  destruct is_ultimate; [|apply appended_refl].
  destruct (Tracker.make_ultimate_nft nft) as [u|e]; [|apply appended_refl].
  cbn [Tracker.w].
  pose proof (tracker_add_appended E (Tracker.w st) u) as H.
  destruct (Tracker.add_ultimate_nft_to_sheet E (Tracker.w st) u) as [w' evs].
  exact H.
Qed.

Lemma tracker_for_each_appended (E : Tracker.env) (nfts : list json) :
  forall st,
    Shape.appended 3 (Tracker.sheet (Tracker.w st))
      (Tracker.sheet (Tracker.w (fst (for_each (Tracker.visit_nft E) nfts st)))).
Proof.
  induction nfts as [|nft rest IH]; intros st; [apply appended_refl|].
  cbn [for_each].
  pose proof (tracker_visit_nft_appended E st nft) as H1.
  destruct (Tracker.visit_nft E st nft) as [st1 [e|]]; cbn [fst] in *.
  - exact H1.
  - exact (appended_trans _ _ _ _ H1 (IH st1)).
Qed.

Lemma tracker_try_page_appended (E : Tracker.env) (page : Z) (st : Tracker.state) :
  Shape.appended 3 (Tracker.sheet (Tracker.w st))
    (Tracker.sheet (Tracker.w (fst (Tracker.try_page E page st)))).
Proof.
  unfold Tracker.try_page.
  destruct (Tracker.read_answer page _) as [evs [d|e]]; [|apply appended_refl].
  destruct d as [ | | |batch_nfts]; try apply appended_refl.
  destruct (truthy batch_nfts); cbn [negb]; [|apply appended_refl].
  destruct (py_iter batch_nfts) as [nfts|e]; [|apply appended_refl].
  pose proof (tracker_for_each_appended E nfts
                (Tracker.say (Tracker.posted st page) evs)) as H.
  destruct (for_each (Tracker.visit_nft E) nfts _) as [st' [e|]]; exact H.
Qed.

Lemma tracker_retry_loop_appended (E : Tracker.env) (page : Z) (retries : nat) :
  forall st,
    Shape.appended 3 (Tracker.sheet (Tracker.w st))
      (Tracker.sheet (Tracker.w (fst (Tracker.retry_loop E retries page st)))).
Proof.
  induction retries as [|rest IH]; intros st; [apply appended_refl|].
  cbn [Tracker.retry_loop].
  pose proof (tracker_try_page_appended E page st) as H.
  destruct (Tracker.try_page E page st) as [st' [o|e]]; cbn [fst] in H.
  - destruct o; exact H.
  - destruct (is_request_exception e); [|exact H].
    destruct rest as [|rest']; [exact H|].
    eapply appended_trans; [exact H|].
    match goal with
    | |- context [Tracker.retry_loop E (S rest') page ?s] => exact (IH s)
    end.
Qed.

Lemma tracker_page_loop_appended (E : Tracker.env) (fuel : nat) :
  forall page st,
    Shape.appended 3 (Tracker.sheet (Tracker.w st))
      (Tracker.sheet (Tracker.w (fst (Tracker.page_loop E fuel page st)))).
Proof.
  induction fuel as [|fuel IH]; intros page st; [apply appended_refl|].
  cbn [Tracker.page_loop].
  pose proof (tracker_retry_loop_appended E page 3
                (Tracker.say st [Tracker.Fetching page])) as H.
  destruct (Tracker.retry_loop E 3 page (Tracker.say st [Tracker.Fetching page]))
    as [st' [ | |x]]; cbn [fst] in *; try exact H.
  exact (appended_trans _ _ _ _ H (IH (page + 1) st')).
Qed.

(** X2: a run of the tracker never removes or rewrites a row of the
    ledger: whatever the API and the spreadsheet service do, and however the
    run ends, the sheet after [main] is the sheet before it followed by new
    rows of three cells each (address, name, owner). *)
Theorem X2_tracker_ledger_is_append_only :
  forall (E : Tracker.env) (fuel : nat) (w0 : Tracker.world),
    Shape.appended 3 (Tracker.sheet w0)
      (Tracker.sheet (Tracker.w (fst (Tracker.fetch_nfts_from_collection E fuel w0)))) /\
    Shape.appended 3 (Tracker.sheet w0)
      (Tracker.sheet (Tracker.w (fst (Tracker.main E fuel w0)))).
Proof.
  intros E fuel w0.
  assert (Hf : Shape.appended 3 (Tracker.sheet w0)
                 (Tracker.sheet (Tracker.w
                    (fst (Tracker.fetch_nfts_from_collection E fuel w0))))).
  { unfold Tracker.fetch_nfts_from_collection.
    destruct (Tracker.load_checkpoint w0) as [[page d] evs].
    apply (tracker_page_loop_appended E fuel page
             {| Tracker.w := w0; Tracker.last_date := d; Tracker.all_nfts := [];
                Tracker.log := evs |}). }
  split; [exact Hf|].
  unfold Tracker.main. destruct (Tracker.init_ok E); cbn [negb];
    [|apply appended_refl].
  destruct (Tracker.fetch_nfts_from_collection E fuel w0) as [st x]. cbn [fst] in Hf.
  destruct x; try exact Hf;
    destruct (Z.of_nat (List.length (Tracker.all_nfts st)) >=? Tracker.CHECKPOINT_LIMIT);
    try exact Hf; destruct (Tracker.file (Tracker.w st)); exact Hf.
Qed.

(** ** The tracker: how often a page is requested *)

Lemma tracker_try_page_posts_once (E : Tracker.env) (page : Z) (st : Tracker.state) :
  Tracker.posted_pages (Tracker.log (fst (Tracker.try_page E page st)))
    = Tracker.posted_pages (Tracker.log st) ++ [page].
Proof.
  pose proof (tracker_try_page_shape E page st) as H. cbv zeta in H.
  destruct H as (_ & evs & Q & [(L & _) | (L & _)]);
    destruct (quiet_silent _ Q) as (_ & Hp & _); rewrite L.
  - change (Tracker.Post page :: evs) with ([Tracker.Post page] ++ evs).
    rewrite !posted_pages_app, Hp. cbn. reflexivity.
  - change (Tracker.Post page :: evs ++ ?l) with ([Tracker.Post page] ++ evs ++ l).
    rewrite !posted_pages_app, Hp. cbn. reflexivity.
Qed.

Lemma posted_pages_say_quiet (st : Tracker.state) (evs : list Tracker.event) :
  Tracker.quiet evs = true ->
  Tracker.posted_pages (Tracker.log (Tracker.say st evs))
    = Tracker.posted_pages (Tracker.log st).
Proof.
  intros Q. cbn. rewrite posted_pages_app.
  destruct (quiet_silent _ Q) as (_ & -> & _). apply app_nil_r.
Qed.

Lemma tracker_retry_loop_posts (E : Tracker.env) (page : Z) (retries : nat) :
  forall st, exists k,
    (k <= retries)%nat /\ (0 < retries -> 0 < k)%nat /\
    Tracker.posted_pages (Tracker.log (fst (Tracker.retry_loop E retries page st)))
      = Tracker.posted_pages (Tracker.log st) ++ repeat page k.
Proof.
  induction retries as [|rest IH]; intros st.
  - exists 0%nat. cbn. rewrite app_nil_r. repeat split; lia.
  - cbn [Tracker.retry_loop].
    pose proof (tracker_try_page_posts_once E page st) as H.
    destruct (Tracker.try_page E page st) as [st' [o|e]]; cbn [fst] in H.
    + exists 1%nat. repeat split; try lia. destruct o; exact H.
    + destruct (is_request_exception e).
      * destruct rest as [|rest'].
        -- exists 1%nat. repeat split; try lia. cbn [fst].
           rewrite !posted_pages_say_quiet by reflexivity. exact H.
        -- match goal with
           | |- context [Tracker.retry_loop E (S rest') page ?s] =>
               destruct (IH s) as (k & Hk & _ & Hp)
           end.
           exists (S k). repeat split; try lia. rewrite Hp.
           cbn [Tracker.say Tracker.log]. rewrite !posted_pages_app. cbn.
           rewrite !app_nil_r, H, <- app_assoc. reflexivity.
      * exists 1%nat. repeat split; try lia. exact H.
Qed.

Lemma sorted_repeat_app (x : Z) (k : nat) (l : list Z) :
  StronglySorted Z.le l -> Forall (fun q => x <= q) l ->
  StronglySorted Z.le (repeat x k ++ l).
Proof.
  intros Hs Hx. induction k as [|k IH]; [exact Hs|].
  cbn. constructor; [exact IH|].
  apply Forall_app. split; [|exact Hx].
  clear. induction k; cbn; constructor; [lia|assumption].
Qed.

Lemma count_occ_above (l : list Z) (page q : Z) :
  Forall (fun p => page <= p) l -> q < page -> count_occ Z.eq_dec l q = 0%nat.
Proof.
  intros Hall Hq. apply count_occ_not_In. intros Hin.
  rewrite Forall_forall in Hall. specialize (Hall q Hin). lia.
Qed.

Lemma tracker_page_loop_posts (E : Tracker.env) (fuel : nat) :
  forall page st, exists l,
    Tracker.posted_pages (Tracker.log (fst (Tracker.page_loop E fuel page st)))
      = Tracker.posted_pages (Tracker.log st) ++ l /\
    Forall (fun q => page <= q) l /\
    StronglySorted Z.le l /\
    (forall q, (count_occ Z.eq_dec l q <= 3)%nat).
Proof.
  induction fuel as [|fuel IH]; intros page st.
  - exists []. cbn. rewrite app_nil_r. repeat split; try constructor. lia.
  - cbn [Tracker.page_loop].
    destruct (tracker_retry_loop_posts E page 3 (Tracker.say st [Tracker.Fetching page]))
      as (k & Hk & _ & Hp).
    rewrite posted_pages_say_quiet in Hp by reflexivity.
    assert (Hrep : Forall (fun q => page <= q) (repeat page k)).
    { clear. induction k; cbn; constructor; [lia|assumption]. }
    assert (Hcount : forall q, (count_occ Z.eq_dec (repeat page k) q <= 3)%nat).
    { intros q. destruct (Z.eq_dec q page) as [->|Hne].
      - rewrite count_occ_repeat_eq by reflexivity. exact Hk.
      - rewrite count_occ_repeat_neq by exact Hne. lia. }
    assert (Hsort : StronglySorted Z.le (repeat page k)).
    { rewrite <- (app_nil_r (repeat page k)).
      apply sorted_repeat_app; constructor. }
    destruct (Tracker.retry_loop E 3 page (Tracker.say st [Tracker.Fetching page]))
      as [st' [ | |x]]; cbn [fst] in *;
      try (exists (repeat page k); repeat split; assumption).
    destruct (IH (page + 1) st') as (l & Hl & Hge & Hs & Hc).
    exists (repeat page k ++ l). repeat split.
    + rewrite Hl, Hp, <- app_assoc. reflexivity.
    + apply Forall_app. split; [exact Hrep|].
      eapply Forall_impl; [|exact Hge]. cbn. intros. lia.
    + apply sorted_repeat_app; [exact Hs|].
      eapply Forall_impl; [|exact Hge]. cbn. intros. lia.
    + intros q. rewrite count_occ_app.
      destruct (Z.eq_dec q page) as [->|Hne].
      * rewrite count_occ_repeat_eq by reflexivity.
        rewrite (count_occ_above l (page + 1) page Hge) by lia. lia.
      * rewrite count_occ_repeat_neq by exact Hne. cbn. apply Hc.
Qed.

(** X3: in every run of the tracker the pages are requested in
    non-decreasing order, starting from the page of the checkpoint (page 1
    without one), and no page is requested more than three times. *)
Theorem X3_tracker_requests_are_ordered_and_bounded :
  forall (E : Tracker.env) (fuel : nat) (w0 : Tracker.world),
    let requested :=
      Tracker.posted_pages
        (Tracker.log (fst (Tracker.fetch_nfts_from_collection E fuel w0))) in
    StronglySorted Z.le requested /\
    Forall (fun q => fst (fst (Tracker.load_checkpoint w0)) <= q) requested /\
    (forall q, (count_occ Z.eq_dec requested q <= 3)%nat).
Proof.
  intros E fuel w0 requested. subst requested.
  unfold Tracker.fetch_nfts_from_collection.
  destruct (Tracker.load_checkpoint w0) as [[page d] evs] eqn:Hload. cbn [fst].
  destruct (tracker_page_loop_posts E fuel page
              {| Tracker.w := w0; Tracker.last_date := d; Tracker.all_nfts := [];
                 Tracker.log := evs |}) as (l & Hl & Hge & Hs & Hc).
  assert (Hevs : Tracker.posted_pages evs = []).
  { unfold Tracker.load_checkpoint in Hload.
    destruct (Tracker.file w0); injection Hload as _ _ <-; reflexivity. }
  cbn [Tracker.log] in Hl. rewrite Hevs in Hl. cbn [app] in Hl. rewrite Hl.
  repeat split; assumption.
Qed.

(** ** The tracker: termination *)

Lemma tracker_retry_loop_never_out_of_fuel (E : Tracker.env) (page : Z) (retries : nat) :
  forall st, snd (Tracker.retry_loop E retries page st) <> Tracker.Leave Tracker.OutOfFuel.
Proof.
  induction retries as [|rest IH]; intros st; [discriminate|].
  cbn [Tracker.retry_loop].
  destruct (Tracker.try_page E page st) as [st' [o|e]].
  - destruct o; discriminate.
  - destruct (is_request_exception e); [|discriminate].
    destruct rest as [|rest']; [discriminate|]. apply IH.
Qed.

Lemma tracker_page_loop_more_fuel (E : Tracker.env) (fuel : nat) :
  forall page st,
    snd (Tracker.page_loop E fuel page st) <> Tracker.OutOfFuel ->
    Tracker.page_loop E (S fuel) page st = Tracker.page_loop E fuel page st.
Proof.
  induction fuel as [|fuel IH]; intros page st Hend.
  - exfalso. apply Hend. reflexivity.
  - change (Tracker.page_loop E (S (S fuel)) page st) with
      (match Tracker.retry_loop E 3 page (Tracker.say st [Tracker.Fetching page]) with
       | (st', Tracker.NextPage) => Tracker.page_loop E (S fuel) (page + 1) st'
       | (st', Tracker.LastPage) => (st', Tracker.NoMoreItems)
       | (st', Tracker.Leave x) => (st', x)
       end).
    cbn [Tracker.page_loop] in Hend |- *.
    destruct (Tracker.retry_loop E 3 page (Tracker.say st [Tracker.Fetching page]))
      as [st' [ | |x]]; try reflexivity.
    exact (IH (page + 1) st' Hend).
Qed.

Lemma tracker_page_loop_enough_fuel (E : Tracker.env) (fuel extra : nat) (page : Z)
    (st : Tracker.state) :
  snd (Tracker.page_loop E fuel page st) <> Tracker.OutOfFuel ->
  Tracker.page_loop E (extra + fuel) page st = Tracker.page_loop E fuel page st.
Proof.
  intros Hend. induction extra as [|extra IH]; [reflexivity|].
  cbn [Nat.add]. rewrite tracker_page_loop_more_fuel; [exact IH|].
  rewrite IH. exact Hend.
Qed.

Section EmptyLastPage.

Variables (E : Tracker.env) (last : Z).
Hypothesis last_is_empty :
  forall k, exists evs batch_nfts,
    Tracker.read_answer last (Tracker.api E k last)
      = (evs, Ok (Tracker.Batch batch_nfts)) /\
    truthy batch_nfts = false.

Lemma tracker_page_loop_reaches_last (n : nat) :
  forall page st,
    page + Z.of_nat n = last ->
    snd (Tracker.page_loop E (S n) page st) <> Tracker.OutOfFuel.
Proof.
  induction n as [|n IH]; intros page st Hlast.
  - assert (page = last) by lia. subst page.
    destruct (last_is_empty (Tracker.posts (Tracker.w st))) as (evs & b & Ha & Hb).
    rewrite (tracker_page_loop_empty_page E 0 last st evs b Ha Hb). discriminate.
  - change (Tracker.page_loop E (S (S n)) page st) with
      (match Tracker.retry_loop E 3 page (Tracker.say st [Tracker.Fetching page]) with
       | (st', Tracker.NextPage) => Tracker.page_loop E (S n) (page + 1) st'
       | (st', Tracker.LastPage) => (st', Tracker.NoMoreItems)
       | (st', Tracker.Leave x) => (st', x)
       end).
    pose proof (tracker_retry_loop_never_out_of_fuel E page 3
                  (Tracker.say st [Tracker.Fetching page])) as Hleave.
    destruct (Tracker.retry_loop E 3 page (Tracker.say st [Tracker.Fetching page]))
      as [st' [ | |x]]; cbn [snd] in *.
    + apply IH. lia.
    + discriminate.
    + intros ->. apply Hleave. reflexivity.
Qed.

End EmptyLastPage.

(** X4: the scan of the tracker terminates whenever the collection has an
    end: if the API answers every request for some page [last], at or after
    the start page, with an empty list of items, then the run is over within
    [last - start + 1] turns of the page loop, and giving it more turns
    changes nothing. *)
Theorem X4_tracker_scan_terminates_at_an_empty_page
    (E : Tracker.env) (last : Z) (w0 : Tracker.world) (fuel : nat)
    (Hempty : forall k, exists evs batch_nfts,
        Tracker.read_answer last (Tracker.api E k last)
          = (evs, Ok (Tracker.Batch batch_nfts)) /\
        truthy batch_nfts = false)
    (Hstart : fst (fst (Tracker.load_checkpoint w0)) <= last)
    (Hfuel : (Z.to_nat (last - fst (fst (Tracker.load_checkpoint w0))) < fuel)%nat) :
  snd (Tracker.fetch_nfts_from_collection E fuel w0) <> Tracker.OutOfFuel /\
  Tracker.fetch_nfts_from_collection E fuel w0 =
  Tracker.fetch_nfts_from_collection E
    (S (Z.to_nat (last - fst (fst (Tracker.load_checkpoint w0))))) w0.
Proof.
  unfold Tracker.fetch_nfts_from_collection in *.
  destruct (Tracker.load_checkpoint w0) as [[page d] evs]. cbn [fst] in *.
  set (n := Z.to_nat (last - page)) in *.
  set (st := {| Tracker.w := w0; Tracker.last_date := d; Tracker.all_nfts := [];
                Tracker.log := evs |}).
  assert (Hend : snd (Tracker.page_loop E (S n) page st) <> Tracker.OutOfFuel).
  { apply (tracker_page_loop_reaches_last E last Hempty). subst n. lia. }
  assert (Heq : Tracker.page_loop E fuel page st = Tracker.page_loop E (S n) page st).
  { replace fuel with ((fuel - S n) + S n)%nat by lia.
    apply tracker_page_loop_enough_fuel. exact Hend. }
  split; [rewrite Heq; exact Hend|exact Heq].
Qed.

Lemma X4_tracker_scan_terminates_at_an_empty_page_witness :
  fst (fst (Tracker.load_checkpoint Sample.empty_world)) <= 2 /\
  snd (Tracker.fetch_nfts_from_collection Sample.short_then_empty 9 Sample.empty_world)
    <> Tracker.OutOfFuel.
Proof.
  split; [cbn; lia|].
  refine (proj1 (X4_tracker_scan_terminates_at_an_empty_page
                   Sample.short_then_empty 2 Sample.empty_world 9 _ _ _)).
  - intros k. exists [], (JArr []). split; reflexivity.
  - cbn. lia.
  - cbn. lia.
Defined.

(** ** The tracker: a malformed asset *)

Lemma dict_get_error (d : json) (k : string) (dflt : json) (e : exn) :
  dict_get d k dflt = Raise e -> Shape.value_error e = true.
Proof. destruct d; cbn; intros H; inversion H; reflexivity. Qed.

Lemma getitem_error (d : json) (k : string) (e : exn) :
  getitem d k = Raise e -> Shape.value_error e = true.
Proof.
  destruct d; cbn; try (intros H; inversion H; reflexivity).
  destruct (assoc k fields); intros H; inversion H; reflexivity.
Qed.

Lemma str_lower_error (v : json) (e : exn) :
  str_lower v = Raise e -> Shape.value_error e = true.
Proof. destruct v; cbn; intros H; inversion H; reflexivity. Qed.

Lemma py_iter_error (v : json) (e : exn) :
  py_iter v = Raise e -> Shape.value_error e = true.
Proof. destruct v; cbn; intros H; inversion H; reflexivity. Qed.

Lemma value_error_not_transport (e : exn) :
  Shape.value_error e = true -> is_request_exception e = false.
Proof. destruct e; cbn; congruence. Qed.

Lemma for_each_error {A S : Type} (P : exn -> Prop)
    (body : S -> A -> S * option exn) :
  (forall s x s' e, body s x = (s', Some e) -> P e) ->
  forall l s s' e, for_each body l s = (s', Some e) -> P e.
Proof.
  intros Hbody l. induction l as [|x l IH]; intros s s' e H; [discriminate|].
  cbn [for_each] in H. destruct (body s x) as [s1 [e1|]] eqn:Hb.
  - injection H as <- <-. exact (Hbody _ _ _ _ Hb).
  - exact (IH _ _ _ H).
Qed.

Lemma tracker_visit_attr_error (st : json * bool) (attr : json) (st' : json * bool)
    (e : exn) :
  Tracker.visit_attr st attr = (st', Some e) -> Shape.value_error e = true.
Proof.
  unfold Tracker.visit_attr.
  destruct (dict_get attr "trait_type" JNull) as [t|e0] eqn:H0.
  2:{ intros H. injection H as _ <-. exact (dict_get_error _ _ _ _ H0). }
  destruct (eq_str t "created").
  { destruct (dict_get attr "value" JNull) as [v|e1] eqn:H1; [discriminate|].
    intros H. injection H as _ <-. exact (dict_get_error _ _ _ _ H1). }
  destruct (dict_get attr "trait_type" (JStr "")) as [t'|e1] eqn:H1; cbn [bind].
  2:{ intros H. injection H as _ <-. exact (dict_get_error _ _ _ _ H1). }
  destruct (str_lower t') as [lt|e2] eqn:H2; cbn [bind].
  2:{ intros H. injection H as _ <-. exact (str_lower_error _ _ H2). }
  destruct (eq_str lt "rarity"); [|discriminate].
  destruct (dict_get attr "value" (JStr "")) as [v|e3] eqn:H3; cbn [bind].
  2:{ intros H. injection H as _ <-. exact (dict_get_error _ _ _ _ H3). }
  destruct (str_lower v) as [lv|e4] eqn:H4; cbn [bind].
  2:{ intros H. injection H as _ <-. exact (str_lower_error _ _ H4). }
  destruct (eq_str lv "ultimate"); discriminate.
Qed.

Lemma metadata_get_error (nft : json) (k : string) (dflt : json) (e : exn) :
  Tracker.metadata_get nft k dflt = Raise e -> Shape.value_error e = true.
Proof.
  unfold Tracker.metadata_get.
  destruct (dict_get nft "content" (JObj [])) as [content|e0] eqn:H0; cbn [bind].
  2:{ intros H. injection H as <-. exact (dict_get_error _ _ _ _ H0). }
  destruct (dict_get content "metadata" (JObj [])) as [metadata|e1] eqn:H1; cbn [bind].
  2:{ intros H. injection H as <-. exact (dict_get_error _ _ _ _ H1). }
  apply dict_get_error.
Qed.

Lemma tracker_scan_attrs_error (nft : json) (e : exn) :
  Tracker.scan_attrs nft = Raise e -> Shape.value_error e = true.
Proof.
  unfold Tracker.scan_attrs.
  destruct (Tracker.metadata_get nft "attributes" (JArr [])) as [attributes|e0] eqn:H0;
    cbn [bind].
  2:{ intros H. injection H as <-. exact (metadata_get_error _ _ _ _ H0). }
  destruct (py_iter attributes) as [attrs|e1] eqn:H1; cbn [bind].
  2:{ intros H. injection H as <-. exact (py_iter_error _ _ H1). }
  destruct (for_each Tracker.visit_attr attrs (JNull, false)) as [found [e2|]] eqn:H2;
    [|discriminate].
  intros H. injection H as <-.
  exact (for_each_error (fun e => Shape.value_error e = true) Tracker.visit_attr
           tracker_visit_attr_error _ _ _ _ H2).
Qed.

Lemma tracker_make_ultimate_nft_error (nft : json) (e : exn) :
  Tracker.make_ultimate_nft nft = Raise e -> Shape.value_error e = true.
Proof.
  unfold Tracker.make_ultimate_nft.
  destruct (getitem nft "id") as [a|e0] eqn:H0; cbn [bind].
  2:{ intros H. injection H as <-. exact (getitem_error _ _ _ H0). }
  destruct (Tracker.metadata_get nft "name" (JStr "")) as [n|e1] eqn:H1; cbn [bind].
  2:{ intros H. injection H as <-. exact (metadata_get_error _ _ _ _ H1). }
  destruct (dict_get nft "ownership" (JObj [])) as [o|e2] eqn:H2; cbn [bind].
  2:{ intros H. injection H as <-. exact (dict_get_error _ _ _ _ H2). }
  destruct (dict_get o "owner" (JStr "")) as [ow|e3] eqn:H3; cbn [bind].
  2:{ intros H. injection H as <-. exact (dict_get_error _ _ _ _ H3). }
  discriminate.
Qed.

Lemma tracker_visit_nft_error (E : Tracker.env) (st : Tracker.state) (nft : json)
    (st' : Tracker.state) (e : exn) :
  Tracker.visit_nft E st nft = (st', Some e) -> Shape.value_error e = true.
Proof.
  unfold Tracker.visit_nft.
  destruct (Tracker.scan_attrs nft) as [[created is_ultimate]|e0] eqn:H0.
  2:{ intros H. injection H as _ <-. exact (tracker_scan_attrs_error _ _ H0). }
  destruct is_ultimate; [|discriminate].
  destruct (Tracker.make_ultimate_nft nft) as [u|e1] eqn:H1.
  - destruct (Tracker.add_ultimate_nft_to_sheet E _ u). discriminate.
  - intros H. injection H as _ <-. exact (tracker_make_ultimate_nft_error _ _ H1).
Qed.

(** X5: an exception raised while the assets of a page are visited (an
    asset that is not a dict, a type-name that is not a string, an ultimate
    asset without an id) is never a [RequestException]: it is not retried,
    it ends the scan and the process at once; that page gets no checkpoint,
    the request that brought it is the last one sent (so a page whose first
    request was answered has been requested once), and [main] does not
    reach the removal of the checkpoint file. *)
Theorem X5_malformed_asset_ends_the_run
    (E : Tracker.env) (fuel : nat) (page : Z) (st st1 : Tracker.state)
    (evs : list Tracker.event) (batch_nfts : json) (nfts : list json) (e : exn)
    (Hanswer : Tracker.read_answer page
                 (Tracker.api E (Tracker.posts (Tracker.w st)) page)
               = (evs, Ok (Tracker.Batch batch_nfts)))
    (Hsome : truthy batch_nfts = true)
    (Hiter : py_iter batch_nfts = Ok nfts)
    (Hvisit : for_each (Tracker.visit_nft E) nfts
                (Tracker.say (Tracker.posted (Tracker.say st [Tracker.Fetching page]) page)
                   evs) = (st1, Some e)) :
  is_request_exception e = false /\
  Tracker.page_loop E (S fuel) page st = (st1, Tracker.Crashed e) /\
  Tracker.file (Tracker.w st1) = Tracker.file (Tracker.w st) /\
  Tracker.saved_pages (Tracker.log st1) = Tracker.saved_pages (Tracker.log st) /\
  Tracker.posted_pages (Tracker.log st1) = Tracker.posted_pages (Tracker.log st) ++ [page] /\
  (forall w0 fuel0,
      Tracker.init_ok E = true ->
      Tracker.fetch_nfts_from_collection E fuel0 w0 = (st1, Tracker.Crashed e) ->
      Tracker.main E fuel0 w0 = (st1, Some (Tracker.Crashed e))).
Proof.
  assert (He : is_request_exception e = false).
  { apply value_error_not_transport.
    exact (for_each_error (fun e => Shape.value_error e = true) (Tracker.visit_nft E)
             (tracker_visit_nft_error E) _ _ _ _ Hvisit). }
  assert (Htry : Tracker.try_page E page (Tracker.say st [Tracker.Fetching page])
                 = (st1, Raise e)).
  { unfold Tracker.try_page. cbn [Tracker.say Tracker.w Tracker.posts].
    rewrite Hanswer, Hsome, Hiter. cbn [negb]. rewrite Hvisit. reflexivity. }
  pose proof (tracker_try_page_shape E page (Tracker.say st [Tracker.Fetching page])) as Hs.
  cbv zeta in Hs. rewrite Htry in Hs. cbn [fst snd] in Hs.
  destruct Hs as (_ & evs' & Q & [(L & F & _) | (_ & _ & R)]); [|discriminate].
  destruct (quiet_silent _ Q) as (Hsv & Hpo & _).
  split; [exact He|]. split.
  { cbn [Tracker.page_loop Tracker.retry_loop]. rewrite Htry, He. reflexivity. }
  split; [exact F|]. split; [|split].
  - rewrite L. cbn [Tracker.say Tracker.log].
    change (Tracker.Post page :: evs') with ([Tracker.Post page] ++ evs').
    rewrite !saved_pages_app, Hsv. cbn. rewrite !app_nil_r. reflexivity.
  - rewrite L. cbn [Tracker.say Tracker.log].
    change (Tracker.Post page :: evs') with ([Tracker.Post page] ++ evs').
    rewrite !posted_pages_app, Hpo. cbn. rewrite !app_nil_r. reflexivity.
  - intros w0 fuel0 Hinit Hfetch. unfold Tracker.main. rewrite Hinit, Hfetch.
    reflexivity.
Qed.

Lemma X5_malformed_asset_ends_the_run_witness :
  truthy (JArr [Sample.ultimate; Sample.null_trait]) = true /\
  snd (Tracker.page_loop Sample.with_bad_asset 3 1 (Sample.start Sample.empty_world))
    = Tracker.Crashed AttributeError.
Proof.
  split; [reflexivity|].
  pose proof (X5_malformed_asset_ends_the_run Sample.with_bad_asset 2 1
                (Sample.start Sample.empty_world) _ []
                (JArr [Sample.ultimate; Sample.null_trait])
                [Sample.ultimate; Sample.null_trait] AttributeError
                eq_refl eq_refl eq_refl eq_refl) as (_ & H & _).
  rewrite H. reflexivity.
Defined.

(** ** The tracker: the checkpoint file across runs *)

(** X6: when the scan returns (by the end of the collection, an API error
    or a malformed answer), what [main] does with the checkpoint file
    depends only on the number of assets this run returned: with fewer than
    500000 the file is removed and the next run starts again from page 1;
    with 500000 or more the file is left as the scan wrote it.  The ledger
    is not touched by that step. *)
Theorem X6_main_decides_by_the_number_of_assets
    (E : Tracker.env) (fuel : nat) (w0 : Tracker.world)
    (st : Tracker.state) (x : Tracker.exit)
    (Hinit : Tracker.init_ok E = true)
    (Hscan : Tracker.fetch_nfts_from_collection E fuel w0 = (st, x))
    (Hreturned : x = Tracker.NoMoreItems \/ x = Tracker.DepthLimit \/
                 x = Tracker.OtherApiError \/ x = Tracker.Malformed) :
  let after := Tracker.w (fst (Tracker.main E fuel w0)) in
  Tracker.sheet after = Tracker.sheet (Tracker.w st) /\
  (Z.of_nat (List.length (Tracker.all_nfts st)) < Tracker.CHECKPOINT_LIMIT ->
   Tracker.file after = None /\
   forall E' fuel', exists rest,
     Tracker.posted_pages
       (Tracker.log (fst (Tracker.fetch_nfts_from_collection E' (S fuel') after)))
       = 1 :: rest) /\
  (Tracker.CHECKPOINT_LIMIT <= Z.of_nat (List.length (Tracker.all_nfts st)) ->
   Tracker.file after = Tracker.file (Tracker.w st)).
Proof.
  intros after. subst after.
  assert (Hcrash : forall e, x <> Tracker.Crashed e).
  { intros e. destruct Hreturned as [-> | [-> | [-> | ->]]]; discriminate. }
  assert (Hfuel : x <> Tracker.OutOfFuel).
  { destruct Hreturned as [-> | [-> | [-> | ->]]]; discriminate. }
  destruct (tracker_main_checkpoint_fate E fuel w0 st x Hinit Hscan Hcrash Hfuel)
    as [_ Hfile].
  assert (Hsheet : Tracker.sheet (Tracker.w (fst (Tracker.main E fuel w0)))
                   = Tracker.sheet (Tracker.w st)).
  { unfold Tracker.main. rewrite Hinit, Hscan. cbn [negb].
    destruct Hreturned as [-> | [-> | [-> | ->]]];
      destruct (Z.of_nat (List.length (Tracker.all_nfts st)) >=? Tracker.CHECKPOINT_LIMIT);
      try reflexivity; destruct (Tracker.file (Tracker.w st)); reflexivity. }
  split; [exact Hsheet|]. split.
  - intros Hlt.
    assert (Hb : (Z.of_nat (List.length (Tracker.all_nfts st)) >=? Tracker.CHECKPOINT_LIMIT)
                 = false).
    { rewrite Z.geb_leb. apply Z.leb_gt. exact Hlt. }
    rewrite Hb in Hfile. split; [exact Hfile|].
    intros E' fuel'.
    unfold Tracker.fetch_nfts_from_collection, Tracker.load_checkpoint. rewrite Hfile.
    match goal with
    | |- context [Tracker.page_loop E' (S fuel') ?p ?s] =>
        destruct (tracker_page_loop_posts_first E' fuel' p s) as [evs L]
    end.
    rewrite L. exists (Tracker.posted_pages evs). reflexivity.
  - intros Hge.
    assert (Hb : (Z.of_nat (List.length (Tracker.all_nfts st)) >=? Tracker.CHECKPOINT_LIMIT)
                 = true).
    { rewrite Z.geb_leb. apply Z.leb_le. exact Hge. }
    rewrite Hb in Hfile. exact Hfile.
Qed.

Lemma X6_main_decides_by_the_number_of_assets_witness :
  Tracker.init_ok Sample.short_then_empty = true /\
  Tracker.file
    (Tracker.w (fst (Tracker.main Sample.short_then_empty 5 Sample.resumed_at_500)))
  = None.
Proof.
  split; [reflexivity|].
  refine (proj1 (proj1 (proj2 (X6_main_decides_by_the_number_of_assets
            Sample.short_then_empty 5 Sample.resumed_at_500 _ Tracker.NoMoreItems
            eq_refl eq_refl (or_introl eq_refl))) _)).
  vm_compute. reflexivity.
Defined.

(** X7: the checkpoint written by [save_checkpoint] is read back by
    [load_checkpoint] as the same page and marker, and a run that starts
    from it sends its first request for that very page; without a file the
    start is page 1 with no marker. *)
Theorem X7_checkpoint_round_trip :
  forall (E : Tracker.env) (fuel : nat) (w0 : Tracker.world) (page : Z) (last_date : json),
    fst (Tracker.load_checkpoint (fst (Tracker.save_checkpoint w0 page last_date)))
      = (page, last_date) /\
    (exists rest,
        Tracker.posted_pages
          (Tracker.log (fst (Tracker.fetch_nfts_from_collection E (S fuel)
                               (fst (Tracker.save_checkpoint w0 page last_date)))))
          = page :: rest) /\
    Tracker.last_date
      (fst (Tracker.fetch_nfts_from_collection E 0
              (fst (Tracker.save_checkpoint w0 page last_date)))) = last_date /\
    (Tracker.file w0 = None ->
     fst (Tracker.load_checkpoint w0) = (1, JNull) /\
     exists rest,
       Tracker.posted_pages
         (Tracker.log (fst (Tracker.fetch_nfts_from_collection E (S fuel) w0)))
         = 1 :: rest).
Proof.
  intros E fuel w0 page last_date. split; [reflexivity|]. split; [|split].
  - exact (tracker_resume_requests_saved_page E fuel
             (fst (Tracker.save_checkpoint w0 page last_date))
             {| Tracker.ck_page := page; Tracker.ck_last_date := last_date |} eq_refl).
  - reflexivity.
  - intros Hnone. unfold Tracker.load_checkpoint. rewrite Hnone.
    split; [reflexivity|].
    unfold Tracker.fetch_nfts_from_collection, Tracker.load_checkpoint. rewrite Hnone.
    match goal with
    | |- context [Tracker.page_loop E (S fuel) ?p ?s] =>
        destruct (tracker_page_loop_posts_first E fuel p s) as [evs L]
    end.
    rewrite L. exists (Tracker.posted_pages evs). reflexivity.
Qed.

(** ** The cursor script: ledger and counter *)

Lemma logged_refl (st : FetchUltimate.state) : Shape.logged st st.
Proof.
  exists []. rewrite app_nil_r. cbn. rewrite Z.add_0_r. repeat split. constructor.
Qed.

Lemma logged_trans (a b c : FetchUltimate.state) :
  Shape.logged a b -> Shape.logged b c -> Shape.logged a c.
Proof.
  intros (r1 & R1 & U1 & F1) (r2 & R2 & U2 & F2). exists (r1 ++ r2). repeat split.
  - rewrite R2, R1, app_assoc. reflexivity.
  - rewrite U2, U1, length_app, Nat2Z.inj_add. lia.
  - apply Forall_app. split; assumption.
Qed.

(** A step that leaves the ledger and the counter of ultimates alone. *)
Lemma logged_same (st st' : FetchUltimate.state) :
  FetchUltimate.rows st' = FetchUltimate.rows st ->
  FetchUltimate.ultimate_found st' = FetchUltimate.ultimate_found st ->
  Shape.logged st st'.
Proof.
  intros Hr Hu. exists []. rewrite app_nil_r. cbn. rewrite Z.add_0_r.
  repeat split; [exact Hr|exact Hu|constructor].
Qed.

Lemma fetch_ledger_row_shape (nft : json) (row : list json) :
  FetchUltimate.ledger_row nft = Ok row ->
  exists i n o, row = [i; n; o; JStr FetchUltimate.COLLECTION_ID].
Proof.
  unfold FetchUltimate.ledger_row.
  destruct (dict_get nft "id" (JStr "")) as [i|]; cbn [bind]; [|discriminate].
  destruct (dict_get nft "content" (JObj [])) as [c|]; cbn [bind]; [|discriminate].
  destruct (dict_get c "metadata" (JObj [])) as [m|]; cbn [bind]; [|discriminate].
  destruct (dict_get m "name" (JStr "")) as [n|]; cbn [bind]; [|discriminate].
  destruct (dict_get nft "ownership" (JObj [])) as [os|]; cbn [bind]; [|discriminate].
  destruct (dict_get os "owner" (JStr "")) as [o|]; cbn [bind]; [|discriminate].
  intros H. injection H as <-. exists i, n, o. reflexivity.
Qed.

Lemma fetch_visit_nft_logged (E : FetchUltimate.env) (st : FetchUltimate.state)
    (nft : json) :
  Shape.logged st (fst (FetchUltimate.visit_nft E st nft)).
Proof.
  unfold FetchUltimate.visit_nft.
  destruct (FetchUltimate.check_nft_rarity nft) as [r|e]; [|apply logged_refl].
  destruct (eq_str r "ultimate").
  - match goal with
    | |- context [match ?c with Ok _ => _ | Raise _ => _ end] => destruct c as [[nm ow]|e]
    end; [|apply logged_refl].
    unfold FetchUltimate.log_ultimate_nft.
    destruct (FetchUltimate.ledger_row nft) as [row|e] eqn:Hrow.
    2:{ cbn [fst]. apply logged_same; reflexivity. }
    cbn [FetchUltimate.say FetchUltimate.appends FetchUltimate.rows].
    destruct (FetchUltimate.append_fails E (FetchUltimate.appends st)); cbn [fst].
    + apply logged_same; reflexivity.
    + exists [row]. cbn. repeat split.
      constructor; [exact (fetch_ledger_row_shape _ _ Hrow)|constructor].
  - destruct (eq_str r "rare"); [apply logged_same; cbn; [reflexivity|lia]|].
    destruct (eq_str r "legendary"); [apply logged_same; cbn; [reflexivity|lia]|].
    apply logged_refl.
Qed.

Lemma fetch_for_each_logged (E : FetchUltimate.env) (nfts : list json) :
  forall st, Shape.logged st (fst (for_each (FetchUltimate.visit_nft E) nfts st)).
Proof.
  induction nfts as [|nft rest IH]; intros st; [apply logged_refl|].
  cbn [for_each].
  pose proof (fetch_visit_nft_logged E st nft) as H1.
  destruct (FetchUltimate.visit_nft E st nft) as [st1 [e|]]; cbn [fst] in *.
  - exact H1.
  - exact (logged_trans _ _ _ H1 (IH st1)).
Qed.

Lemma fetch_handler_logged (st : FetchUltimate.state) (retry_count : Z)
    (success : bool) (e : exn) :
  Shape.logged st (fst (FetchUltimate.handler st retry_count success e)).
Proof.
  unfold FetchUltimate.handler.
  destruct (retry_count + 1 >=? FetchUltimate.max_retries_per_batch);
    apply logged_same; reflexivity.
Qed.

Lemma fetch_batch_logged (E : FetchUltimate.env) (st : FetchUltimate.state)
    (retry_count : Z) :
  Shape.logged st (fst (FetchUltimate.batch E st retry_count)).
Proof.
  unfold FetchUltimate.batch.
  destruct (FetchUltimate.get_nfts_by_collection E (FetchUltimate.calls st)
              (FetchUltimate.cursor st)) as [[[nfts next_cursor] evs] calls'].
  destruct (truthy nfts); cbn [negb]; [|apply logged_same; reflexivity].
  destruct (py_len nfts) as [n|e].
  2:{ eapply logged_trans; [|apply fetch_handler_logged].
      apply logged_same; reflexivity. }
  destruct (py_iter nfts) as [l|e].
  2:{ eapply logged_trans; [|apply fetch_handler_logged].
      apply logged_same; reflexivity. }
  match goal with
  | |- context [for_each (FetchUltimate.visit_nft E) l ?s] =>
      pose proof (fetch_for_each_logged E l s) as Hloop;
      destruct (for_each (FetchUltimate.visit_nft E) l s) as [st2 [e|]]
  end; cbn [fst] in Hloop.
  - eapply logged_trans; [|apply fetch_handler_logged].
    eapply logged_trans; [|exact Hloop]. apply logged_same; reflexivity.
  - destruct (truthy next_cursor); cbn [negb fst];
      (eapply logged_trans; [|apply logged_same with (st := st2); reflexivity]);
      (eapply logged_trans; [|exact Hloop]); apply logged_same; reflexivity.
Qed.

Lemma fetch_retry_loop_logged (E : FetchUltimate.env) (budget : nat) :
  forall st retry_count success,
    Shape.logged st (fst (FetchUltimate.retry_loop E budget st retry_count success)).
Proof.
  induction budget as [|budget IH]; intros st retry_count success;
    [apply logged_refl|].
  cbn [FetchUltimate.retry_loop].
  destruct ((retry_count <? FetchUltimate.max_retries_per_batch) && negb success);
    [|apply logged_refl].
  pose proof (fetch_batch_logged E st retry_count) as H.
  destruct (FetchUltimate.batch E st retry_count) as [st' [f|rc s]]; cbn [fst] in *.
  - exact H.
  - exact (logged_trans _ _ _ H (IH st' rc s)).
Qed.

(** X8: in the cursor script the counter [ultimate_found] and the ledger
    move together: over any run of [main], whatever the API answers and
    whether appends fail or assets raise, the ledger is the one found at the
    start followed by new rows, each of the four cells id, name, owner and
    collection id, and [ultimate_found] has grown by exactly their number. *)
Theorem X8_ultimate_found_counts_the_rows_appended :
  forall (E : FetchUltimate.env) (fuel : nat) (st : FetchUltimate.state),
    Shape.logged st (fst (FetchUltimate.main_loop E fuel st)).
Proof.
  intros E fuel. induction fuel as [|fuel IH]; intros st; [apply logged_refl|].
  cbn [FetchUltimate.main_loop].
  pose proof (fetch_retry_loop_logged E 4 st 0 false) as H.
  destruct (FetchUltimate.retry_loop E 4 st 0 false) as [st' [f|]]; cbn [fst] in *.
  - exact H.
  - exact (logged_trans _ _ _ H (IH st')).
Qed.

(** ** The cursor script: the exits of [main] *)

Lemma fetch_handler_first_error (st : FetchUltimate.state) (e : exn) :
  snd (FetchUltimate.handler st 0 true e) = FetchUltimate.Continue 1 true.
Proof. reflexivity. Qed.

Lemma fetch_batch_first_pass (E : FetchUltimate.env) (st : FetchUltimate.state) :
  snd (FetchUltimate.batch E st 0) = FetchUltimate.Return FetchUltimate.Complete \/
  exists retry_count,
    snd (FetchUltimate.batch E st 0) = FetchUltimate.Continue retry_count true.
Proof.
  unfold FetchUltimate.batch.
  destruct (FetchUltimate.get_nfts_by_collection E (FetchUltimate.calls st)
              (FetchUltimate.cursor st)) as [[[nfts next_cursor] evs] calls'].
  destruct (truthy nfts); cbn [negb]; [|left; reflexivity].
  destruct (py_len nfts) as [n|e]; [|right; eexists; reflexivity].
  destruct (py_iter nfts) as [l|e]; [|right; eexists; reflexivity].
  match goal with
  | |- context [for_each (FetchUltimate.visit_nft E) l ?s] =>
      destruct (for_each (FetchUltimate.visit_nft E) l s) as [st2 [e|]]
  end; [right; eexists; reflexivity|].
  destruct (truthy next_cursor); cbn [negb];
    [right; eexists; reflexivity|left; reflexivity].
Qed.

Lemma fetch_retry_loop_exits (E : FetchUltimate.env) (st : FetchUltimate.state) :
  snd (FetchUltimate.retry_loop E 4 st 0 false) = Some FetchUltimate.Complete \/
  snd (FetchUltimate.retry_loop E 4 st 0 false) = None.
Proof.
  cbn [FetchUltimate.retry_loop].
  change ((0 <? FetchUltimate.max_retries_per_batch) && negb false) with true.
  cbn iota.
  destruct (fetch_batch_first_pass E st) as [H | [rc H]];
    destruct (FetchUltimate.batch E st 0) as [st' p]; cbn [snd] in H; subst p.
  - left. reflexivity.
  - right. rewrite andb_false_r. reflexivity.
Qed.

(** X9: [main] of the cursor script never takes its exit "Processing
    complete (with errors)": an exception in a batch comes after [success]
    has been set, so the inner loop is left with [retry_count] at one and
    the outer loop resets it.  A run ends by the normal completion or does
    not end. *)
Theorem X9_cursor_main_never_reports_errors :
  forall (E : FetchUltimate.env) (fuel : nat) (st : FetchUltimate.state)
         (sheet : list (list json)),
    snd (FetchUltimate.main_loop E fuel st) <> FetchUltimate.CompleteWithErrors /\
    snd (FetchUltimate.main E fuel sheet) <> FetchUltimate.CompleteWithErrors.
Proof.
  assert (H : forall E fuel st,
             snd (FetchUltimate.main_loop E fuel st) <> FetchUltimate.CompleteWithErrors).
  { intros E fuel. induction fuel as [|fuel IH]; intros st; [discriminate|].
    cbn [FetchUltimate.main_loop].
    destruct (fetch_retry_loop_exits E st) as [Hx | Hx];
      destruct (FetchUltimate.retry_loop E 4 st 0 false) as [st' o];
      cbn [snd] in Hx; subst o.
    - discriminate.
    - apply IH. }
  intros E fuel st sheet. split; [apply H|]. unfold FetchUltimate.main. apply H.
Qed.

Section StuckBatch.

Variables (E : FetchUltimate.env) (items next_cursor bad : json) (rest : list json).
Variables (n : Z) (e : exn).
Hypothesis same_page :
  forall k c, FetchUltimate.one_attempt (FetchUltimate.api E k c) 0
              = FetchUltimate.Got items next_cursor.
Hypothesis some_items : truthy items = true.
Hypothesis counted : py_len items = Ok n.
Hypothesis listed : py_iter items = Ok (bad :: rest).
Hypothesis malformed : FetchUltimate.check_nft_rarity bad = Raise e.

Lemma fetch_stuck_pass (st : FetchUltimate.state) :
  exists st',
    FetchUltimate.retry_loop E 4 st 0 false = (st', None) /\
    FetchUltimate.total_processed st' = FetchUltimate.total_processed st + n /\
    FetchUltimate.cursor st' = FetchUltimate.cursor st /\
    FetchUltimate.batch_number st' = FetchUltimate.batch_number st /\
    FetchUltimate.rows st' = FetchUltimate.rows st /\
    FetchUltimate.calls st' = S (FetchUltimate.calls st).
Proof.
  cbn [FetchUltimate.retry_loop].
  change ((0 <? FetchUltimate.max_retries_per_batch) && negb false) with true.
  cbn iota. unfold FetchUltimate.batch, FetchUltimate.get_nfts_by_collection,
    FetchUltimate.max_retries.
  cbn [FetchUltimate.attempts]. rewrite same_page, some_items, counted, listed.
  cbn [negb for_each]. unfold FetchUltimate.visit_nft at 1. rewrite malformed.
  cbn. eexists. repeat split.
Qed.

Lemma fetch_stuck_forever (fuel : nat) :
  forall st,
    snd (FetchUltimate.main_loop E fuel st) = FetchUltimate.OutOfFuel /\
    FetchUltimate.total_processed (fst (FetchUltimate.main_loop E fuel st))
      = FetchUltimate.total_processed st + n * Z.of_nat fuel /\
    FetchUltimate.cursor (fst (FetchUltimate.main_loop E fuel st))
      = FetchUltimate.cursor st /\
    FetchUltimate.rows (fst (FetchUltimate.main_loop E fuel st))
      = FetchUltimate.rows st /\
    FetchUltimate.calls (fst (FetchUltimate.main_loop E fuel st))
      = (FetchUltimate.calls st + fuel)%nat.
Proof.
  induction fuel as [|fuel IH]; intros st.
  - cbn. repeat split; try reflexivity; lia.
  - cbn [FetchUltimate.main_loop].
    destruct (fetch_stuck_pass st) as (st' & Hpass & Ht & Hc & _ & Hr & Hk).
    rewrite Hpass. destruct (IH st') as (Hend & Ht' & Hc' & Hr' & Hk').
    repeat split.
    + exact Hend.
    + rewrite Ht', Ht. lia.
    + rewrite Hc', Hc. reflexivity.
    + rewrite Hr', Hr. reflexivity.
    + rewrite Hk', Hk. lia.
Qed.

End StuckBatch.

(** X10: when the first asset of the page the API keeps answering with
    makes [check_nft_rarity] raise, [main] of the cursor script never
    returns: every turn of its outer loop requests the same cursor again,
    adds the page length to [total_processed] once more, and leaves the
    ledger and the cursor as they were. *)
Theorem X10_malformed_asset_stalls_the_cursor_script
    (E : FetchUltimate.env) (items next_cursor bad : json) (rest : list json)
    (n : Z) (e : exn)
    (Hsame : forall k c, FetchUltimate.one_attempt (FetchUltimate.api E k c) 0
                         = FetchUltimate.Got items next_cursor)
    (Hsome : truthy items = true)
    (Hlen : py_len items = Ok n)
    (Hiter : py_iter items = Ok (bad :: rest))
    (Hbad : FetchUltimate.check_nft_rarity bad = Raise e) :
  forall (fuel : nat) (st : FetchUltimate.state),
    snd (FetchUltimate.main_loop E fuel st) = FetchUltimate.OutOfFuel /\
    FetchUltimate.total_processed (fst (FetchUltimate.main_loop E fuel st))
      = FetchUltimate.total_processed st + n * Z.of_nat fuel /\
    FetchUltimate.cursor (fst (FetchUltimate.main_loop E fuel st))
      = FetchUltimate.cursor st /\
    FetchUltimate.rows (fst (FetchUltimate.main_loop E fuel st))
      = FetchUltimate.rows st /\
    FetchUltimate.calls (fst (FetchUltimate.main_loop E fuel st))
      = (FetchUltimate.calls st + fuel)%nat.
Proof.
  intros fuel st.
  exact (fetch_stuck_forever E items next_cursor bad rest n e
           Hsame Hsome Hlen Hiter Hbad fuel st).
Qed.

Lemma X10_malformed_asset_stalls_the_cursor_script_witness :
  FetchUltimate.check_nft_rarity Sample.null_trait = Raise AttributeError /\
  snd (FetchUltimate.main_loop Sample.stuck_page 7 Sample.fetch_start)
    = FetchUltimate.OutOfFuel /\
  FetchUltimate.total_processed
    (fst (FetchUltimate.main_loop Sample.stuck_page 7 Sample.fetch_start)) = 14.
Proof.
  split; [reflexivity|].
  pose proof (X10_malformed_asset_stalls_the_cursor_script Sample.stuck_page
                (JArr [Sample.null_trait; Sample.ultimate]) (JStr "c1")
                Sample.null_trait [Sample.ultimate] 2 AttributeError
                (fun _ _ => eq_refl) eq_refl eq_refl eq_refl eq_refl
                7%nat Sample.fetch_start) as (Hend & Htotal & _).
  split; [exact Hend|]. rewrite Htotal. reflexivity.
Defined.

(** ** The cursor script: one call of [get_nfts_by_collection] *)

Lemma fetch_one_attempt_got (answer : outcome) (attempt : Z) (items next_cursor : json) :
  FetchUltimate.one_attempt answer attempt = FetchUltimate.Got items next_cursor ->
  (items, next_cursor) = (JArr [], JNull) \/ truthy items = true.
Proof.
  unfold FetchUltimate.one_attempt.
  destruct answer as [|status body]; [discriminate|].
  destruct (status =? 200); [|discriminate].
  destruct (response_json body) as [data|]; [|discriminate].
  destruct (contains "error" data) as [[|]|]; try discriminate.
  destruct (dict_get data "result" (JObj [])) as [result|]; cbn [bind]; [|discriminate].
  destruct (dict_get result "items" (JArr [])) as [its|]; cbn [bind]; [|discriminate].
  destruct (truthy its) eqn:Ht; cbn [negb].
  - destruct (dict_get result "cursor" JNull) as [c|]; cbn [bind]; [|discriminate].
    intros H. injection H as <- <-. right. exact Ht.
  - intros H. injection H as <- <-. left. reflexivity.
Qed.

Lemma fetch_attempts_bounds (E : FetchUltimate.env) (todo : nat) :
  forall attempt calls cursor,
    let r := FetchUltimate.attempts E todo attempt calls cursor in
    (calls <= snd r <= calls + todo)%nat /\
    (0 < todo -> calls < snd r)%nat /\
    FetchUltimate.requests (snd (fst r))
      = repeat (FetchUltimate.cursor_param cursor) (snd r - calls) /\
    (fst (fst r) = (JArr [], JNull) \/ truthy (fst (fst (fst r))) = true).
Proof.
  induction todo as [|todo IH]; intros attempt calls cursor r; subst r.
  - cbn. rewrite Nat.sub_diag. repeat split; try lia. left. reflexivity.
  - cbn [FetchUltimate.attempts].
    destruct (FetchUltimate.one_attempt
                (FetchUltimate.api E calls (FetchUltimate.cursor_param cursor)) attempt)
      as [items next_cursor|evs] eqn:Ho.
    + cbn [fst snd]. replace (S calls - calls)%nat with 1%nat by lia.
      repeat split; try lia. exact (fetch_one_attempt_got _ _ _ _ Ho).
    + specialize (IH (attempt + 1) (S calls) cursor). cbv zeta in IH.
      destruct (FetchUltimate.attempts E todo (attempt + 1) (S calls) cursor)
        as [[res evs'] calls'].
      cbn [fst snd] in *. destruct IH as ((Hlo & Hhi) & _ & Hreq & Hres).
      repeat split; try lia; [|exact Hres].
      rewrite fetch_requests_post, fetch_requests_app, Hreq.
      destruct (fetch_one_attempt_pause _ _ _ Ho) as (_ & ->). cbn [app].
      replace (calls' - calls)%nat with (S (calls' - S calls))%nat by lia.
      reflexivity.
Qed.

(** X11: one call of [get_nfts_by_collection] sends at least one request
    and at most three, all with the cursor it was given, and hands back
    either the pair [([], None)] or a list of items that is not empty. *)
Theorem X11_get_nfts_sends_one_to_three_requests :
  forall (E : FetchUltimate.env) (calls : nat) (cursor : json),
    let r := FetchUltimate.get_nfts_by_collection E calls cursor in
    (calls < snd r <= calls + 3)%nat /\
    FetchUltimate.requests (snd (fst r))
      = repeat (FetchUltimate.cursor_param cursor) (snd r - calls) /\
    (fst (fst r) = (JArr [], JNull) \/ truthy (fst (fst (fst r))) = true).
Proof.
  intros E calls cursor r. subst r. unfold FetchUltimate.get_nfts_by_collection.
  pose proof (fetch_attempts_bounds E FetchUltimate.max_retries 0 calls cursor) as H.
  cbv zeta in H. destruct H as ((_ & Hhi) & Hlo & Hreq & Hres).
  repeat split; try assumption. apply Hlo. unfold FetchUltimate.max_retries. lia.
Qed.

(** ** The page scan without checkpoint: requests *)

Lemma run_from_cons (page : Z) (k : nat) :
  Shape.run_from page (S k) = page :: Shape.run_from (page + 1) k.
Proof.
  unfold Shape.run_from. cbn [seq map]. rewrite Z.add_0_r. f_equal.
  rewrite <- seq_shift, map_map. apply map_ext. intros i. lia.
Qed.

Lemma track_posted_emit (page : Z) (r : TrackUltimate.report) :
  TrackUltimate.posted (TrackUltimate.emit [TrackUltimate.Post page; TrackUltimate.Sleep 500] r)
    = page :: TrackUltimate.posted r.
Proof. reflexivity. Qed.

(** X12: [find_all_ultimate_nfts] never asks twice for a page: the pages it
    requests are consecutive numbers from the first one, one request each,
    and the page it stops on is the last of them. *)
Theorem X12_pages_are_requested_once_in_sequence :
  forall (api : nat -> Z -> outcome) (fuel calls : nat) (page : Z)
         (found : list TrackUltimate.entry) (total : Z),
    let r := TrackUltimate.scan api fuel calls page found total in
    exists k,
      (k <= fuel)%nat /\
      TrackUltimate.posted r = Shape.run_from page k /\
      (TrackUltimate.how r <> TrackUltimate.OutOfFuel ->
       (0 < k)%nat /\ TrackUltimate.last_page r = page + Z.of_nat k - 1).
Proof.
  intros api fuel. induction fuel as [|fuel IH]; intros calls page found total r;
    subst r.
  - exists 0%nat. cbn. repeat split; try lia; exfalso; apply H; reflexivity.
  - cbn [TrackUltimate.scan].
    assert (Hstop : forall f t h,
      h <> TrackUltimate.OutOfFuel ->
      let r := {| TrackUltimate.trace := [TrackUltimate.Post page];
                  TrackUltimate.ultimate_nfts := f; TrackUltimate.total_checked := t;
                  TrackUltimate.last_page := page; TrackUltimate.how := h |} in
      exists k, (k <= S fuel)%nat /\
        TrackUltimate.posted r = Shape.run_from page k /\
        (TrackUltimate.how r <> TrackUltimate.OutOfFuel ->
         (0 < k)%nat /\ TrackUltimate.last_page r = page + Z.of_nat k - 1)).
    { intros f t h _ r. exists 1%nat. subst r. cbn. rewrite Z.add_0_r.
      repeat split; lia. }
    destruct (api calls page) as [|status body]; [apply Hstop; discriminate|].
    destruct (TrackUltimate.page_items body) as [[items n]|e];
      [|apply Hstop; discriminate].
    destruct (py_iter items) as [nfts|e]; [|apply Hstop; discriminate].
    destruct (for_each TrackUltimate.visit_nft nfts found) as [found' [e|]];
      [apply Hstop; discriminate|].
    destruct (n <? TrackUltimate.last_page_below); [apply Hstop; discriminate|].
    destruct (IH (S calls) (page + 1) found' (total + n)) as (k & Hk & Hp & Hlast).
    exists (S k). rewrite track_posted_emit, Hp, run_from_cons.
    split; [lia|]. split; [reflexivity|].
    cbn [TrackUltimate.emit TrackUltimate.how TrackUltimate.last_page].
    intros Hend. destruct (Hlast Hend) as [Hpos Hl]. split; lia.
Qed.

(** ** The page scan without checkpoint: what it reports *)

Lemma track_attr_matches_true (attr : json) :
  TrackUltimate.attr_matches attr = Ok true ->
  exists s, getitem attr "value" = Ok (JStr s) /\ lower s = "ultimate".
Proof.
  destruct attr as [ | b | n | s | l | fields]; try discriminate.
  rewrite track_attr_matches_spec. intros H. injection H as H.
  apply andb_prop in H. destruct H as [_ Hp].
  destruct (getitem_value_of_match _ Hp) as (v & Hget & Hfield).
  exists v. split; [exact Hget|].
  unfold Spec.rarity_predicate in Hp. apply andb_prop in Hp. destruct Hp as [_ Hv].
  rewrite Hfield in Hv. apply String.eqb_eq. exact Hv.
Qed.

Lemma track_make_entry_rarity (nft content metadata attributes attr : json)
    (u : TrackUltimate.entry) :
  TrackUltimate.make_entry nft content metadata attributes attr = Ok u ->
  getitem attr "value" = Ok (TrackUltimate.e_rarity u).
Proof.
  unfold TrackUltimate.make_entry.
  destruct (getitem nft "id") as [i|]; cbn [bind]; [|discriminate].
  destruct (dict_get metadata "name" JNull) as [n|]; cbn [bind]; [|discriminate].
  destruct (getitem attr "value") as [r|]; cbn [bind]; [|discriminate].
  destruct (dict_get content "files" (JArr [JObj []])) as [files|]; cbn [bind];
    [|discriminate].
  destruct (getitem0 files) as [f|]; cbn [bind]; [|discriminate].
  destruct (dict_get f "uri" (JStr "")) as [uri|]; cbn [bind]; [|discriminate].
  intros H. injection H as <-. reflexivity.
Qed.

Lemma reported_refl (found : list TrackUltimate.entry) : Shape.reported found found.
Proof. exists []. rewrite app_nil_r. split; [reflexivity|constructor]. Qed.

Lemma reported_trans (a b c : list TrackUltimate.entry) :
  Shape.reported a b -> Shape.reported b c -> Shape.reported a c.
Proof.
  intros (m1 & -> & F1) (m2 & -> & F2). exists (m1 ++ m2). split.
  - rewrite app_assoc. reflexivity.
  - apply Forall_app. split; assumption.
Qed.

Lemma track_visit_attr_reported (nft content metadata attributes : json)
    (found : list TrackUltimate.entry) (attr : json) :
  Shape.reported found
    (fst (TrackUltimate.visit_attr nft content metadata attributes found attr)).
Proof.
  unfold TrackUltimate.visit_attr.
  destruct (TrackUltimate.attr_matches attr) as [[|]|e] eqn:Hm;
    try apply reported_refl.
  destruct (TrackUltimate.make_entry nft content metadata attributes attr) as [u|e]
    eqn:Hu; [|apply reported_refl].
  exists [u]. split; [reflexivity|]. constructor; [|constructor].
  destruct (track_attr_matches_true _ Hm) as (s & Hget & Hs).
  exists s. split; [|exact Hs].
  pose proof (track_make_entry_rarity _ _ _ _ _ _ Hu) as Hr. congruence.
Qed.

Lemma for_each_preserves {A S : Type} (R : S -> S -> Prop)
    (body : S -> A -> S * option exn) :
  (forall s, R s s) ->
  (forall a b c, R a b -> R b c -> R a c) ->
  (forall s x, R s (fst (body s x))) ->
  forall l s, R s (fst (for_each body l s)).
Proof.
  intros Hrefl Htrans Hbody l. induction l as [|x l IH]; intros s; [apply Hrefl|].
  cbn [for_each]. pose proof (Hbody s x) as H1.
  destruct (body s x) as [s1 [e|]]; cbn [fst] in *; [exact H1|].
  exact (Htrans _ _ _ H1 (IH s1)).
Qed.

Lemma track_visit_nft_reported (found : list TrackUltimate.entry) (nft : json) :
  Shape.reported found (fst (TrackUltimate.visit_nft found nft)).
Proof.
  unfold TrackUltimate.visit_nft.
  match goal with
  | |- context [match ?c with Ok _ => _ | Raise _ => _ end] =>
      destruct c as [[[[content metadata] attributes] attrs]|e]
  end; [|apply reported_refl].
  apply (for_each_preserves Shape.reported
           (TrackUltimate.visit_attr nft content metadata attributes)
           reported_refl reported_trans).
  intros s x. apply track_visit_attr_reported.
Qed.

Lemma py_len_nonneg (v : json) (n : Z) : py_len v = Ok n -> 0 <= n.
Proof.
  destruct v; cbn; try discriminate; intros H; injection H as <-; lia.
Qed.

Lemma track_page_items_nonneg (body : option json) (items : json) (n : Z) :
  TrackUltimate.page_items body = Ok (items, n) -> 0 <= n.
Proof.
  unfold TrackUltimate.page_items.
  destruct (response_json body) as [data|]; cbn [bind]; [|discriminate].
  destruct (getitem data "result") as [result|]; cbn [bind]; [|discriminate].
  destruct (getitem result "items") as [its|]; cbn [bind]; [|discriminate].
  destruct (py_len its) as [m|] eqn:Hl; cbn [bind]; [|discriminate].
  intros H. injection H as _ <-. exact (py_len_nonneg _ _ Hl).
Qed.

(** X13: whatever the API answers and however the scan is left,
    [find_all_ultimate_nfts] keeps every entry it has reported so far, in
    order, and reports nothing but ultimates: each entry added carries a
    rarity string that reads "ultimate" once lower-cased.  The count of
    assets checked never decreases. *)
Theorem X13_reported_entries_are_kept_and_ultimate :
  forall (api : nat -> Z -> outcome) (fuel calls : nat) (page : Z)
         (found : list TrackUltimate.entry) (total : Z),
    let r := TrackUltimate.scan api fuel calls page found total in
    Shape.reported found (TrackUltimate.ultimate_nfts r) /\
    total <= TrackUltimate.total_checked r.
Proof.
  intros api fuel. induction fuel as [|fuel IH]; intros calls page found total r;
    subst r.
  - cbn. split; [apply reported_refl|lia].
  - cbn [TrackUltimate.scan].
    destruct (api calls page) as [|status body];
      [cbn; split; [apply reported_refl|lia]|].
    destruct (TrackUltimate.page_items body) as [[items n]|e] eqn:Hitems;
      [|cbn; split; [apply reported_refl|lia]].
    pose proof (track_page_items_nonneg _ _ _ Hitems) as Hn.
    destruct (py_iter items) as [nfts|e];
      [|cbn; split; [apply reported_refl|lia]].
    pose proof (for_each_preserves Shape.reported TrackUltimate.visit_nft
                  reported_refl reported_trans track_visit_nft_reported nfts found)
      as Hloop.
    destruct (for_each TrackUltimate.visit_nft nfts found) as [found' [e|]];
      cbn [fst] in Hloop; [cbn; split; [exact Hloop|lia]|].
    destruct (n <? TrackUltimate.last_page_below); [cbn; split; [exact Hloop|lia]|].
    destruct (IH (S calls) (page + 1) found' (total + n)) as [Hr Ht].
    cbn [TrackUltimate.emit TrackUltimate.ultimate_nfts TrackUltimate.total_checked].
    split; [exact (reported_trans _ _ _ Hloop Hr)|lia].
Qed.

(** X14: in [find_all_ultimate_nfts] an exception raised while a page is
    visited ends the scan on that page, however long the page is: no other
    request follows, the entries found so far and the count including this
    page are what the scan reports.  One way to get there is an ultimate
    asset whose [files] list is empty, for which the image lookup raises
    [IndexError]; an asset without a [files] key gets the empty image. *)
Theorem X14_exception_on_a_page_ends_the_scan :
  (forall api fuel calls page found total status body items n nfts found' e,
      api calls page = Response status body ->
      TrackUltimate.page_items body = Ok (items, n) ->
      py_iter items = Ok nfts ->
      for_each TrackUltimate.visit_nft nfts found = (found', Some e) ->
      TrackUltimate.scan api (S fuel) calls page found total =
      {| TrackUltimate.trace := [TrackUltimate.Post page];
         TrackUltimate.ultimate_nfts := found';
         TrackUltimate.total_checked := total + n;
         TrackUltimate.last_page := page;
         TrackUltimate.how := TrackUltimate.ErrorOnPage e |}) /\
  (forall nft content metadata attributes fields found i n,
      Expected.satisfies (JObj fields) = true ->
      getitem nft "id" = Ok i ->
      dict_get metadata "name" JNull = Ok n ->
      dict_get content "files" (JArr [JObj []]) = Ok (JArr []) ->
      TrackUltimate.visit_attr nft content metadata attributes found (JObj fields)
        = (found, Some IndexError)) /\
  (forall nft members metadata attributes fields found i n,
      Expected.satisfies (JObj fields) = true ->
      getitem nft "id" = Ok i ->
      dict_get metadata "name" JNull = Ok n ->
      assoc "files" members = None ->
      TrackUltimate.visit_attr nft (JObj members) metadata attributes found (JObj fields)
        = (found ++ [Expected.entry_for i n (JStr "") attributes (JObj fields)], None)).
Proof.
  split; [|split].
  - intros api fuel calls page found total status body items n nfts found' e
      Hapi Hitems Hiter Hvisit.
    cbn [TrackUltimate.scan]. rewrite Hapi, Hitems, Hiter, Hvisit. reflexivity.
  - intros nft content metadata attributes fields found i n Hs Hi Hn Hfiles.
    unfold TrackUltimate.visit_attr. rewrite track_attr_matches_spec.
    change (Spec.names_rarity_exactly (JObj fields) &&
            Spec.rarity_predicate "ultimate" (JObj fields))
      with (Expected.satisfies (JObj fields)).
    rewrite Hs. unfold Expected.satisfies in Hs. apply andb_prop in Hs.
    destruct Hs as [_ Hp]. destruct (getitem_value_of_match _ Hp) as (v & Hget & _).
    unfold TrackUltimate.make_entry. rewrite Hi, Hn, Hget, Hfiles. reflexivity.
  - intros nft members metadata attributes fields found i n Hs Hi Hn Hnone.
    unfold TrackUltimate.visit_attr. rewrite track_attr_matches_spec.
    change (Spec.names_rarity_exactly (JObj fields) &&
            Spec.rarity_predicate "ultimate" (JObj fields))
      with (Expected.satisfies (JObj fields)).
    rewrite Hs. unfold Expected.satisfies in Hs. apply andb_prop in Hs.
    destruct Hs as [_ Hp].
    rewrite (track_make_entry nft (JObj members) metadata attributes i n (JStr "")
               Hi Hn); [reflexivity| |exact Hp].
    cbn. rewrite Hnone. reflexivity.
Qed.

Lemma X14_exception_on_a_page_ends_the_scan_witness :
  for_each TrackUltimate.visit_nft [Sample.ultimate; Sample.no_files; Sample.ultimate] []
    = (fst (TrackUltimate.matches_of Sample.ultimate), Some IndexError) /\
  TrackUltimate.how
    (TrackUltimate.scan
       (fun _ _ => Sample.page [Sample.ultimate; Sample.no_files; Sample.ultimate])
       4 0 1 [] 0) = TrackUltimate.ErrorOnPage IndexError.
Proof.
  split; [reflexivity|].
  rewrite (proj1 X14_exception_on_a_page_ends_the_scan
             (fun _ _ => Sample.page [Sample.ultimate; Sample.no_files; Sample.ultimate])
             3%nat 0%nat 1 [] 0 200 _ _ 3
             [Sample.ultimate; Sample.no_files; Sample.ultimate] _ IndexError
             eq_refl eq_refl eq_refl eq_refl).
  reflexivity.
Defined.

(** ** [search_ultimates]: the end of the scan *)

Lemma search_posted_emit (page : Z) (r : SearchUltimates.report) :
  SearchUltimates.posted
    (SearchUltimates.emit [SearchUltimates.Post page; SearchUltimates.Sleep 1000] r)
    = page :: SearchUltimates.posted r.
Proof. reflexivity. Qed.

Lemma search_scan_requests (api : nat -> Z -> outcome) (fuel : nat) :
  forall calls page found total, exists k,
    (k <= fuel)%nat /\
    SearchUltimates.posted (SearchUltimates.scan api fuel calls page found total)
      = Shape.run_from page k.
Proof.
  induction fuel as [|fuel IH]; intros calls page found total.
  - exists 0%nat. split; [lia|reflexivity].
  - cbn [SearchUltimates.scan].
    assert (Hstop : forall f t h, exists k, (k <= S fuel)%nat /\
      SearchUltimates.posted
        {| SearchUltimates.trace := [SearchUltimates.Post page];
           SearchUltimates.ultimate_nfts := f; SearchUltimates.total_nfts_checked := t;
           SearchUltimates.how := h |} = Shape.run_from page k).
    { intros f t h. exists 1%nat. split; [lia|]. cbn. rewrite Z.add_0_r. reflexivity. }
    destruct (SearchUltimates.read_page (api calls page)) as [[[items n]|]|e];
      try apply Hstop.
    destruct (truthy items); cbn [negb]; [|apply Hstop].
    destruct (py_iter items) as [nfts|e]; [|apply Hstop].
    destruct (for_each SearchUltimates.visit_nft nfts found) as [found' [e|]];
      [apply Hstop|].
    destruct (n <? 1000); [apply Hstop|].
    destruct (IH (S calls) (page + 1) found' (total + n)) as (k & Hk & Hp).
    exists (S k). split; [lia|]. rewrite search_posted_emit, Hp, run_from_cons.
    reflexivity.
Qed.

(** X15: [search_ultimates] stops on an empty page and on a page of fewer
    than 1000 items alike: that page is the last one requested and its items
    are counted.  An error object in the answer also ends the scan after
    that single request, with the findings made so far.  In any run the
    pages requested are consecutive numbers, one request each. *)
Theorem X15_search_ultimates_stops_on_a_short_page :
  (forall api fuel calls page found total items n,
      SearchUltimates.read_page (api calls page) = Ok (Some (items, n)) ->
      n < 1000 ->
      let r := SearchUltimates.scan api (S fuel) calls page found total in
      SearchUltimates.trace r = [SearchUltimates.Post page] /\
      SearchUltimates.total_nfts_checked r = total + n /\
      SearchUltimates.how r <> SearchUltimates.OutOfFuel /\
      (truthy items = false ->
       SearchUltimates.how r = SearchUltimates.NoMoreItems /\
       SearchUltimates.ultimate_nfts r = found)) /\
  (forall api fuel calls page found total,
      SearchUltimates.read_page (api calls page) = Ok None ->
      SearchUltimates.scan api (S fuel) calls page found total =
      {| SearchUltimates.trace := [SearchUltimates.Post page];
         SearchUltimates.ultimate_nfts := found;
         SearchUltimates.total_nfts_checked := total;
         SearchUltimates.how := SearchUltimates.ApiError |}) /\
  (forall api fuel calls page found total, exists k,
      (k <= fuel)%nat /\
      SearchUltimates.posted (SearchUltimates.scan api fuel calls page found total)
        = Shape.run_from page k).
Proof.
  split; [|split].
  - intros api fuel calls page found total items n Hread Hn r. subst r.
    cbn [SearchUltimates.scan]. rewrite Hread.
    apply Z.ltb_lt in Hn.
    destruct (truthy items); cbn [negb].
    + destruct (py_iter items) as [nfts|e].
      * destruct (for_each SearchUltimates.visit_nft nfts found) as [found' [e|]].
        -- cbn. repeat split; try discriminate.
           unfold SearchUltimates.caught. destruct (is_request_exception e); discriminate.
        -- rewrite Hn. cbn. repeat split; discriminate.
      * cbn. repeat split; try discriminate.
        unfold SearchUltimates.caught. destruct (is_request_exception e); discriminate.
    + cbn. repeat split. discriminate.
  - intros api fuel calls page found total Hread.
    cbn [SearchUltimates.scan]. rewrite Hread. reflexivity.
  - intros. apply search_scan_requests.
Qed.

Lemma X15_search_ultimates_stops_on_a_short_page_witness :
  SearchUltimates.read_page (Sample.page [Sample.plain; Sample.ultimate])
    = Ok (Some (JArr [Sample.plain; Sample.ultimate], 2)) /\
  SearchUltimates.trace
    (SearchUltimates.scan (fun _ _ => Sample.page [Sample.plain; Sample.ultimate])
       5 0 1 [] 0) = [SearchUltimates.Post 1].
Proof.
  split; [reflexivity|].
  pose proof (proj1 X15_search_ultimates_stops_on_a_short_page
                (fun _ _ => Sample.page [Sample.plain; Sample.ultimate])
                4%nat 0%nat 1 [] 0 (JArr [Sample.plain; Sample.ultimate]) 2
                eq_refl eq_refl) as H.
  cbv zeta in H. exact (proj1 H).
Defined.

(** ** [search_ultimates]: what it reports *)

Lemma search_attr_matches_agrees (fields : list (string * json)) :
  Spec.text_or_absent fields "value" = true \/
  Spec.names_rarity_exactly (JObj fields) = false ->
  SearchUltimates.attr_matches (JObj fields) = TrackUltimate.attr_matches (JObj fields).
Proof.
  unfold SearchUltimates.attr_matches, TrackUltimate.attr_matches,
    Spec.text_or_absent, Spec.names_rarity_exactly, Spec.field_str.
  simpl dict_get. simpl getitem.
  destruct (assoc "trait_type" fields) as [[ | b | n | t | l | m]|]; simpl;
    try reflexivity.
  destruct (String.eqb t "rarity"); simpl; [|reflexivity].
  intros [H | H]; [|discriminate].
  destruct (assoc "value" fields) as [[ | b | n | v | l | m]|]; simpl;
    try reflexivity; discriminate.
Qed.

Lemma search_attr_matches_true (attr : json) :
  SearchUltimates.attr_matches attr = Ok true ->
  exists s, getitem attr "value" = Ok (JStr s) /\ lower s = "ultimate".
Proof.
  destruct attr as [ | b | n | s | l | fields]; try discriminate.
  unfold SearchUltimates.attr_matches. simpl dict_get. simpl getitem.
  destruct (assoc "trait_type" fields) as [[ | b | n | t | l | m]|]; simpl;
    try discriminate.
  destruct (String.eqb t "rarity"); simpl; [|discriminate].
  destruct (assoc "value" fields) as [[ | b | n | v | l | m]|]; simpl;
    try discriminate.
  intros H. injection H as H. exists v. split; [reflexivity|].
  apply String.eqb_eq. exact H.
Qed.

Lemma listed_refl (found : list SearchUltimates.info) : Shape.listed found found.
Proof. exists []. rewrite app_nil_r. split; [reflexivity|constructor]. Qed.

Lemma listed_trans (a b c : list SearchUltimates.info) :
  Shape.listed a b -> Shape.listed b c -> Shape.listed a c.
Proof.
  intros (m1 & -> & F1) (m2 & -> & F2). exists (m1 ++ m2). split.
  - rewrite app_assoc. reflexivity.
  - apply Forall_app. split; assumption.
Qed.

Lemma search_visit_attr_listed (nft metadata : json)
    (found : list SearchUltimates.info) (attr : json) :
  Shape.listed found (fst (SearchUltimates.visit_attr nft metadata found attr)).
Proof.
  unfold SearchUltimates.visit_attr.
  destruct (SearchUltimates.attr_matches attr) as [[|]|e] eqn:Hm;
    try apply listed_refl.
  destruct (SearchUltimates.make_info nft metadata attr) as [u|e] eqn:Hu;
    [|apply listed_refl].
  exists [u]. split; [reflexivity|]. constructor; [|constructor].
  destruct (search_attr_matches_true _ Hm) as (s & Hget & Hs).
  exists s. split; [|exact Hs].
  unfold SearchUltimates.make_info in Hu. rewrite Hget in Hu.
  destruct (getitem nft "id") as [i|]; cbn [bind] in Hu; [|discriminate].
  destruct (dict_get metadata "name" JNull) as [n|]; cbn [bind] in Hu; [|discriminate].
  injection Hu as <-. reflexivity.
Qed.

Lemma search_visit_nft_listed (found : list SearchUltimates.info) (nft : json) :
  Shape.listed found (fst (SearchUltimates.visit_nft found nft)).
Proof.
  unfold SearchUltimates.visit_nft.
  match goal with
  | |- context [match ?c with Ok _ => _ | Raise _ => _ end] =>
      destruct c as [[metadata attrs]|e]
  end; [|apply listed_refl].
  apply (for_each_preserves Shape.listed (SearchUltimates.visit_attr nft metadata)
           listed_refl listed_trans).
  intros s x. apply search_visit_attr_listed.
Qed.

(** X16: the test of [search_ultimates] gives the same answer as the test
    of [find_all_ultimate_nfts] on every attribute whose value is a string
    or absent, and on every attribute not named "rarity"; and whatever the
    API answers, the scan keeps the findings made so far and adds nothing
    but ultimates: each finding added carries a rarity string that reads
    "ultimate" once lower-cased. *)
Theorem X16_search_ultimates_reports_only_ultimates :
  (forall fields,
      Spec.text_or_absent fields "value" = true \/
      Spec.names_rarity_exactly (JObj fields) = false ->
      SearchUltimates.attr_matches (JObj fields)
        = TrackUltimate.attr_matches (JObj fields)) /\
  (forall api fuel calls page found total,
      Shape.listed found
        (SearchUltimates.ultimate_nfts
           (SearchUltimates.scan api fuel calls page found total))).
Proof.
  split; [exact search_attr_matches_agrees|].
  intros api fuel. induction fuel as [|fuel IH]; intros calls page found total;
    [apply listed_refl|].
  cbn [SearchUltimates.scan].
  destruct (SearchUltimates.read_page (api calls page)) as [[[items n]|]|e];
    try apply listed_refl.
  destruct (truthy items); cbn [negb]; [|apply listed_refl].
  destruct (py_iter items) as [nfts|e]; [|apply listed_refl].
  pose proof (for_each_preserves Shape.listed SearchUltimates.visit_nft
                listed_refl listed_trans search_visit_nft_listed nfts found) as Hloop.
  destruct (for_each SearchUltimates.visit_nft nfts found) as [found' [e|]];
    cbn [fst] in Hloop; [exact Hloop|].
  destruct (n <? 1000); [exact Hloop|].
  exact (listed_trans _ _ _ Hloop (IH (S calls) (page + 1) found' (total + n))).
Qed.

Lemma X16_search_ultimates_reports_only_ultimates_witness :
  Spec.text_or_absent [("trait_type", JStr "rarity"); ("value", JStr "Ultimate")] "value"
    = true /\
  SearchUltimates.attr_matches (Sample.attr (JStr "rarity") (JStr "Ultimate")) = Ok true.
Proof.
  split; [reflexivity|].
  exact (eq_trans
           (proj1 X16_search_ultimates_reports_only_ultimates
              [("trait_type", JStr "rarity"); ("value", JStr "Ultimate")]
              (or_introl eq_refl))
           eq_refl).
Defined.

(** ** [search_ultimate_nfts]: the first page with an ultimate *)

Lemma first_posted_emit (page : Z) (r : SearchUltimate.report) :
  SearchUltimate.posted
    (SearchUltimate.emit [SearchUltimate.Post page; SearchUltimate.Sleep 500] r)
    = page :: SearchUltimate.posted r.
Proof. reflexivity. Qed.

(** X17: when [search_ultimate_nfts] ends by printing ultimates, they are
    exactly the ultimates of the last page it requested, there is at least
    one, and every page requested before that one was read without error
    and held none: the scan stops at the first page with an ultimate asset
    and requests nothing after it. *)
Theorem X17_search_stops_at_the_first_page_with_an_ultimate :
  forall (api : nat -> Z -> outcome) (fuel calls : nat) (page : Z),
    let r := SearchUltimate.scan api fuel calls page in
    (SearchUltimate.how r = SearchUltimate.Found <-> SearchUltimate.printed r <> []) /\
    (SearchUltimate.how r = SearchUltimate.Found ->
     exists k status body items,
       SearchUltimate.posted r = Shape.run_from page (S k) /\
       api (calls + k)%nat (page + Z.of_nat k) = Response status body /\
       SearchUltimate.visit_page body = Ok (items, SearchUltimate.printed r) /\
       forall j, (j < k)%nat ->
         exists status' body' items',
           api (calls + j)%nat (page + Z.of_nat j) = Response status' body' /\
           SearchUltimate.visit_page body' = Ok (items', [])).
Proof.
  intros api fuel. induction fuel as [|fuel IH]; intros calls page r; subst r.
  - cbn. split; [split; [discriminate|intros H; contradiction]|discriminate].
  - cbn [SearchUltimate.scan].
    assert (Hstop : forall h, h <> SearchUltimate.Found ->
      let r := {| SearchUltimate.trace := [SearchUltimate.Post page];
                  SearchUltimate.printed := []; SearchUltimate.how := h |} in
      (SearchUltimate.how r = SearchUltimate.Found <-> SearchUltimate.printed r <> []) /\
      (SearchUltimate.how r = SearchUltimate.Found ->
       exists k status body items,
         SearchUltimate.posted r = Shape.run_from page (S k) /\
         api (calls + k)%nat (page + Z.of_nat k) = Response status body /\
         SearchUltimate.visit_page body = Ok (items, SearchUltimate.printed r) /\
         forall j, (j < k)%nat ->
           exists status' body' items',
             api (calls + j)%nat (page + Z.of_nat j) = Response status' body' /\
             SearchUltimate.visit_page body' = Ok (items', []))).
    { intros h Hh r. subst r. cbn. split.
      - split; [intros H; contradiction|intros H; contradiction].
      - intros H; contradiction. }
    destruct (api calls page) as [|status body] eqn:Hapi; [apply Hstop; discriminate|].
    destruct (SearchUltimate.visit_page body) as [[items [|u us]]|e] eqn:Hpage;
      [| |apply Hstop; discriminate].
    + destruct (py_len items) as [n|e]; [|apply Hstop; discriminate].
      destruct (n <? 1000); [apply Hstop; discriminate|].
      destruct (IH (S calls) (page + 1)) as [Hiff Hfound].
      cbn [SearchUltimate.emit SearchUltimate.how SearchUltimate.printed].
      split; [exact Hiff|]. intros Hf.
      destruct (Hfound Hf) as (k & st' & b' & it' & Hp & Ha & Hv & Hbefore).
      exists (S k), st', b', it'. repeat split.
      * rewrite first_posted_emit, Hp, <- run_from_cons. reflexivity.
      * replace (calls + S k)%nat with (S calls + k)%nat by lia.
        replace (page + Z.of_nat (S k)) with (page + 1 + Z.of_nat k) by lia.
        exact Ha.
      * exact Hv.
      * intros j Hj. destruct j as [|j].
        -- exists status, body, items. rewrite Nat.add_0_r. cbn [Z.of_nat].
           rewrite Z.add_0_r. split; [exact Hapi|exact Hpage].
        -- destruct (Hbefore j ltac:(lia)) as (s1 & b1 & i1 & Ha1 & Hv1).
           exists s1, b1, i1.
           replace (calls + S j)%nat with (S calls + j)%nat by lia.
           replace (page + Z.of_nat (S j)) with (page + 1 + Z.of_nat j) by lia.
           split; assumption.
    + cbn. split; [split; [discriminate|reflexivity]|]. intros _.
      exists 0%nat, status, body, items. split; [|split; [|split]].
      * cbn. rewrite Z.add_0_r. reflexivity.
      * rewrite Nat.add_0_r. cbn [Z.of_nat]. rewrite Z.add_0_r. exact Hapi.
      * exact Hpage.
      * intros j Hj. lia.
Qed.

(** The scan on two full pages without an ultimate and a third page that
    holds one. *)
Example search_ultimate_third_page :
  let r := SearchUltimate.search_ultimate_nfts Sample.third_page_has_one 9 in
  SearchUltimate.how r = SearchUltimate.Found /\
  SearchUltimate.posted r = [1; 2; 3] /\
  List.length (SearchUltimate.printed r) = 1%nat.
Proof. vm_compute. repeat split. Qed.

(** ** [add_ultimates_from_json] *)

Lemma add_build_values_shape (l : list json) :
  forall values,
    AddUltimate.build_values l = Ok values ->
    List.length values = List.length l /\
    Forall (fun row => exists i n, row = [JStr AddUltimate.collection_id; i; n]) values.
Proof.
  induction l as [|nft rest IH]; intros values H.
  - injection H as <-. split; [reflexivity|constructor].
  - cbn [AddUltimate.build_values] in H.
    destruct (AddUltimate.row_of nft) as [row|] eqn:Hrow; cbn [bind] in H;
      [|discriminate].
    destruct (AddUltimate.build_values rest) as [rows|]; cbn [bind] in H;
      [|discriminate].
    injection H as <-. destruct (IH rows eq_refl) as [Hlen Hall].
    split; [cbn; rewrite Hlen; reflexivity|]. constructor; [|exact Hall].
    unfold AddUltimate.row_of in Hrow.
    destruct (getitem nft "id") as [i|]; cbn [bind] in Hrow; [|discriminate].
    destruct (getitem nft "name") as [n|]; cbn [bind] in Hrow; [|discriminate].
    injection Hrow as <-. exists i, n. reflexivity.
Qed.

(** X18: [add_ultimates_from_json] changes the sheet in one step or not at
    all.  When it reports "Added n", the document had [n] elements and the
    sheet has gained [n] rows at its end, one per element, each made of the
    collection id, an id and a name; when it ends any other way (a malformed
    element, a failed append) the sheet is as it was.  It never reads the
    sheet: run a second time on the same document, it adds the same rows
    again. *)
Theorem X18_upload_is_all_or_nothing_and_repeats :
  forall (append_fails : bool) (document : json) (sheet : list (list json)),
    let r := AddUltimate.add_ultimates_from_json append_fails document sheet in
    (forall n, snd r = AddUltimate.Added n ->
       exists l values,
         py_iter document = Ok l /\ List.length l = n /\
         fst r = sheet ++ values /\ List.length values = n /\
         Forall (fun row => exists i m, row = [JStr AddUltimate.collection_id; i; m])
                values /\
         AddUltimate.add_ultimates_from_json false document (fst r)
           = (sheet ++ values ++ values, AddUltimate.Added n)) /\
    ((forall n, snd r <> AddUltimate.Added n) -> fst r = sheet).
Proof.
  intros append_fails document sheet r. subst r.
  unfold AddUltimate.add_ultimates_from_json.
  destruct (py_iter document) as [l|e] eqn:Hiter; cbn [bind].
  2:{ split; [intros n H; discriminate|reflexivity]. }
  destruct (AddUltimate.build_values l) as [values|e] eqn:Hvalues.
  2:{ split; [intros n H; discriminate|reflexivity]. }
  destruct (add_build_values_shape l values Hvalues) as [Hlen Hall].
  destruct append_fails; cbn [fst snd].
  - split; [intros n H; discriminate|reflexivity].
  - split.
    + intros n H. injection H as <-. exists l, values.
      rewrite <- app_assoc. repeat split; auto.
    + intros H. exfalso. exact (H _ eq_refl).
Qed.

Lemma add_build_values_of_findings (ultimates : list SearchUltimates.info) :
  AddUltimate.build_values (map SearchUltimates.info_json ultimates) =
  Ok (map (fun u => [JStr AddUltimate.collection_id;
                     SearchUltimates.i_id u; SearchUltimates.i_name u]) ultimates).
Proof.
  induction ultimates as [|u rest IH]; [reflexivity|].
  cbn [map AddUltimate.build_values]. rewrite IH. reflexivity.
Qed.

(** X19: the upload composes with [search_ultimates]: given the file that
    script writes for a non-empty list of findings, [add_ultimates_from_json]
    appends one row per finding, in order, made of the collection id, the
    finding's id and its name, and reports their number. *)
Theorem X19_upload_of_the_findings_of_search_ultimates
    (ultimates : list SearchUltimates.info) (document : json)
    (sheet : list (list json))
    (Hfile : SearchUltimates.document ultimates = Some document) :
  AddUltimate.add_ultimates_from_json false document sheet =
  (sheet ++ map (fun u => [JStr AddUltimate.collection_id;
                           SearchUltimates.i_id u; SearchUltimates.i_name u]) ultimates,
   AddUltimate.Added (List.length ultimates)).
Proof.
  unfold SearchUltimates.document in Hfile.
  assert (Hdoc : document = JArr (map SearchUltimates.info_json ultimates)).
  { destruct ultimates as [|u rest]; [discriminate|]. injection Hfile as <-.
    reflexivity. }
  subst document. unfold AddUltimate.add_ultimates_from_json. cbn [py_iter bind].
  rewrite add_build_values_of_findings, length_map. reflexivity.
Qed.

Lemma X19_upload_of_the_findings_of_search_ultimates_witness :
  let found := SearchUltimates.ultimate_nfts
                 (SearchUltimates.search_ultimates
                    (fun _ _ => Sample.page [Sample.plain; Sample.ultimate]) 3) in
  SearchUltimates.document found
    = Some (JArr [JObj [("id", JStr "U1"); ("name", JStr "#U1");
                        ("rarity", JStr "Ultimate")]]) /\
  AddUltimate.add_ultimates_from_json false
    (JArr [JObj [("id", JStr "U1"); ("name", JStr "#U1"); ("rarity", JStr "Ultimate")]])
    [] = ([[JStr AddUltimate.collection_id; JStr "U1"; JStr "#U1"]], AddUltimate.Added 1).
Proof.
  split; [reflexivity|].
  exact (X19_upload_of_the_findings_of_search_ultimates
           (SearchUltimates.ultimate_nfts
              (SearchUltimates.search_ultimates
                 (fun _ _ => Sample.page [Sample.plain; Sample.ultimate]) 3))
           _ [] eq_refl).
Defined.

(** X20: the upload does not compose with [find_all_ultimate_nfts]: the
    file that script writes is a dict with the findings under
    ["ultimate_nfts"], and [add_ultimates_from_json] iterates over its keys;
    whatever the scan found, the upload ends with an uncaught [TypeError]
    and the sheet is not touched.  Handed the list stored under that key,
    it would build one row per entry. *)
Theorem X20_upload_of_the_report_of_find_all_raises :
  forall (append_fails : bool) (now : string) (r : TrackUltimate.report)
         (sheet : list (list json)),
    AddUltimate.add_ultimates_from_json append_fails
      (TrackUltimate.result_document now r) sheet
      = (sheet, AddUltimate.Uncaught TypeError) /\
    getitem (TrackUltimate.result_document now r) "ultimate_nfts"
      = Ok (JArr (map TrackUltimate.entry_json (TrackUltimate.ultimate_nfts r))) /\
    AddUltimate.build_values
      (map TrackUltimate.entry_json (TrackUltimate.ultimate_nfts r))
      = Ok (map (fun u => [JStr AddUltimate.collection_id;
                           TrackUltimate.e_id u; TrackUltimate.e_name u])
                (TrackUltimate.ultimate_nfts r)).
Proof.
  intros append_fails now r sheet. split; [reflexivity|]. split; [reflexivity|].
  induction (TrackUltimate.ultimate_nfts r) as [|u rest IH]; [reflexivity|].
  cbn [map AddUltimate.build_values]. rewrite IH. reflexivity.
Qed.
